(** * VivaSmart backend: entitlement and access-control engine

    A shallow embedding of the request handlers of the VivaSmart backend and
    the properties of the entitlement rules they implement: who may run an
    analysis, how an analysis is metered, how coupons are redeemed and how
    payments are verified.

    The top level follows v4.0 of [server.js] route by route.  The coupon
    handlers of the earlier revisions live in modules of their own: [V2]
    (server.js v2), [V3] (v3) and [V3Extra] (v3.0.0, the revision that
    counts [extra_trials] and has [userCanAnalyze]); [V3ExtraRoutes] holds
    the analyze and payment verification routes of v3.0.0.

    Modelling conventions.
    - A Supabase table is the list of its rows.  [select ... eq] is a
      [filter], [.single()] / [.maybeSingle()] yield a row exactly when one
      row matches, and [update(...).eq(col, v)] patches every matching row.
    - A nullable numeric column is an [option Z]; [x || d] and the implicit
      numeric coercion of [null] are written out ([js_or], [js_num]).
    - Timestamps are milliseconds since the epoch; the clock read by
      [new Date()] / [Date.now()] is the parameter [now] of a handler.
    - A request parameter that the code passes through [parseInt] is an
      [option Z]: [None] is [NaN] (missing or non-numeric input).
    - An optional request parameter is an [option]; where the code tests a
      string for truthiness the empty string is treated as missing
      ([nonempty]).
    - A row created by [insert] takes the columns the handler does not set
      (the generated [id], the column defaults) from a row given as a
      parameter.
    - Store reads and writes succeed, except in the coupon redemption
      handlers, whose writes take an outcome ([write_outcome]) so that the
      failure of a sub-step can be stated.
    - A handler is a function on the store: it runs to completion before
      the next request is served.  For coupon redemption the validating
      reads and the writes are also given apart ([redeem_check],
      [redeem_commit]), so that two requests in flight together can be
      stated. *)

From Stdlib Require Import ZArith List String Bool Lia.
Import ListNotations.
Local Open Scope string_scope.
Local Open Scope Z_scope.

(** ** JavaScript value conventions *)

(** [x || d] on a nullable number: [null], [undefined], [NaN] and [0] are
    falsy. *)
Definition js_or (x : option Z) (d : Z) : Z :=
  match x with
  | Some v => if v =? 0 then d else v
  | None => d
  end.

(** Truthiness of a nullable number. *)
Definition js_truthy (x : option Z) : bool :=
  match x with
  | Some v => negb (v =? 0)
  | None => false
  end.

(** Numeric coercion of a nullable number in [+] and [>=]: [null] is [0]. *)
Definition js_num (x : option Z) : Z :=
  match x with
  | Some v => v
  | None => 0
  end.

(** [x || d] on a nullable string: [null] and the empty string are falsy. *)
Definition js_or_str (x : option string) (d : string) : string :=
  match x with
  | Some v => if String.eqb v "" then d else v
  | None => d
  end.

(** [x === 'lit'] on a nullable string. *)
Definition str_is (x : option string) (lit : string) : bool :=
  match x with
  | Some v => String.eqb v lit
  | None => false
  end.

(** An optional string tested for truthiness: the empty string is falsy. *)
Definition nonempty (x : option string) : option string :=
  match x with
  | Some v => if String.eqb v "" then None else Some v
  | None => None
  end.

Definition is_some {A} (x : option A) : bool :=
  match x with Some _ => true | None => false end.

(** ASCII model of [String.prototype.trim], [toUpperCase] and [toLowerCase]. *)
Definition is_space (c : Ascii.ascii) : bool :=
  let n := Ascii.nat_of_ascii c in
  ((9 <=? n) && (n <=? 13))%nat || (n =? 32)%nat.

Fixpoint trim_left (s : string) : string :=
  match s with
  | String c r => if is_space c then trim_left r else s
  | EmptyString => EmptyString
  end.

Fixpoint trim_right (s : string) : string :=
  match s with
  | String c r =>
      match trim_right r with
      | EmptyString => if is_space c then EmptyString else String c EmptyString
      | r' => String c r'
      end
  | EmptyString => EmptyString
  end.

Definition trim (s : string) : string := trim_right (trim_left s).

Definition upper_char (c : Ascii.ascii) : Ascii.ascii :=
  let n := Ascii.nat_of_ascii c in
  if ((97 <=? n) && (n <=? 122))%nat then Ascii.ascii_of_nat (n - 32) else c.

Fixpoint toUpperCase (s : string) : string :=
  match s with
  | String c r => String (upper_char c) (toUpperCase r)
  | EmptyString => EmptyString
  end.

Definition lower_char (c : Ascii.ascii) : Ascii.ascii :=
  let n := Ascii.nat_of_ascii c in
  if ((65 <=? n) && (n <=? 90))%nat then Ascii.ascii_of_nat (n + 32) else c.

Fixpoint toLowerCase (s : string) : string :=
  match s with
  | String c r => String (lower_char c) (toLowerCase r)
  | EmptyString => EmptyString
  end.

(** ** Tables *)

Definition single {A} (rows : list A) : option A :=
  match rows with
  | [r] => Some r
  | _ => None
  end.

Definition update_where {A} (p : A -> bool) (patch : A -> A) (t : list A) : list A :=
  map (fun r => if p r then patch r else r) t.

(** ** Rows *)

Record user := mkUser {
  id : Z;
  email : string;
  name : string;
  role : string;
  trials_total : option Z;
  trials_used : option Z;
  subscribed : bool;
  sub_plan : option string;
  sub_expires : option Z;
  created_at : Z;
  last_login : option Z
}.

Record coupon := mkCoupon {
  c_id : Z;
  code : string;
  active : bool;
  max_uses : option Z;
  uses : Z;
  trial_grant : option Z;
  plan_grant : option string;
  expiry_date : option Z;
  note : option string;
  created_by : option string
}.

Record redemption := mkRedemption {
  coupon_id : Z;
  user_id : Z
}.

Record payment := mkPayment {
  p_id : Z;
  p_user_id : option Z;
  p_email : option string;
  plan : string;
  plan_label : string;
  upi_ref : string;
  mobile : option string;
  status : string;
  verified_at : option Z;
  verified_by : option string;
  notes : option string;
  trials_granted : option Z
}.

Record analysis := mkAnalysis {
  a_user_id : Z;
  a_email : string;
  project_title : string
}.

Record db := mkDb {
  users : list user;
  coupons : list coupon;
  coupon_redemptions : list redemption;
  payments : list payment;
  analyses : list analysis
}.

Definition with_users (s : db) (us : list user) : db :=
  mkDb us (coupons s) (coupon_redemptions s) (payments s) (analyses s).
Definition with_coupons (s : db) (cs : list coupon) : db :=
  mkDb (users s) cs (coupon_redemptions s) (payments s) (analyses s).
Definition with_redemptions (s : db) (rs : list redemption) : db :=
  mkDb (users s) (coupons s) rs (payments s) (analyses s).
Definition with_payments (s : db) (ps : list payment) : db :=
  mkDb (users s) (coupons s) (coupon_redemptions s) ps (analyses s).
Definition with_analyses (s : db) (xs : list analysis) : db :=
  mkDb (users s) (coupons s) (coupon_redemptions s) (payments s) xs.

(** Column patches of the [users] table. *)
Definition set_sub (sb : bool) (pl : option string) (ex : option Z) (u : user) : user :=
  mkUser (id u) (email u) (name u) (role u) (trials_total u) (trials_used u)
         sb pl ex (created_at u) (last_login u).
Definition set_trials_total (t : Z) (u : user) : user :=
  mkUser (id u) (email u) (name u) (role u) (Some t) (trials_used u)
         (subscribed u) (sub_plan u) (sub_expires u) (created_at u) (last_login u).
Definition set_trials_used (n : Z) (u : user) : user :=
  mkUser (id u) (email u) (name u) (role u) (trials_total u) (Some n)
         (subscribed u) (sub_plan u) (sub_expires u) (created_at u) (last_login u).
Definition set_name (nm : string) (u : user) : user :=
  mkUser (id u) (email u) nm (role u) (trials_total u) (trials_used u)
         (subscribed u) (sub_plan u) (sub_expires u) (created_at u) (last_login u).
Definition set_last_login (t : Z) (u : user) : user :=
  mkUser (id u) (email u) (name u) (role u) (trials_total u) (trials_used u)
         (subscribed u) (sub_plan u) (sub_expires u) (created_at u) (Some t).

(** Column patches of the [coupons] table. *)
Definition set_uses (n : Z) (c : coupon) : coupon :=
  mkCoupon (c_id c) (code c) (active c) (max_uses c) n (trial_grant c)
           (plan_grant c) (expiry_date c) (note c) (created_by c).
Definition set_active (b : bool) (c : coupon) : coupon :=
  mkCoupon (c_id c) (code c) b (max_uses c) (uses c) (trial_grant c)
           (plan_grant c) (expiry_date c) (note c) (created_by c).
Definition set_max_uses (m : Z) (c : coupon) : coupon :=
  mkCoupon (c_id c) (code c) (active c) (Some m) (uses c) (trial_grant c)
           (plan_grant c) (expiry_date c) (note c) (created_by c).
Definition set_trial_grant (g : Z) (c : coupon) : coupon :=
  mkCoupon (c_id c) (code c) (active c) (max_uses c) (uses c) (Some g)
           (plan_grant c) (expiry_date c) (note c) (created_by c).
Definition set_plan_grant (g : option string) (c : coupon) : coupon :=
  mkCoupon (c_id c) (code c) (active c) (max_uses c) (uses c) (trial_grant c)
           g (expiry_date c) (note c) (created_by c).
Definition set_expiry_date (e : option Z) (c : coupon) : coupon :=
  mkCoupon (c_id c) (code c) (active c) (max_uses c) (uses c) (trial_grant c)
           (plan_grant c) e (note c) (created_by c).
Definition set_note (n : option string) (c : coupon) : coupon :=
  mkCoupon (c_id c) (code c) (active c) (max_uses c) (uses c) (trial_grant c)
           (plan_grant c) (expiry_date c) n (created_by c).

Definition user_by_id (s : db) (uid : Z) : option user :=
  single (filter (fun u => id u =? uid) (users s)).

Definition update_user (uid : Z) (patch : user -> user) (s : db) : db :=
  with_users s (update_where (fun u => id u =? uid) patch (users s)).

(** ** Configuration *)

Definition FREE_TRIALS : Z := 3.
Definition ADMIN_EMAIL : string := "saikiranjinde49@gmail.com".
Definition DAY_MS : Z := 86400000.

(** The time values a [Date] can hold; [toISOString] throws a [RangeError]
    on any other. *)
Definition MAX_TIME_MS : Z := 8640000000000000.
Definition valid_time (t : Z) : bool := (- MAX_TIME_MS <=? t) && (t <=? MAX_TIME_MS).

(** ** Helpers of server.js (v4.0) *)

(** The expiry test shared by [refreshUser] and the login route. *)
Definition sub_lapsed (now : Z) (u : user) : bool :=
  subscribed u && str_is (sub_plan u) "monthly" &&
  match sub_expires u with
  | Some e => e <? now
  | None => false
  end.

(** The in-memory effect of [u.subscribed=false; u.sub_plan=null;
    u.sub_expires=null] on the snapshot, when the test holds. *)
Definition normalize (now : Z) (u : user) : user :=
  if sub_lapsed now u then set_sub false None None u else u.

(** [refreshUser(userId)]: the snapshot returned and the store left behind. *)
Definition refreshUser (now : Z) (userId : Z) (s : db) : option user * db :=
  match user_by_id s userId with
  | None => (None, s)
  | Some u =>
      if sub_lapsed now u
      then (Some (set_sub false None None u),
            update_user (id u) (set_sub false None None) s)
      else (Some u, s)
  end.

(** [daysLeft(iso)] rounds the remaining time up to whole days. *)
Definition daysLeft (now : Z) (iso : option Z) : option Z :=
  match iso with
  | None => None
  | Some e => Some (Z.max 0 (- ((now - e) / DAY_MS)))
  end.

Record user_view := mkView {
  v_id : Z;
  v_email : string;
  v_name : string;
  v_role : string;
  v_trials_used : Z;
  v_trials_total : Z;
  v_trials_left : Z;
  v_subscribed : bool;
  v_sub_plan : option string;
  v_sub_expires : option Z;
  v_days_remaining : option Z
}.

Definition formatUser (now : Z) (u : user) : user_view :=
  let total := js_or (trials_total u) FREE_TRIALS in
  let used := js_or (trials_used u) 0 in
  let left := Z.max 0 (total - used) in
  let days := if str_is (sub_plan u) "monthly" && is_some (sub_expires u)
              then daysLeft now (sub_expires u) else None in
  mkView (id u) (email u) (name u) (role u) used total left
         (subscribed u) (sub_plan u) (sub_expires u) days.

(** ** Responses *)

Inductive response :=
| Ok (message : string)
| OkUser (u : user_view)
| OkName (name : string)
| OkAnalysis (projectTitle : string)
| OkPayment (message : string) (paymentId : Z)
| OkCoupon (message : string) (type : string) (granted : Z)
| OkCreated (c : coupon)
| OkActive (active : bool)
| OkDone
| TrialLimit (used : option Z) (total : Z)
| Error (http : Z) (error : string).

(** The failure names of the specification, as the handlers report them. *)
Definition CouponNotFound : response := Error 404 "Invalid coupon code.".
Definition CouponInactive : response := Error 400 "Coupon is no longer active.".
Definition CouponExhausted : response := Error 400 "Coupon fully redeemed.".
Definition CouponExpired : response := Error 400 "Coupon has expired.".
Definition AlreadyRedeemed : response := Error 400 "You already used this coupon.".
Definition AlreadyVerified : response := Error 400 "Already verified.".

(** ** POST /api/analyze *)

(** What the Gemini call and [parseGeminiJSON] can produce. *)
Inductive gemini_reply :=
| FetchThrew                              (* the fetch promise rejects *)
| NotOk (message : option string)         (* [!gr.ok] *)
| EmptyText                               (* no text part in the candidates *)
| Unparsable                              (* [parseGeminiJSON] throws *)
| Parsed (projectTitle : option string)   (* any JSON value but [null] *)
| ParsedNull.                             (* the text is the JSON value [null] *)

Definition analyzer_succeeded (g : gemini_reply) : bool :=
  match g with
  | Parsed _ => true
  | _ => false
  end.

(** The Analyzer call failed, or its output could not be parsed. *)
Definition analyzer_failed (g : gemini_reply) : bool :=
  match g with
  | FetchThrew | NotOk _ | EmptyText | Unparsable => true
  | Parsed _ | ParsedNull => false
  end.

Record analyze_req := mkAnalyzeReq {
  ar_text : option string;        (* [None]: missing or not a string *)
  ar_userId : option Z
}.

(** [!text] on a string. *)
Definition is_empty (t : string) : bool := String.eqb t "".

(** The metering test [ur.role!=='admin' && !ur.subscribed]. *)
Definition metered (u : user) : bool :=
  negb (String.eqb (role u) "admin") && negb (subscribed u).

(** The entitlement gate: [Some r] is the early return. *)
Definition trial_gate (ur : option user) : option response :=
  match ur with
  | Some u =>
      if metered u then
        let total := js_or (trials_total u) FREE_TRIALS in
        if total <=? js_num (trials_used u)
        then Some (TrialLimit (trials_used u) total)
        else None
      else None
  | None => None
  end.

Definition log_analysis (uid : Z) (u : user) (title : option string) (s : db) : db :=
  with_analyses s (analyses s ++ [mkAnalysis uid (email u) (js_or_str title "Unknown")]).

Definition analyze (now : Z) (reply : gemini_reply) (req : analyze_req) (s : db)
  : response * db :=
  match ar_text req with
  | None => (Error 400 "Missing text.", s)
  | Some text =>
      if is_empty text then (Error 400 "Missing text.", s)
      else if Z.of_nat (String.length (trim text)) <? 60 then (Error 400 "Text too short.", s)
      else if 15000 <? Z.of_nat (String.length text) then (Error 400 "Text too long.", s)
      else
        let '(ur, s1) := match ar_userId req with
                         | Some userId => refreshUser now userId s
                         | None => (None, s)
                         end in
        match trial_gate ur with
        | Some denied => (denied, s1)
        | None =>
            match reply with
            | FetchThrew => (Error 500 "Analysis failed", s1)
            | NotOk m => (Error 502 ("Gemini: " ++ js_or_str m "Unknown"), s1)
            | EmptyText => (Error 502 "Empty Gemini response.", s1)
            | Unparsable => (Error 500 "Analysis failed: Could not parse AI response.", s1)
            | Parsed title =>
                let s3 :=
                  match ar_userId req, ur with
                  | Some userId, Some u =>
                      let s2 := if metered u
                                then update_user userId
                                       (set_trials_used (js_num (trials_used u) + 1)) s1
                                else s1 in
                      log_analysis userId u title s2
                  | _, _ => s1
                  end in
                (OkAnalysis (js_or_str title "Your Project"), s3)
            | ParsedNull =>
                (* [parseGeminiJSON] returns [null]: the increment is awaited,
                   then reading [parsed.projectTitle] throws, before the
                   insert into [analyses] or, without a user, in the reply. *)
                let s2 :=
                  match ar_userId req, ur with
                  | Some userId, Some u =>
                      if metered u
                      then update_user userId
                             (set_trials_used (js_num (trials_used u) + 1)) s1
                      else s1
                  | _, _ => s1
                  end in
                (Error 500 "Analysis failed: Cannot read properties of null (reading 'projectTitle')",
                 s2)
            end
        end
  end.

(** ** POST /api/coupons/redeem *)

(** How one awaited Supabase write can end.  The handler never inspects the
    [error] field of a write's result, so a write the store refuses is
    skipped silently; a rejected promise reaches the [catch] block. *)
Inductive write_outcome :=
| Applied       (* the statement took effect *)
| Refused       (* resolved with [{ error }]: no effect, execution continues *)
| Threw.        (* the promise rejected: no effect, control jumps to [catch] *)

(** The outcomes of the three writes of the mutating phase, in program
    order: the coupon update, the user grant, the redemption insert. *)
Record redeem_writes := mkWrites {
  w_coupon : write_outcome;
  w_grant : write_outcome;
  w_insert : write_outcome
}.

Definition all_applied : redeem_writes := mkWrites Applied Applied Applied.

Definition write (o : write_outcome) (stmt : db -> db) (s : db)
    (k : db -> response * db) : response * db :=
  match o with
  | Applied => k (stmt s)
  | Refused => k s
  | Threw => (Error 500 "Coupon redeem failed.", s)
  end.

Definition coupon_by_code (s : db) (c : string) : option coupon :=
  single (filter (fun cp => String.eqb (code cp) c) (coupons s)).

Definition redemption_of (s : db) (cid uid : Z) : option redemption :=
  single (filter (fun r => (coupon_id r =? cid) && (user_id r =? uid))
                 (coupon_redemptions s)).

Definition exhausted (cp : coupon) : bool :=
  js_truthy (max_uses cp) && (js_num (max_uses cp) <=? uses cp).

Definition past (now : Z) (t : option Z) : bool :=
  match t with
  | Some e => e <? now
  | None => false
  end.

(** The patch [{ uses:newUses, active:(max_uses&&newUses>=max_uses)?false:active }],
    computed from the snapshot [cp]. *)
Definition bump_uses (cp : coupon) (row : coupon) : coupon :=
  let newUses := uses cp + 1 in
  set_active (if js_truthy (max_uses cp) && (js_num (max_uses cp) <=? newUses)
              then false else active cp)
             (set_uses newUses row).

Definition update_coupon (cid : Z) (patch : coupon -> coupon) (s : db) : db :=
  with_coupons s (update_where (fun c => c_id c =? cid) patch (coupons s)).

(** [u?.trials_total||FREE_TRIALS] after re-reading the row. *)
Definition current_total (s : db) (uid : Z) : Z :=
  match user_by_id s uid with
  | Some u => js_or (trials_total u) FREE_TRIALS
  | None => FREE_TRIALS
  end.

(** The grant a coupon carries, as a statement on the store. *)
Definition coupon_grant (now : Z) (cp : coupon) (userId : Z) (s : db) : db :=
  let tg := js_or (trial_grant cp) 0 in
  if 0 <? tg then
    update_user userId (set_trials_total (current_total s userId + tg)) s
  else
    let exp := if str_is (plan_grant cp) "monthly"
               then Some (now + 30 * DAY_MS) else None in
    update_user userId
      (set_sub true (Some (js_or_str (plan_grant cp) "one_time")) exp) s.

Definition insert_redemption (cid uid : Z) (s : db) : db :=
  with_redemptions s (coupon_redemptions s ++ [mkRedemption cid uid]).

Definition redeem_reply (cp : coupon) : response :=
  let tg := js_or (trial_grant cp) 0 in
  if 0 <? tg then OkCoupon "trial(s) added!" "trials" tg
  else OkCoupon "Unlimited access granted!" "unlimited" tg.

Definition redeem (now : Z) (w : redeem_writes)
    (rq_code : option string) (rq_userId : option Z) (s : db) : response * db :=
  match nonempty rq_code with
  | None => (Error 400 "Code required.", s)
  | Some c =>
  match rq_userId with
  | None => (Error 400 "Please login to redeem a coupon.", s)
  | Some userId =>
  match coupon_by_code s (toUpperCase (trim c)) with
  | None => (CouponNotFound, s)
  | Some cp =>
      if negb (active cp) then (CouponInactive, s)
      else if exhausted cp then (CouponExhausted, s)
      else if past now (expiry_date cp) then (CouponExpired, s)
      else
        match redemption_of s (c_id cp) userId with
        | Some _ => (AlreadyRedeemed, s)
        | None =>
            write (w_coupon w) (update_coupon (c_id cp) (bump_uses cp)) s (fun s1 =>
            write (w_grant w) (coupon_grant now cp userId) s1 (fun s2 =>
            write (w_insert w) (insert_redemption (c_id cp) userId) s2 (fun s3 =>
            (redeem_reply cp, s3))))
        end
  end end end.

(** The handler in two phases.  Every read and write is awaited, so another
    request can run between the reads that validate a redemption and the
    writes that apply it: [redeem_check] is the validation against the store
    as it is when the lookups run, [redeem_commit] the three writes against
    the store as it is when they run.  Nothing is looked up again at that
    point.  [redeem] is the schedule in which no other request comes in
    between. *)
Definition redeem_check (now : Z) (rq_code : option string) (rq_userId : option Z)
    (s : db) : response + (coupon * Z) :=
  match nonempty rq_code with
  | None => inl (Error 400 "Code required.")
  | Some c =>
  match rq_userId with
  | None => inl (Error 400 "Please login to redeem a coupon.")
  | Some userId =>
  match coupon_by_code s (toUpperCase (trim c)) with
  | None => inl CouponNotFound
  | Some cp =>
      if negb (active cp) then inl CouponInactive
      else if exhausted cp then inl CouponExhausted
      else if past now (expiry_date cp) then inl CouponExpired
      else
        match redemption_of s (c_id cp) userId with
        | Some _ => inl AlreadyRedeemed
        | None => inr (cp, userId)
        end
  end end end.

Definition redeem_commit (now : Z) (w : redeem_writes) (cp : coupon) (userId : Z)
    (s : db) : response * db :=
  write (w_coupon w) (update_coupon (c_id cp) (bump_uses cp)) s (fun s1 =>
  write (w_grant w) (coupon_grant now cp userId) s1 (fun s2 =>
  write (w_insert w) (insert_redemption (c_id cp) userId) s2 (fun s3 =>
  (redeem_reply cp, s3)))).

(** ** PUT /api/admin/users/:id *)

Record admin_user_req := mkAdminReq {
  action : string;
  daysToGrant : option Z;       (* [parseInt(daysToGrant)] *)
  trialsToAdd : option Z;       (* [parseInt(trialsToAdd)] *)
  trialsTotal : option Z;       (* [parseInt(trialsTotal)] *)
  new_name : option string
}.

(** The [updates] object of each action, or the response the handler ends
    in before the update: the early 400, or the 500 of the [catch] block when
    [toISOString] throws on the expiry of [grant_monthly]. *)
Definition admin_updates (now : Z) (rq : admin_user_req) (u : user)
  : response + (user -> user) :=
  let a := action rq in
  if String.eqb a "grant_monthly" then
    let d := Z.max 1 (js_or (daysToGrant rq) 30) in
    if valid_time (now + d * DAY_MS)
    then inr (set_sub true (Some "monthly") (Some (now + d * DAY_MS)))
    else inl (Error 500 "Update failed: Invalid time value")
  else if String.eqb a "grant_one_time" then
    inr (set_sub true (Some "one_time") None)
  else if String.eqb a "add_trials" then
    inr (set_trials_total (js_or (trials_total u) FREE_TRIALS
                           + Z.max 1 (js_or (trialsToAdd rq) 1)))
  else if String.eqb a "set_trials" then
    inr (fun row => set_trials_used 0
           (set_trials_total (Z.max 0 (js_or (trialsTotal rq) FREE_TRIALS)) row))
  else if String.eqb a "reset_used" then
    inr (set_trials_used 0)
  else if String.eqb a "revoke_all" then
    inr (fun row => set_trials_used 0
           (set_trials_total FREE_TRIALS (set_sub false None None row)))
  else if String.eqb a "update_name" then
    match new_name rq with
    | Some nm => if String.eqb (trim nm) "" then inl (Error 400 "Name required.")
                 else inr (set_name (trim nm))
    | None => inl (Error 400 "Name required.")
    end
  else inl (Error 400 "Unknown action.").

Definition adminUpdateUser (now : Z) (uid : Z) (rq : admin_user_req) (s : db)
  : response * db :=
  match refreshUser now uid s with
  | (None, s1) => (Error 404 "User not found.", s1)
  | (Some u, s1) =>
      match admin_updates now rq u with
      | inl r => (r, s1)
      | inr updates =>
          let s2 := update_user uid updates s1 in
          match refreshUser now uid s2 with
          | (Some updated, s3) => (OkUser (formatUser now updated), s3)
          | (None, s3) => (Error 500 "Update failed", s3)
          end
      end
  end.

(** ** POST /api/admin/payments/:id/verify *)

Definition payment_by_id (s : db) (pid : Z) : option payment :=
  single (filter (fun p => p_id p =? pid) (payments s)).

Definition mark_verified (now : Z) (nts : option string) (granted : option Z)
    (p : payment) : payment :=
  mkPayment (p_id p) (p_user_id p) (p_email p) (plan p) (plan_label p) (upi_ref p)
            (mobile p) "verified" (Some now) (Some ADMIN_EMAIL) nts granted.

Definition update_payment (pid : Z) (patch : payment -> payment) (s : db) : db :=
  with_payments s (update_where (fun p => p_id p =? pid) patch (payments s)).

Definition users_by_email (s : db) (em : string) : list user :=
  filter (fun u => String.eqb (email u) em) (users s).

Definition update_users_by_email (em : string) (patch : user -> user) (s : db) : db :=
  with_users s (update_where (fun u => String.eqb (email u) em) patch (users s)).

(** [Math.max(1,parseInt(trialsToGrant)||1)]. *)
Definition trials_to_grant (trialsToGrant : option Z) : Z :=
  Z.max 1 (js_or trialsToGrant 1).

Definition verifyPayment (now : Z) (pid : Z) (nts : option string)
    (trialsToGrant : option Z) (s : db) : response * db :=
  match payment_by_id s pid with
  | None => (Error 404 "Not found.", s)
  | Some pay =>
      if String.eqb (status pay) "verified" then (AlreadyVerified, s)
      else
        let nt := trials_to_grant trialsToGrant in
        let is99 := String.eqb (plan pay) "99" in
        let s1 := update_payment (p_id pay)
                    (mark_verified now (nonempty nts) (if is99 then None else Some nt)) s in
        let s2 :=
          if is99 then
            let ud := set_sub true (Some "monthly") (Some (now + 30 * DAY_MS)) in
            match p_user_id pay with
            | Some uid => update_user uid ud s1
            | None =>
                match nonempty (p_email pay) with
                | Some em => update_users_by_email em ud s1
                | None => s1
                end
            end
          else
            match p_user_id pay with
            | Some uid =>
                update_user uid (set_trials_total (current_total s1 uid + nt)) s1
            | None =>
                match nonempty (p_email pay) with
                | Some em =>
                    match single (users_by_email s1 em) with
                    | Some u =>
                        update_user (id u)
                          (set_trials_total (js_or (trials_total u) FREE_TRIALS + nt)) s1
                    | None =>
                        update_users_by_email em (set_trials_total (FREE_TRIALS + nt)) s1
                    end
                | None => s1
                end
            end in
        (Ok "Verified and access granted.", s2)
  end.

(** ** POST /api/admin/payments/:id/reject *)

Definition mark_rejected (now : Z) (nts : option string) (p : payment) : payment :=
  mkPayment (p_id p) (p_user_id p) (p_email p) (plan p) (plan_label p) (upi_ref p)
            (mobile p) "rejected" (Some now) (Some ADMIN_EMAIL)
            (Some (js_or_str nts "Rejected")) (trials_granted p).

Definition rejectPayment (now : Z) (pid : Z) (nts : option string) (s : db)
  : response * db :=
  (OkDone, update_payment pid (mark_rejected now nts) s).

(** ** POST /api/payments/submit *)

Record payment_req := mkPaymentReq {
  pr_userId : option Z;
  pr_email : option string;
  pr_plan : option string;
  pr_planLabel : option string;
  pr_upiRef : option string;
  pr_mobile : option string
}.

(** [!x || !x.trim()] on an optional string. *)
Definition blank (x : option string) : bool :=
  match x with
  | Some v => String.eqb (trim v) ""
  | None => true
  end.

(** The inserted row: the columns of the payload over the row [fresh] that
    carries the generated [id] and the table's column defaults. *)
Definition submitPayment (fresh : payment) (rq : payment_req) (s : db) : response * db :=
  if blank (pr_upiRef rq) then (Error 400 "UPI Reference required.", s)
  else if blank (pr_mobile rq) then (Error 400 "Mobile number required.", s)
  else
    match nonempty (pr_plan rq) with
    | None => (Error 400 "Plan required.", s)
    | Some pl =>
        if negb (is_some (nonempty (pr_email rq))) && negb (is_some (pr_userId rq))
        then (Error 400 "Please login before payment.", s)
        else
          let ref := trim (js_or_str (pr_upiRef rq) "") in
          match single (filter (fun p => String.eqb (upi_ref p) ref) (payments s)) with
          | Some _ => (Error 400 "UPI reference already submitted.", s)
          | None =>
              let row :=
                mkPayment (p_id fresh)
                  (match pr_userId rq with Some uid => Some uid | None => p_user_id fresh end)
                  (match nonempty (pr_email rq) with
                   | Some em => Some (trim (toLowerCase em))
                   | None => p_email fresh
                   end)
                  pl
                  (js_or_str (pr_planLabel rq)
                     (if String.eqb pl "10" then "One-Time" else "Monthly"))
                  ref (Some (trim (js_or_str (pr_mobile rq) ""))) "pending"
                  (verified_at fresh) (verified_by fresh) (notes fresh)
                  (trials_granted fresh) in
              (OkPayment "Payment submitted! Admin will verify within 30 minutes."
                         (p_id row),
               with_payments s (payments s ++ [row]))
          end
    end.

(** ** POST /api/auth/login *)

(** [em.split('@')[0]]. *)
Fixpoint before_at (s : string) : string :=
  match s with
  | String c r => if (Ascii.nat_of_ascii c =? 64)%nat then EmptyString else String c (before_at r)
  | EmptyString => EmptyString
  end.

(** The tail of the login route: the inline copy of the expiry check. *)
Definition login_finish (now : Z) (u : user) (s : db) : response * db :=
  if sub_lapsed now u
  then (OkUser (formatUser now (set_sub false None None u)),
        update_user (id u) (set_sub false None None) s)
  else (OkUser (formatUser now u), s).

(** A new account is the row [fresh] (generated [id], column defaults) with
    the inserted [email], [name] and [role]. *)
Definition login (now : Z) (fresh : user) (rq_email rq_name : option string) (s : db)
  : response * db :=
  match nonempty rq_email with
  | None => (Error 400 "Email required.", s)
  | Some e =>
      let em := trim (toLowerCase e) in
      match users_by_email s em with
      | [] =>
          let nu := mkUser (id fresh) em (trim (js_or_str rq_name (before_at em))) "student"
                           (trials_total fresh) (trials_used fresh) (subscribed fresh)
                           (sub_plan fresh) (sub_expires fresh) (created_at fresh)
                           (last_login fresh) in
          login_finish now nu (with_users s (users s ++ [nu]))
      | [u] =>
          let rename := if blank rq_name then (fun r : user => r)
                        else set_name (trim (js_or_str rq_name "")) in
          login_finish now (rename u)
            (update_user (id u) (fun r => rename (set_last_login now r)) s)
      | _ => (Error 500 "Login failed", s)
      end
  end.

(** ** GET /api/users/:id/status, GET /api/admin/users/:id, PUT /api/users/:id/name *)

Definition userStatus (now : Z) (uid : Z) (s : db) : response * db :=
  match refreshUser now uid s with
  | (Some u, s1) => (OkUser (formatUser now u), s1)
  | (None, s1) => (Error 404 "User not found.", s1)
  end.

Definition adminGetUser (now : Z) (uid : Z) (s : db) : response * db :=
  match refreshUser now uid s with
  | (Some u, s1) => (OkUser (formatUser now u), s1)
  | (None, s1) => (Error 404 "Not found.", s1)
  end.

Definition updateName (uid : Z) (rq_name : option string) (s : db) : response * db :=
  if blank rq_name then (Error 400 "Name required.", s)
  else
    let nm := trim (js_or_str rq_name "") in
    (OkName nm, update_user uid (set_name nm) s).

(** ** Admin coupon routes *)

Record coupon_req := mkCouponReq {
  cr_code : option string;
  cr_maxUses : option Z;          (* [parseInt(maxUses)] *)
  cr_planGrant : option string;
  cr_trialGrant : option Z;       (* [parseInt(trialGrant)] *)
  cr_note : option string;
  cr_expiryDate : option Z
}.

(** [generated] is the random ["VS-"] code used when none is supplied;
    [fresh] carries the generated [id] and the column defaults. *)
Definition createCoupon (generated : string) (fresh : coupon) (rq : coupon_req) (s : db)
  : response * db :=
  let code0 := if blank (cr_code rq) then generated else js_or_str (cr_code rq) "" in
  let cd := toUpperCase (trim code0) in
  let maxUses := js_or (cr_maxUses rq) 100 in
  let trialGrant := js_or (cr_trialGrant rq) 0 in
  let planGrant :=
    if 0 <? trialGrant then "trials"
    else if str_is (cr_planGrant rq) "one_time" || str_is (cr_planGrant rq) "monthly"
         then js_or_str (cr_planGrant rq) "one_time"
         else "one_time" in
  match coupon_by_code s cd with
  | Some _ => (Error 400 "Code already exists.", s)
  | None =>
      let row :=
        mkCoupon (c_id fresh) cd (active fresh) (Some maxUses) (uses fresh)
                 (Some trialGrant) (Some planGrant)
                 (match cr_expiryDate rq with
                  | Some e => Some e
                  | None => expiry_date fresh
                  end)
                 (match nonempty (cr_note rq) with
                  | Some n => Some (trim n)
                  | None => note fresh
                  end)
                 (Some ADMIN_EMAIL) in
      (OkCreated row, with_coupons s (coupons s ++ [row]))
  end.

(** The sparse body of the edit route: the outer [None] is [undefined]. *)
Record coupon_edit := mkCouponEdit {
  ce_trialGrant : option (option Z);
  ce_maxUses : option (option Z);
  ce_planGrant : option (option string);
  ce_note : option (option string);
  ce_active : option bool;
  ce_expiryDate : option (option Z)
}.

Definition when {A} (x : option A) (f : A -> coupon -> coupon) (c : coupon) : coupon :=
  match x with
  | Some v => f v c
  | None => c
  end.

Definition coupon_edits (e : coupon_edit) (c : coupon) : coupon :=
  when (ce_expiryDate e) set_expiry_date
    (when (ce_active e) set_active
      (when (ce_note e) set_note
        (when (ce_planGrant e) set_plan_grant
          (when (ce_maxUses e) (fun m => set_max_uses (js_or m 100))
            (when (ce_trialGrant e) (fun g => set_trial_grant (js_or g 0)) c))))).

Definition editCoupon (cid : Z) (e : coupon_edit) (s : db) : response * db :=
  (OkDone, update_coupon cid (coupon_edits e) s).

Definition toggleCoupon (cid : Z) (s : db) : response * db :=
  match single (filter (fun c => c_id c =? cid) (coupons s)) with
  | None => (Error 404 "Not found.", s)
  | Some cp =>
      (OkActive (negb (active cp)), update_coupon cid (set_active (negb (active cp))) s)
  end.

Definition deleteCoupon (cid : Z) (s : db) : response * db :=
  (OkDone, with_coupons s (filter (fun c => negb (c_id c =? cid)) (coupons s))).

(** ** The v2 backend (server.js): POST /api/coupons/redeem *)

Module V2.
Section Redeem.

(** PostgREST's [ilike] on the [code] column: the pattern first, the
    stored code second. *)
Variable ilike : string -> string -> bool.

Definition coupon_by_code (s : db) (c : string) : option coupon :=
  single (filter (fun cp => ilike (trim c) (code cp)) (coupons s)).

(** [uses >= max_uses], with [null] coerced to [0]. *)
Definition exhausted (cp : coupon) : bool := js_num (max_uses cp) <=? uses cp.

Definition bump_uses (cp : coupon) (row : coupon) : coupon :=
  let newUses := uses cp + 1 in
  let nowInactive := js_num (max_uses cp) <=? newUses in
  set_active (if nowInactive then false else active cp) (set_uses newUses row).

Definition redeem (now : Z) (rq_code : option string) (rq_userId : option Z)
    (s : db) : response * db :=
  match nonempty rq_code with
  | None => (Error 400 "Coupon code is required.", s)
  | Some c =>
  match coupon_by_code s c with
  | None => (Error 404 "Invalid coupon code.", s)
  | Some cp =>
      if negb (active cp) then (Error 400 "This coupon is no longer active.", s)
      else if exhausted cp then (Error 400 "Coupon has been fully redeemed.", s)
      else
        let already :=
          match rq_userId with
          | Some userId => is_some (redemption_of s (c_id cp) userId)
          | None => false
          end in
        if already then (Error 400 "You have already used this coupon.", s)
        else
          let subExpires := if str_is (plan_grant cp) "monthly"
                            then Some (now + 30 * 24 * 60 * 60 * 1000) else None in
          let s1 := update_coupon (c_id cp) (bump_uses cp) s in
          let s2 :=
            match rq_userId with
            | Some userId =>
                insert_redemption (c_id cp) userId
                  (update_user userId (set_sub true (plan_grant cp) subExpires) s1)
            | None => s1
            end in
          (Ok "Coupon applied! You now have unlimited access.", s2)
  end end.

End Redeem.
End V2.

(** ** The v3 backend: POST /api/coupons/redeem *)

Module V3.

Definition redeem (now : Z) (rq_code : option string) (rq_userId : option Z)
    (s : db) : response * db :=
  match nonempty rq_code with
  | None => (Error 400 "Code required.", s)
  | Some c =>
  match coupon_by_code s (toUpperCase (trim c)) with
  | None => (Error 404 "Invalid coupon code.", s)
  | Some cp =>
      if negb (active cp) then (Error 400 "Coupon is no longer active.", s)
      else if exhausted cp then (Error 400 "Coupon fully redeemed.", s)
      else
        let already :=
          match rq_userId with
          | Some userId => is_some (redemption_of s (c_id cp) userId)
          | None => false
          end in
        if already then (Error 400 "You already used this coupon.", s)
        else
          let s1 := update_coupon (c_id cp) (bump_uses cp) s in
          let trialGrant := js_or (trial_grant cp) 0 in
          let s2 :=
            match rq_userId with
            | Some userId =>
                insert_redemption (c_id cp) userId (coupon_grant now cp userId s1)
            | None => s1
            end in
          (OkCoupon (if 0 <? trialGrant then "Coupon applied! trial(s) added."
                     else "Coupon applied! Unlimited access granted.")
                    (if 0 <? trialGrant then "trials" else "unlimited") trialGrant, s2)
  end end.

End V3.

(** ** The v3.0.0 backend with [extra_trials] *)

Module V3Extra.

Record user := mkUser {
  id : Z;
  email : string;
  role : string;
  subscribed : bool;
  sub_plan : option string;
  sub_expires : option Z;
  trials_used : option Z;
  extra_trials : option Z
}.

Record coupon := mkCoupon {
  c_id : Z;
  code : string;
  access_type : string;
  trials_count : Z;
  max_uses : option Z;
  uses : Z;
  active : bool
}.

Record db := mkDb {
  users : list user;
  coupons : list coupon;
  coupon_redemptions : list redemption
}.

Inductive reply :=
| Redeemed (message : string) (u : user) (can_analyze : bool) (trials_allowed : Z)
| Failed (http : Z) (error : string).

(** The outcomes of the three writes handed to [Promise.all] (user update,
    coupon update, redemption insert) and of the separate deactivating
    update that follows it. *)
Record redeem_writes := mkWrites {
  w_user : write_outcome;
  w_coupon : write_outcome;
  w_insert : write_outcome;
  w_deactivate : write_outcome
}.

Definition threw (o : write_outcome) : bool :=
  match o with Threw => true | _ => false end.

(** The effect of a write that has been issued. *)
Definition issued (o : write_outcome) (stmt : db -> db) (s : db) : db :=
  match o with Applied => stmt s | _ => s end.

Definition set_users (f : list user -> list user) (s : db) : db :=
  mkDb (f (users s)) (coupons s) (coupon_redemptions s).
Definition set_coupons (f : list coupon -> list coupon) (s : db) : db :=
  mkDb (users s) (f (coupons s)) (coupon_redemptions s).
Definition add_redemption (r : redemption) (s : db) : db :=
  mkDb (users s) (coupons s) (coupon_redemptions s ++ [r]).

Definition with_uses (n : Z) (c : coupon) : coupon :=
  mkCoupon (c_id c) (code c) (access_type c) (trials_count c) (max_uses c) n (active c).
Definition with_active (b : bool) (c : coupon) : coupon :=
  mkCoupon (c_id c) (code c) (access_type c) (trials_count c) (max_uses c) (uses c) b.

(** The [updates] object built from the coupon and the user snapshot. *)
Definition coupon_updates (cp : coupon) (snapshot : user) (row : user) : user :=
  if String.eqb (access_type cp) "unlimited" then
    mkUser (id row) (email row) (role row) true (Some "coupon") (sub_expires row)
           (trials_used row) (extra_trials row)
  else
    mkUser (id row) (email row) (role row) (subscribed row) (sub_plan row)
           (sub_expires row) (trials_used row)
           (Some (js_num (extra_trials snapshot) + trials_count cp)).

(** [max_uses !== null && n >= max_uses]. *)
Definition reaches_max (cp : coupon) (n : Z) : bool :=
  match max_uses cp with
  | Some m => m <=? n
  | None => false
  end.

Section Config.
(** [parseInt(process.env.FREE_TRIALS || '3')]. *)
Variable FREE_TRIALS : Z.

Definition totalTrialsAllowed (u : user) : Z :=
  FREE_TRIALS + js_or (extra_trials u) 0.

Definition userCanAnalyze (now : Z) (u : option user) : bool :=
  match u with
  | None => false
  | Some u =>
      if String.eqb (role u) "admin" then true
      else if subscribed u then
        match sub_expires u with
        | None => true
        | Some e => now <? e
        end
      else js_or (trials_used u) 0 <? totalTrialsAllowed u
  end.

Definition redeem (now : Z) (w : redeem_writes) (rq_email rq_code : option string)
    (s : db) : reply * db :=
  match nonempty rq_email, nonempty rq_code with
  | Some em, Some c =>
      let normalEmail := toLowerCase (trim em) in
      let upperCode := toUpperCase (trim c) in
      match single (filter (fun cp => String.eqb (code cp) upperCode) (coupons s)) with
      | None => (Failed 404 "Invalid coupon code.", s)
      | Some cp =>
          if negb (active cp) then (Failed 400 "This coupon is no longer active.", s)
          else if reaches_max cp (uses cp)
          then (Failed 400 "This coupon has been fully redeemed.", s)
          else
            match single (filter (fun u => String.eqb (email u) normalEmail) (users s)) with
            | None => (Failed 404 "User not found.", s)
            | Some u =>
                match single (filter (fun r => (coupon_id r =? c_id cp)
                                               && (user_id r =? id u))
                                     (coupon_redemptions s)) with
                | Some _ => (Failed 400 "You have already used this coupon.", s)
                | None =>
                    let s1 :=
                      issued (w_insert w) (add_redemption (mkRedemption (c_id cp) (id u)))
                        (issued (w_coupon w)
                           (set_coupons (update_where (fun r => c_id r =? c_id cp)
                                           (with_uses (uses cp + 1))))
                           (issued (w_user w)
                              (set_users (update_where (fun r => id r =? id u)
                                            (coupon_updates cp u))) s)) in
                    if threw (w_user w) || threw (w_coupon w) || threw (w_insert w)
                    then (Failed 500 "Failed to redeem coupon.", s1)
                    else
                      let last := reaches_max cp (uses cp + 1) in
                      let s2 :=
                        if last
                        then issued (w_deactivate w)
                               (set_coupons (update_where (fun r => c_id r =? c_id cp)
                                               (with_active false))) s1
                        else s1 in
                      if last && threw (w_deactivate w)
                      then (Failed 500 "Failed to redeem coupon.", s2)
                      else
                        match single (filter (fun r => id r =? id u) (users s2)) with
                        | Some v => (Redeemed "Coupon applied!" v
                                       (userCanAnalyze now (Some v))
                                       (totalTrialsAllowed v), s2)
                        | None => (Failed 500 "Failed to redeem coupon.", s2)
                        end
                end
            end
      end
  | _, _ => (Failed 400 "Email and code required.", s)
  end.
End Config.

End V3Extra.


(** The three checks of the redeem handler that concern the coupon alone. *)
Definition redeemable (now : Z) (cp : coupon) : bool :=
  active cp && negb (exhausted cp) && negb (past now (expiry_date cp)).

(** How the verify handler finds the user of a payment: by [user_id] when
    the payment has one, otherwise by its e-mail address. *)
Definition pays_for (s : db) (pay : payment) (u : user) : Prop :=
  user_by_id s (id u) = Some u /\
  (p_user_id pay = Some (id u) \/
   (p_user_id pay = None /\ nonempty (p_email pay) = Some (email u) /\
    users_by_email s (email u) = [u])).

(** ** Store invariants and transitions *)



(** One request served by a route of the v4 server that writes to the
    store, run to completion before the next request starts. *)
Inductive step : db -> db -> Prop :=
| step_login now fresh e n s :
    step s (snd (login now fresh e n s))
| step_status now uid s :
    step s (snd (userStatus now uid s))
| step_name uid n s :
    step s (snd (updateName uid n s))
| step_analyze now reply req s :
    step s (snd (analyze now reply req s))
| step_submit fresh rq s :
    step s (snd (submitPayment fresh rq s))
| step_redeem now w c uid s :
    step s (snd (redeem now w c uid s))
| step_admin_get now uid s :
    step s (snd (adminGetUser now uid s))
| step_admin_user now uid rq s :
    step s (snd (adminUpdateUser now uid rq s))
| step_verify now pid nts n s :
    step s (snd (verifyPayment now pid nts n s))
| step_reject now pid nts s :
    step s (snd (rejectPayment now pid nts s))
| step_create generated fresh rq s :
    step s (snd (createCoupon generated fresh rq s))
| step_edit cid e s :
    step s (snd (editCoupon cid e s))
| step_toggle cid s :
    step s (snd (toggleCoupon cid s))
| step_delete cid s :
    step s (snd (deleteCoupon cid s)).

Inductive reachable (s0 : db) : db -> Prop :=
| reach_init : reachable s0 s0
| reach_step s s' : reachable s0 s -> step s s' -> reachable s0 s'.

(** ** Sample rows used to exercise the handlers *)

Definition student (uid : Z) (total used : option Z) : user :=
  mkUser uid "asha@example.com" "Asha" "student" total used false None None 0 None.

Definition monthly_until (uid : Z) (e : Z) : user :=
  mkUser uid "ravi@example.com" "Ravi" "student" (Some 3) (Some 1) true
         (Some "monthly") (Some e) 0 None.

Definition trial_coupon (cid : Z) (mx : option Z) (n : Z) : coupon :=
  mkCoupon cid "VS-ABC12345" true mx n (Some 2) (Some "trials") None None
           (Some ADMIN_EMAIL).

Definition pending_payment (pid uid : Z) (pl : string) : payment :=
  mkPayment pid (Some uid) (Some "asha@example.com") pl "One-Time" "UPI123456"
            (Some "9000000000") "pending" None None None None.

Definition store_of (us : list user) (cs : list coupon) (ps : list payment) : db :=
  mkDb us cs [] ps [].

Definition long_text : string :=
  "This project builds a line following robot with an Arduino and IR sensors.".

Definition extra_student (uid : Z) (extra : option Z) : V3Extra.user :=
  V3Extra.mkUser uid "asha@example.com" "student" false None None (Some 0) extra.

Definition extra_coupon (cid : Z) (mx : option Z) (n : Z) : V3Extra.coupon :=
  V3Extra.mkCoupon cid "VS-ABC12345" "trials" 2 mx n true.

(** [ilike] on a pattern without wildcards, for ASCII codes. *)
Definition ilike_plain (pattern stored : string) : bool :=
  String.eqb (toUpperCase pattern) (toUpperCase stored).

(** ** Further invariants and compositions *)

(** The uniqueness the handlers check for before they insert. *)
Definition unique_emails (s : db) : Prop := NoDup (map email (users s)).
Definition unique_refs (s : db) : Prop := NoDup (map upi_ref (payments s)).
Definition unique_codes (s : db) : Prop := NoDup (map code (coupons s)).

(** The key columns of the second store are those of the first. *)
Definition same_keys (s s' : db) : Prop :=
  map email (users s') = map email (users s) /\
  map upi_ref (payments s') = map upi_ref (payments s) /\
  map code (coupons s') = map code (coupons s).

(** [k] analysis requests in a row, each answered by the Analyzer. *)
Fixpoint repeat_analyze (k : nat) (now : Z) (req : analyze_req) (s : db) : db :=
  match k with
  | O => s
  | S k' => repeat_analyze k' now req (snd (analyze now (Parsed None) req s))
  end.

(** The code under which [createCoupon] stores a coupon. *)
Definition created_code (generated : string) (rq : coupon_req) : string :=
  toUpperCase (trim (if blank (cr_code rq) then generated
                     else js_or_str (cr_code rq) "")).

(** The row [u'] holds nothing that [u] did not: same identity, role and
    quota, and a subscription only if [u] had the very same one. *)
Definition no_gain (u u' : user) : Prop :=
  id u' = id u /\ email u' = email u /\ role u' = role u /\
  trials_total u' = trials_total u /\
  (subscribed u' = true ->
   subscribed u = true /\ sub_plan u' = sub_plan u /\ sub_expires u' = sub_expires u).

(** The view [v] shows the identity and entitlement columns of [row]. *)
Definition shows (v : user_view) (row : user) : Prop :=
  v_id v = id row /\ v_email v = email row /\ v_name v = name row /\
  v_role v = role row /\
  v_trials_total v = js_or (trials_total row) FREE_TRIALS /\
  v_trials_used v = js_or (trials_used row) 0 /\
  v_subscribed v = subscribed row /\ v_sub_plan v = sub_plan row /\
  v_sub_expires v = sub_expires row.

(** An edit request with an empty body. *)
Definition no_edit : coupon_edit := mkCouponEdit None None None None None None.

(** The actions the admin user route knows. *)
Definition known_actions : list string :=
  ["grant_monthly"; "grant_one_time"; "add_trials"; "set_trials"; "reset_used";
   "revoke_all"; "update_name"].

(** ** The v3.0.0 backend: POST /api/analyze and POST /api/admin/payments/verify *)

Module V3ExtraRoutes.

(** A row of [analyses]; the admin's analyses are logged without a user id. *)
Record analysis_row := mkLog {
  l_user_id : option Z;
  l_email : string;
  l_title : string
}.

Record store := mkStore {
  st_db : V3Extra.db;
  st_payments : list payment;
  st_analyses : list analysis_row
}.

Definition on_db (f : V3Extra.db -> V3Extra.db) (st : store) : store :=
  mkStore (f (st_db st)) (st_payments st) (st_analyses st).
Definition on_payments (f : list payment -> list payment) (st : store) : store :=
  mkStore (st_db st) (f (st_payments st)) (st_analyses st).
Definition add_log (r : analysis_row) (st : store) : store :=
  mkStore (st_db st) (st_payments st) (st_analyses st ++ [r]).

Definition user_by_email (st : store) (em : string) : option V3Extra.user :=
  single (filter (fun u => String.eqb (V3Extra.email u) em) (V3Extra.users (st_db st))).

Definition with_trials_used (n : Z) (u : V3Extra.user) : V3Extra.user :=
  V3Extra.mkUser (V3Extra.id u) (V3Extra.email u) (V3Extra.role u) (V3Extra.subscribed u)
                 (V3Extra.sub_plan u) (V3Extra.sub_expires u) (Some n)
                 (V3Extra.extra_trials u).
Definition with_extra_trials (n : Z) (u : V3Extra.user) : V3Extra.user :=
  V3Extra.mkUser (V3Extra.id u) (V3Extra.email u) (V3Extra.role u) (V3Extra.subscribed u)
                 (V3Extra.sub_plan u) (V3Extra.sub_expires u) (V3Extra.trials_used u)
                 (Some n).
Definition with_sub (sb : bool) (pl : option string) (ex : option Z) (u : V3Extra.user)
  : V3Extra.user :=
  V3Extra.mkUser (V3Extra.id u) (V3Extra.email u) (V3Extra.role u) sb pl ex
                 (V3Extra.trials_used u) (V3Extra.extra_trials u).

Definition update_user_by_id (uid : Z) (patch : V3Extra.user -> V3Extra.user)
  : store -> store :=
  on_db (V3Extra.set_users (update_where (fun r => V3Extra.id r =? uid) patch)).

(** What the Gemini call and the parsing of its text can produce. *)
Inductive gemini :=
| GFetchThrew                                   (* [fetch] or [json()] rejects *)
| GNotOk                                        (* [!geminiRes.ok] *)
| GEmpty                                        (* no text part *)
| GUnparsable                                   (* both [JSON.parse] attempts fail *)
| GParsed (projectTitle : option string).

(** The [return] statement the analyze handler ends in. *)
Inductive analyze_reply :=
| Served (projectTitle : string)                (* 200 *)
| MissingText                                   (* 400 *)
| TooShort                                      (* 400 *)
| TooLong                                       (* 400 *)
| Denied                                        (* 403, trial limit reached *)
| UpstreamError                                 (* 502, Gemini API error *)
| EmptyReply                                    (* 502 *)
| Unparsed                                      (* 502 *)
| Crashed.                                      (* 500, the [catch] block *)

Definition stamp_verified (now : Z) (p : payment) : payment :=
  mkPayment (p_id p) (p_user_id p) (p_email p) (plan p) (plan_label p) (upi_ref p)
            (mobile p) "verified" (Some now) (Some "admin") (notes p) (trials_granted p).
Definition set_granted (g : option Z) (p : payment) : payment :=
  mkPayment (p_id p) (p_user_id p) (p_email p) (plan p) (plan_label p) (upi_ref p)
            (mobile p) (status p) (verified_at p) (verified_by p) (notes p) g.

Definition update_payment_by_id (pid : Z) (patch : payment -> payment) : store -> store :=
  on_payments (update_where (fun p => p_id p =? pid) patch).

Section Config.
Variable FREE_TRIALS : Z.
Variable ADMIN_EMAIL : string.

Definition analyze (now : Z) (reply : gemini) (rq_text rq_email : option string)
    (st : store) : analyze_reply * store :=
  match rq_text with
  | None => (MissingText, st)
  | Some text =>
      if is_empty text then (MissingText, st)
      else if Z.of_nat (String.length (trim text)) <? 60 then (TooShort, st)
      else if 15000 <? Z.of_nat (String.length text) then (TooLong, st)
      else
        let normalEmail := option_map (fun e => toLowerCase (trim e)) (nonempty rq_email) in
        let is_admin := match normalEmail with
                        | Some ne => String.eqb ne (toLowerCase ADMIN_EMAIL)
                        | None => false
                        end in
        let dbUser := match normalEmail with
                      | Some ne => if is_admin then None else user_by_email st ne
                      | None => None
                      end in
        let denied := match dbUser with
                      | Some u => negb (V3Extra.userCanAnalyze FREE_TRIALS now (Some u))
                      | None => false
                      end in
        if denied then (Denied, st)
        else
          match reply with
          | GFetchThrew => (Crashed, st)
          | GNotOk => (UpstreamError, st)
          | GEmpty => (EmptyReply, st)
          | GUnparsable => (Unparsed, st)
          | GParsed t =>
              let title := js_or_str t "Your Project" in
              let st' :=
                match dbUser with
                | Some u =>
                    let st1 := add_log (mkLog (Some (V3Extra.id u)) (V3Extra.email u) title) st in
                    if V3Extra.subscribed u then st1
                    else update_user_by_id (V3Extra.id u)
                           (with_trials_used (js_num (V3Extra.trials_used u) + 1)) st1
                | None =>
                    match normalEmail with
                    | Some ne => if is_admin then add_log (mkLog None ne title) st else st
                    | None => st
                    end
                end in
              (Served title, st')
          end
  end.

End Config.

Definition verify (now : Z) (paymentId : option Z) (st : store) : response * store :=
  match paymentId with
  | None => (Error 400 "paymentId required.", st)
  | Some pid =>
      match single (filter (fun p => p_id p =? pid) (st_payments st)) with
      | None => (Error 404 "Payment not found.", st)
      | Some pay =>
          let st1 := update_payment_by_id pid (stamp_verified now) st in
          let user := match p_email pay with
                      | Some em => user_by_email st1 em
                      | None => None
                      end in
          let st2 :=
            match user with
            | Some u =>
                if String.eqb (plan pay) "99" then
                  update_payment_by_id pid (set_granted None)
                    (update_user_by_id (V3Extra.id u)
                       (with_sub true (Some "monthly")
                                 (Some (now + 30 * 24 * 60 * 60 * 1000))) st1)
                else if String.eqb (plan pay) "10" then
                  update_payment_by_id pid (set_granted (Some 1))
                    (update_user_by_id (V3Extra.id u)
                       (with_extra_trials (js_num (V3Extra.extra_trials u) + 1)) st1)
                else st1
            | None => st1
            end in
          (Ok "Payment verified and access granted.", st2)
      end
  end.

(** [k] analyses in a row, each answered by the Analyzer. *)
Fixpoint repeat_analyze (free : Z) (admin : string) (k : nat) (now : Z)
    (text email : option string) (st : store) : store :=
  match k with
  | O => st
  | S k' => repeat_analyze free admin k' now text email
              (snd (analyze free admin now (GParsed None) text email st))
  end.

End V3ExtraRoutes.

(** * Properties *)

(** ** Tables *)

Lemma single_some {A} (l : list A) (r : A) : single l = Some r -> l = [r].
Proof.
  destruct l as [|a [|b l]]; simpl; intros H; try discriminate.
  now inversion H.
Qed.

Lemma single_update_where {A} (p : A -> bool) (f : A -> A) (l : list A) :
  single (update_where p f l) = option_map (fun r => if p r then f r else r) (single l).
Proof.
  destruct l as [|a [|b l]]; reflexivity.
Qed.

Lemma filter_update_where {A} (p q : A -> bool) (f : A -> A) (l : list A) :
  (forall r, q (f r) = q r) ->
  filter q (update_where p f l) = update_where p f (filter q l).
Proof.
  intros Hq. induction l as [|a l IH]; simpl; [reflexivity|].
  destruct (p a) eqn:Hp.
  - rewrite Hq. destruct (q a); simpl; rewrite ?Hp, IH; reflexivity.
  - destruct (q a); simpl; rewrite ?Hp, IH; reflexivity.
Qed.

Lemma user_by_id_id (s : db) (uid : Z) (u : user) :
  user_by_id s uid = Some u -> id u = uid.
Proof.
  unfold user_by_id. intros H. apply single_some in H.
  assert (Hin : In u (filter (fun u => id u =? uid) (users s))) by (rewrite H; now left).
  apply filter_In in Hin. lia.
Qed.

Lemma user_by_id_update (uid uid' : Z) (patch : user -> user) (s : db) :
  (forall r, id (patch r) = id r) ->
  user_by_id (update_user uid patch s) uid' =
  option_map (fun u => if id u =? uid then patch u else u) (user_by_id s uid').
Proof.
  intros Hid. unfold user_by_id, update_user. simpl.
  rewrite filter_update_where by (intros r; now rewrite Hid).
  apply single_update_where.
Qed.

Lemma user_by_id_update_same (uid : Z) (patch : user -> user) (s : db) (u : user) :
  (forall r, id (patch r) = id r) ->
  user_by_id s uid = Some u ->
  user_by_id (update_user uid patch s) uid = Some (patch u).
Proof.
  intros Hid Hu. rewrite user_by_id_update, Hu by assumption. simpl.
  apply user_by_id_id in Hu. now rewrite Hu, Z.eqb_refl.
Qed.

Lemma user_by_id_update_other (uid uid' : Z) (patch : user -> user) (s : db) :
  (forall r, id (patch r) = id r) -> uid' <> uid ->
  user_by_id (update_user uid patch s) uid' = user_by_id s uid'.
Proof.
  intros Hid Hne. rewrite user_by_id_update by assumption.
  destruct (user_by_id s uid') as [u|] eqn:Hu; [|reflexivity]. simpl.
  apply user_by_id_id in Hu.
  destruct (id u =? uid) eqn:E; [lia|reflexivity].
Qed.

(** ** Subscription lifecycle *)

Lemma sub_lapsed_iff (now : Z) (u : user) :
  sub_lapsed now u = true <->
  subscribed u = true /\ sub_plan u = Some "monthly" /\
  exists e, sub_expires u = Some e /\ e < now.
Proof.
  unfold sub_lapsed, str_is. split.
  - intros H. apply andb_true_iff in H as [H He]. apply andb_true_iff in H as [Hs Hp].
    destruct (sub_plan u) as [p|]; [|discriminate].
    apply String.eqb_eq in Hp. subst p.
    destruct (sub_expires u) as [e|]; [|discriminate].
    repeat split; auto. exists e. split; [reflexivity|lia].
  - intros (Hs & Hp & e & He & Hlt). rewrite Hs, Hp, He. simpl.
    apply Z.ltb_lt. exact Hlt.
Qed.

Lemma sub_lapsed_normalize (now : Z) (u : user) :
  sub_lapsed now (normalize now u) = false.
Proof.
  unfold normalize. destruct (sub_lapsed now u) eqn:Hl; [reflexivity|exact Hl].
Qed.

Lemma normalize_idem (now : Z) (u : user) :
  normalize now (normalize now u) = normalize now u.
Proof.
  unfold normalize at 1. now rewrite sub_lapsed_normalize.
Qed.

Lemma refreshUser_found (now uid : Z) (s : db) (u : user) :
  user_by_id s uid = Some u ->
  refreshUser now uid s =
  (Some (normalize now u),
   if sub_lapsed now u then update_user uid (set_sub false None None) s else s).
Proof.
  intros Hu. unfold refreshUser, normalize. rewrite Hu.
  rewrite (user_by_id_id _ _ _ Hu). destruct (sub_lapsed now u); reflexivity.
Qed.

Lemma refreshUser_missing (now uid : Z) (s : db) :
  user_by_id s uid = None -> refreshUser now uid s = (None, s).
Proof. intros Hu. unfold refreshUser. now rewrite Hu. Qed.

(** C6. [refreshUser] demotes exactly the subscribed monthly users whose
    non-null [sub_expires] is strictly in the past: the row returned and the
    row persisted are the same, with [subscribed=false], [sub_plan=null],
    [sub_expires=null] and every other column kept, and the status route
    reports it so; any other user is returned as stored and the store is
    untouched.  In both cases the rows of the other users and the other
    tables are left alone.  A second run, at the same instant, returns the
    same snapshot and the same store, and after a demotion this holds at
    every later instant too. *)
Theorem refreshUser_normalizes (now uid : Z) (s : db) (u : user) :
  user_by_id s uid = Some u ->
  let expired := subscribed u = true /\ sub_plan u = Some "monthly" /\
                 exists e, sub_expires u = Some e /\ e < now in
  let r := refreshUser now uid s in
  (expired ->
     (exists u',
        fst r = Some u' /\ user_by_id (snd r) uid = Some u' /\
        subscribed u' = false /\ sub_plan u' = None /\ sub_expires u' = None /\
        id u' = id u /\ email u' = email u /\ name u' = name u /\ role u' = role u /\
        trials_total u' = trials_total u /\ trials_used u' = trials_used u /\
        created_at u' = created_at u /\ last_login u' = last_login u /\
        exists v, userStatus now uid s = (OkUser v, snd r) /\
                  v_subscribed v = false /\ v_sub_plan v = None /\
                  v_sub_expires v = None /\ v_days_remaining v = None /\
                  v_id v = id u /\ v_email v = email u) /\
     fst r = Some (set_sub false None None u) /\
     user_by_id (snd r) uid = Some (set_sub false None None u) /\
     userStatus now uid s = (OkUser (formatUser now (set_sub false None None u)), snd r) /\
     forall now', refreshUser now' uid (snd r) = r) /\
  (~ expired -> r = (Some u, s)) /\
  (forall uid', uid' <> uid -> user_by_id (snd r) uid' = user_by_id s uid') /\
  coupons (snd r) = coupons s /\ coupon_redemptions (snd r) = coupon_redemptions s /\
  payments (snd r) = payments s /\ analyses (snd r) = analyses s /\
  refreshUser now uid (snd r) = r.
Proof.
  intros Hu expired r. subst r. rewrite (refreshUser_found _ _ _ _ Hu).
  unfold normalize. destruct (sub_lapsed now u) eqn:Hl; cbn [fst snd].
  - assert (Hu' : user_by_id (update_user uid (set_sub false None None) s) uid
                  = Some (set_sub false None None u))
      by (apply user_by_id_update_same; auto).
    assert (Hst : userStatus now uid s =
                  (OkUser (formatUser now (set_sub false None None u)),
                   update_user uid (set_sub false None None) s)).
    { unfold userStatus. rewrite (refreshUser_found _ _ _ _ Hu).
      unfold normalize. now rewrite Hl. }
    split; [|split; [|split]].
    + intros _. split.
      { exists (set_sub false None None u).
        split; [reflexivity|]. split; [exact Hu'|].
        cbn [subscribed sub_plan sub_expires id email name role trials_total
             trials_used created_at last_login set_sub].
        repeat (split; [reflexivity|]).
        exists (formatUser now (set_sub false None None u)).
        split; [exact Hst|]. now repeat split. }
      split; [reflexivity|]. split; [exact Hu'|]. split; [exact Hst|].
      intros now'. now rewrite (refreshUser_found _ _ _ _ Hu').
    + intros Hne. exfalso. apply Hne. now apply sub_lapsed_iff.
    + intros uid' Hne. now apply user_by_id_update_other.
    + repeat (split; [reflexivity|]).
      now rewrite (refreshUser_found _ _ _ _ Hu').
  - split; [|split; [|split]].
    + intros He. apply sub_lapsed_iff in He. congruence.
    + reflexivity.
    + reflexivity.
    + repeat (split; [reflexivity|]).
      rewrite (refreshUser_found _ _ _ _ Hu). unfold normalize. now rewrite Hl.
Qed.

Lemma refreshUser_normalizes_witness :
  let s := store_of [monthly_until 7 1000; student 8 (Some 3) (Some 0)] [] [] in
  (exists u', fst (refreshUser 1001 7 s) = Some u' /\
              user_by_id (snd (refreshUser 1001 7 s)) 7 = Some u' /\
              subscribed u' = false /\ sub_plan u' = None /\ sub_expires u' = None /\
              trials_used u' = Some 1) /\
  refreshUser 1001 7 (snd (refreshUser 1001 7 s)) = refreshUser 1001 7 s /\
  refreshUser 1000 7 s = (Some (monthly_until 7 1000), s).
Proof.
  intros s.
  pose proof (refreshUser_normalizes 1001 7 s (monthly_until 7 1000) eq_refl) as H.
  pose proof (refreshUser_normalizes 1000 7 s (monthly_until 7 1000) eq_refl) as H0.
  cbv zeta in H, H0.
  destruct H as (Hexp & _ & _ & _ & _ & _ & _ & Hidem). destruct H0 as (_ & Hkeep & _).
  split; [|split].
  - destruct Hexp as [(u' & H1 & H2 & H3 & H4 & H5 & _ & _ & _ & _ & _ & H6 & _) _].
    + repeat split. exists 1000. split; [reflexivity|lia].
    + exists u'. repeat split; assumption.
  - exact Hidem.
  - apply Hkeep. intros (_ & _ & e & He & Hlt). inversion He; subst. lia.
Defined.

(** ** The entitlement gate *)

Lemma metered_false_iff (u : user) :
  metered u = false <-> role u = "admin" \/ subscribed u = true.
Proof.
  unfold metered. destruct (String.eqb_spec (role u) "admin") as [Hr|Hr];
    destruct (subscribed u); simpl; split; auto; intros [H|H]; congruence.
Qed.

Lemma trial_gate_iff (u : user) :
  trial_gate (Some u) = None <->
  role u = "admin" \/ subscribed u = true \/
  js_num (trials_used u) < js_or (trials_total u) FREE_TRIALS.
Proof.
  unfold trial_gate. destruct (metered u) eqn:Hm.
  - assert (Hn : ~ (role u = "admin" \/ subscribed u = true)).
    { intros H. apply metered_false_iff in H. congruence. }
    destruct (Z.leb_spec (js_or (trials_total u) FREE_TRIALS) (js_num (trials_used u))).
    + split; [discriminate|]. intros [H'|[H'|H']]; [tauto|tauto|lia].
    + split; auto.
  - apply metered_false_iff in Hm. split; [tauto|reflexivity].
Qed.

Lemma trial_gate_denial (u : user) (r : response) :
  trial_gate (Some u) = Some r ->
  r = TrialLimit (trials_used u) (js_or (trials_total u) FREE_TRIALS).
Proof.
  unfold trial_gate. destruct (metered u); [|discriminate].
  destruct (_ <=? _); [|discriminate]. now intros [= <-].
Qed.

Lemma analyze_valid_text (now : Z) (reply : gemini_reply) (text : string)
    (rq_user : option Z) (s : db) :
  60 <= Z.of_nat (String.length (trim text)) ->
  Z.of_nat (String.length text) <= 15000 ->
  analyze now reply (mkAnalyzeReq (Some text) rq_user) s =
  let '(ur, s1) := match rq_user with
                   | Some userId => refreshUser now userId s
                   | None => (None, s)
                   end in
  match trial_gate ur with
  | Some denied => (denied, s1)
  | None =>
      match reply with
      | FetchThrew => (Error 500 "Analysis failed", s1)
      | NotOk m => (Error 502 ("Gemini: " ++ js_or_str m "Unknown"), s1)
      | EmptyText => (Error 502 "Empty Gemini response.", s1)
      | Unparsable => (Error 500 "Analysis failed: Could not parse AI response.", s1)
      | Parsed title =>
          (OkAnalysis (js_or_str title "Your Project"),
           match rq_user, ur with
           | Some userId, Some u =>
               log_analysis userId u title
                 (if metered u
                  then update_user userId (set_trials_used (js_num (trials_used u) + 1)) s1
                  else s1)
           | _, _ => s1
           end)
      | ParsedNull =>
          (Error 500 "Analysis failed: Cannot read properties of null (reading 'projectTitle')",
           match rq_user, ur with
           | Some userId, Some u =>
               if metered u
               then update_user userId (set_trials_used (js_num (trials_used u) + 1)) s1
               else s1
           | _, _ => s1
           end)
      end
  end.
Proof.
  intros Hlo Hhi. unfold analyze, is_empty. cbn [ar_text ar_userId].
  destruct (String.eqb_spec text "") as [->|_]; [simpl in Hlo; lia|].
  destruct (Z.ltb_spec (Z.of_nat (String.length (trim text))) 60); [lia|].
  destruct (Z.ltb_spec 15000 (Z.of_nat (String.length text))); [lia|].
  destruct (match rq_user with Some userId => refreshUser now userId s | None => (None, s) end)
    as [ur s1].
  destruct (trial_gate ur); [reflexivity|].
  destruct reply; reflexivity.
Qed.

(** C1 (as amended).  For a well-formed analysis request of a known user,
    the gate lets the request through exactly when the normalized snapshot
    is an admin, or is subscribed, or has [trials_used] below
    [trials_total || FREE_TRIALS]; in every other case the request is
    answered with the trial-limit error, whatever the Analyzer would have
    said, and nothing but the normalization is written. *)
Theorem analyze_entitlement (now : Z) (reply : gemini_reply) (text : string)
    (uid : Z) (s : db) (u : user) :
  60 <= Z.of_nat (String.length (trim text)) ->
  Z.of_nat (String.length text) <= 15000 ->
  user_by_id s uid = Some u ->
  let v := normalize now u in
  let entitled := role v = "admin" \/ subscribed v = true \/
                  js_num (trials_used v) < js_or (trials_total v) FREE_TRIALS in
  let rq := mkAnalyzeReq (Some text) (Some uid) in
  (trial_gate (Some v) = None <-> entitled) /\
  (entitled -> forall t,
     fst (analyze now (Parsed t) rq s) = OkAnalysis (js_or_str t "Your Project")) /\
  (~ entitled ->
     analyze now reply rq s =
     (TrialLimit (trials_used v) (js_or (trials_total v) FREE_TRIALS),
      snd (refreshUser now uid s))).
Proof.
  intros Hlo Hhi Hu v entitled rq. subst rq.
  split; [apply trial_gate_iff|]. split.
  - intros He t. rewrite analyze_valid_text by assumption.
    rewrite (refreshUser_found _ _ _ _ Hu).
    apply trial_gate_iff in He. fold v. now rewrite He.
  - intros Hne. rewrite analyze_valid_text by assumption.
    rewrite (refreshUser_found _ _ _ _ Hu). fold v.
    destruct (trial_gate (Some v)) as [r|] eqn:Hg.
    + now rewrite (trial_gate_denial _ _ Hg).
    + apply trial_gate_iff in Hg. contradiction.
Qed.

Lemma analyze_entitlement_witness :
  let s := store_of [student 1 (Some 3) (Some 3); student 2 (Some 3) (Some 2)] [] [] in
  analyze 50 (Parsed None) (mkAnalyzeReq (Some long_text) (Some 1)) s =
    (TrialLimit (Some 3) 3, s) /\
  fst (analyze 50 (Parsed None) (mkAnalyzeReq (Some long_text) (Some 2)) s) =
    OkAnalysis "Your Project".
Proof.
  intros s. split.
  - refine (proj2 (proj2 (analyze_entitlement 50 (Parsed None) long_text 1 s
                            (student 1 (Some 3) (Some 3)) _ _ eq_refl)) _).
    + vm_compute. discriminate.
    + vm_compute. discriminate.
    + vm_compute. intros [H|[H|H]]; discriminate.
  - refine (proj1 (proj2 (analyze_entitlement 50 (Parsed None) long_text 2 s
                            (student 2 (Some 3) (Some 2)) _ _ eq_refl)) _ None).
    + vm_compute. discriminate.
    + vm_compute. discriminate.
    + right. right. vm_compute. reflexivity.
Defined.

(** C1 as stated fails on a stored quota of 0: the user is neither admin
    nor subscribed and [trials_used < trials_total] is false, yet the gate
    lets the request through and the analysis is served. *)
Lemma canAnalyze_stored_zero_counterexample :
  let u := student 1 (Some 0) (Some 0) in
  let s := store_of [u] [] [] in
  trial_gate (Some u) = None /\
  fst (analyze 50 (Parsed None) (mkAnalyzeReq (Some long_text) (Some 1)) s) =
    OkAnalysis "Your Project" /\
  ~ (role u = "admin" \/ subscribed u = true \/
     exists used total,
       trials_used u = Some used /\ trials_total u = Some total /\ used < total).
Proof.
  cbv zeta. split; [reflexivity|]. split; [reflexivity|].
  intros [H|[H|(used & total & Hu & Ht & Hlt)]]; try discriminate.
  inversion Hu; inversion Ht; subst. lia.
Qed.

(** The v3.0.0 helper agrees with the rule when the quota is read as
    [totalTrialsAllowed] and a subscribed snapshot is unexpired. *)
Lemma userCanAnalyze_iff (free now : Z) (u : V3Extra.user) :
  (V3Extra.subscribed u = true ->
   forall e, V3Extra.sub_expires u = Some e -> now < e) ->
  V3Extra.userCanAnalyze free now (Some u) = true <->
  V3Extra.role u = "admin" \/ V3Extra.subscribed u = true \/
  js_or (V3Extra.trials_used u) 0 < V3Extra.totalTrialsAllowed free u.
Proof.
  intros Hfresh. unfold V3Extra.userCanAnalyze.
  destruct (String.eqb_spec (V3Extra.role u) "admin") as [Hr|Hr]; [tauto|].
  destruct (V3Extra.subscribed u) eqn:Hs.
  - destruct (V3Extra.sub_expires u) as [e|] eqn:He; [|tauto].
    specialize (Hfresh eq_refl e eq_refl).
    destruct (Z.ltb_spec now e); [tauto|lia].
  - destruct (Z.ltb_spec (js_or (V3Extra.trials_used u) 0)
                         (V3Extra.totalTrialsAllowed free u)).
    + tauto.
    + split; [discriminate|]. intros [H'|[H'|H']]; [tauto|discriminate|lia].
Qed.

(** ** Metering of an analysis *)

Lemma refreshUser_persisted (now uid : Z) (s : db) (u : user) :
  user_by_id s uid = Some u ->
  user_by_id (snd (refreshUser now uid s)) uid = Some (normalize now u).
Proof.
  intros Hu. rewrite (refreshUser_found _ _ _ _ Hu). unfold normalize.
  destruct (sub_lapsed now u); simpl; [|exact Hu].
  apply user_by_id_update_same; auto.
Qed.

Lemma refreshUser_store_user (now uid uid' : Z) (s : db) (u : user) :
  user_by_id s uid = Some u ->
  exists u', user_by_id (snd (refreshUser now uid' s)) uid = Some u' /\
             (u' = u \/ u' = normalize now u).
Proof.
  intros Hu. destruct (Z.eq_dec uid' uid) as [->|Hne].
  - exists (normalize now u). split; [now apply refreshUser_persisted|now right].
  - exists u. split; [|now left].
    destruct (user_by_id s uid') as [w|] eqn:Hw.
    + rewrite (refreshUser_found _ _ _ _ Hw).
      destruct (sub_lapsed now w); simpl; [|exact Hu].
      rewrite user_by_id_update_other; auto.
    + now rewrite (refreshUser_missing _ _ _ Hw).
Qed.

Lemma normalize_trials (now : Z) (u : user) :
  trials_used (normalize now u) = trials_used u /\
  trials_total (normalize now u) = trials_total u /\
  role (normalize now u) = role u /\ id (normalize now u) = id u.
Proof. unfold normalize. destruct (sub_lapsed now u); auto. Qed.

(** What a request whose Analyzer call did not succeed leaves in the store:
    at most the normalization done by the pre-analysis read. *)
Lemma analyze_failure_store (now : Z) (reply : gemini_reply) (req : analyze_req) (s : db) :
  analyzer_failed reply = true ->
  snd (analyze now reply req s) = s \/
  exists uid, ar_userId req = Some uid /\
              snd (analyze now reply req s) = snd (refreshUser now uid s).
Proof.
  intros Hf. unfold analyze. destruct (ar_text req) as [text|]; [|now left].
  destruct (is_empty text); [now left|].
  destruct (_ <? 60); [now left|]. destruct (15000 <? _); [now left|].
  destruct (ar_userId req) as [uid|].
  - right. exists uid. split; [reflexivity|].
    destruct (refreshUser now uid s) as [ur s1]. simpl.
    destruct (trial_gate ur); [reflexivity|]. destruct reply; try reflexivity; discriminate.
  - left. simpl. destruct reply; try reflexivity; discriminate.
Qed.

(** C2 (as amended).  When the handler answers with an analysis, the
    requesting user's [trials_used] has grown by exactly 1 if the normalized
    snapshot is neither admin nor subscribed, and by 0 otherwise, and the
    quota is untouched.  When the Analyzer call fails (the request throws,
    the status is not OK, the reply is empty) or its output cannot be
    parsed, every user's row is either as it was or as [refreshUser]
    normalizes it: [trials_used] and [trials_total] never change, and the
    only columns that can change are those of a lapsed monthly
    subscription.  A reply whose text is the JSON value [null] is in
    neither case and nothing is stated about it here. *)
Theorem analyze_metering (now : Z) (reply : gemini_reply) (req : analyze_req)
    (s : db) (uid : Z) (u : user) :
  user_by_id s uid = Some u ->
  let v := normalize now u in
  let out := analyze now reply req s in
  (forall t, fst out = OkAnalysis t -> ar_userId req = Some uid ->
     user_by_id (snd out) uid =
       Some (if metered v then set_trials_used (js_num (trials_used u) + 1) v else v) /\
     exists u', user_by_id (snd out) uid = Some u' /\
       js_num (trials_used u') = js_num (trials_used u) + (if metered v then 1 else 0) /\
       trials_total u' = trials_total u) /\
  (analyzer_failed reply = true ->
     exists u', user_by_id (snd out) uid = Some u' /\
       (u' = u \/ u' = v) /\
       (sub_lapsed now u = false -> u' = u) /\
       trials_used u' = trials_used u /\ trials_total u' = trials_total u).
Proof.
  intros Hu v out. split.
  - intros t Hok Hreq.
    assert (Hrow : user_by_id (snd out) uid =
              Some (if metered v then set_trials_used (js_num (trials_used u) + 1) v else v)).
    { subst out. revert Hok. unfold analyze.
      destruct (ar_text req) as [text|]; [|discriminate].
      destruct (is_empty text); [discriminate|].
      destruct (_ <? 60); [discriminate|]. destruct (15000 <? _); [discriminate|].
      rewrite Hreq. pose proof (refreshUser_persisted now uid s u Hu) as Hp.
      rewrite (refreshUser_found _ _ _ _ Hu) in *. fold v in Hp |- *. cbn [snd] in Hp.
      destruct (trial_gate (Some v)) as [r|] eqn:Hg.
      { apply trial_gate_denial in Hg. subst r. discriminate. }
      destruct reply; try discriminate. intros _. cbn [snd].
      unfold log_analysis, user_by_id. cbn [users with_analyses]. fold (user_by_id).
      destruct (normalize_trials now u) as (Hused & _). fold v in Hused. rewrite Hused.
      destruct (metered v); [|exact Hp].
      change (user_by_id (update_user uid (set_trials_used (js_num (trials_used u) + 1))
                (if sub_lapsed now u then update_user uid (set_sub false None None) s else s))
                uid = Some (set_trials_used (js_num (trials_used u) + 1) v)).
      apply user_by_id_update_same; auto. }
    split; [exact Hrow|]. eexists. split; [exact Hrow|].
    destruct (normalize_trials now u) as (Hused & Htot & _). fold v in Hused, Htot.
    destruct (metered v); simpl; rewrite ?Hused, ?Htot; split; auto; lia.
  - intros Hf. destruct (normalize_trials now u) as (Hused & Htot & _).
    fold v in Hused, Htot.
    assert (Hsame : sub_lapsed now u = false -> v = u).
    { intros Hl. unfold v, normalize. now rewrite Hl. }
    destruct (analyze_failure_store now reply req s Hf) as [Hs|(uid' & _ & Hs)];
      subst out; rewrite Hs.
    + exists u. repeat split; auto.
    + destruct (refreshUser_store_user now uid uid' s u Hu) as (u' & Hu' & [->| ->]).
      * exists u. repeat split; auto.
      * exists (normalize now u). fold v. repeat split; auto.
Qed.

Lemma analyze_metering_witness :
  let s := store_of [student 1 (Some 3) (Some 2); monthly_until 7 5000] [] [] in
  (exists u', user_by_id (snd (analyze 50 (Parsed None)
                 (mkAnalyzeReq (Some long_text) (Some 1)) s)) 1 = Some u' /\
              js_num (trials_used u') = 2 + 1 /\ trials_total u' = Some 3) /\
  (exists u', user_by_id (snd (analyze 50 (Parsed None)
                 (mkAnalyzeReq (Some long_text) (Some 7)) s)) 7 = Some u' /\
              js_num (trials_used u') = 1 + 0 /\ trials_total u' = Some 3) /\
  (exists u', user_by_id (snd (analyze 50 Unparsable
                 (mkAnalyzeReq (Some long_text) (Some 1)) s)) 1 = Some u' /\
              trials_used u' = Some 2).
Proof.
  intros s. split; [|split].
  - exact (proj2 (proj1 (analyze_metering 50 (Parsed None)
             (mkAnalyzeReq (Some long_text) (Some 1)) s 1
             (student 1 (Some 3) (Some 2)) eq_refl) "Your Project" eq_refl eq_refl)).
  - exact (proj2 (proj1 (analyze_metering 50 (Parsed None)
             (mkAnalyzeReq (Some long_text) (Some 7)) s 7
             (monthly_until 7 5000) eq_refl) "Your Project" eq_refl eq_refl)).
  - destruct (proj2 (analyze_metering 50 Unparsable
             (mkAnalyzeReq (Some long_text) (Some 1)) s 1
             (student 1 (Some 3) (Some 2)) eq_refl) eq_refl)
      as (u' & Hu' & _ & _ & Hused & _).
    exists u'. split; [exact Hu'|exact Hused].
Defined.

(** C2 as stated fails for a lapsed monthly subscriber: the Analyzer call is
    made and its output cannot be parsed, yet the stored [subscribed],
    [sub_plan] and [sub_expires] of the user have changed. *)
Lemma failed_analysis_counterexample :
  let u := monthly_until 7 1000 in
  let s := store_of [u] [] [] in
  let out := analyze 2000 Unparsable (mkAnalyzeReq (Some long_text) (Some 7)) s in
  analyzer_succeeded Unparsable = false /\ analyzer_failed Unparsable = true /\
  fst out = Error 500 "Analysis failed: Could not parse AI response." /\
  user_by_id s 7 = Some u /\
  user_by_id (snd out) 7 = Some (set_sub false None None u) /\
  subscribed u <> subscribed (set_sub false None None u).
Proof.
  cbv zeta. repeat split. discriminate.
Qed.

(** ** Coupon redemption *)

Lemma nonempty_some (c : string) : c <> "" -> nonempty (Some c) = Some c.
Proof.
  intros Hc. unfold nonempty. destruct (String.eqb_spec c ""); [contradiction|reflexivity].
Qed.

Lemma redeem_validated (now : Z) (w : redeem_writes) (c : string) (uid : Z)
    (s : db) (cp : coupon) :
  c <> "" ->
  coupon_by_code s (toUpperCase (trim c)) = Some cp ->
  redeemable now cp = true ->
  redemption_of s (c_id cp) uid = None ->
  redeem now w (Some c) (Some uid) s =
  write (w_coupon w) (update_coupon (c_id cp) (bump_uses cp)) s (fun s1 =>
  write (w_grant w) (coupon_grant now cp uid) s1 (fun s2 =>
  write (w_insert w) (insert_redemption (c_id cp) uid) s2 (fun s3 =>
  (redeem_reply cp, s3)))).
Proof.
  intros Hne Hc Hr Hn. unfold redeem, redeemable in *.
  rewrite (nonempty_some _ Hne), Hc.
  apply andb_true_iff in Hr as [Hr Hp]. apply andb_true_iff in Hr as [Ha He].
  rewrite Ha. apply negb_true_iff in He, Hp. rewrite He, Hp, Hn. reflexivity.
Qed.

Lemma redeem_rejected (now : Z) (w : redeem_writes) (c : string) (uid : Z)
    (s : db) (cp : coupon) :
  c <> "" ->
  coupon_by_code s (toUpperCase (trim c)) = Some cp ->
  redeemable now cp = false ->
  redeem now w (Some c) (Some uid) s =
  (if negb (active cp) then CouponInactive
   else if exhausted cp then CouponExhausted else CouponExpired, s).
Proof.
  intros Hne Hc Hr. unfold redeem, redeemable in *.
  rewrite (nonempty_some _ Hne), Hc.
  destruct (active cp); simpl in *; [|reflexivity].
  destruct (exhausted cp); simpl in *; [reflexivity|].
  destruct (past now (expiry_date cp)); simpl in *; [reflexivity|discriminate].
Qed.

Lemma coupon_by_code_bump (s : db) (c : string) (cp : coupon) :
  coupon_by_code s c = Some cp ->
  coupon_by_code (update_coupon (c_id cp) (bump_uses cp) s) c = Some (bump_uses cp cp).
Proof.
  intros Hc. unfold coupon_by_code, update_coupon in *. simpl.
  rewrite filter_update_where by reflexivity.
  rewrite single_update_where, Hc. simpl. now rewrite Z.eqb_refl.
Qed.

Lemma coupon_grant_frame (now : Z) (cp : coupon) (uid : Z) (s : db) :
  coupons (coupon_grant now cp uid s) = coupons s /\
  coupon_redemptions (coupon_grant now cp uid s) = coupon_redemptions s /\
  payments (coupon_grant now cp uid s) = payments s.
Proof. unfold coupon_grant. destruct (0 <? _); auto. Qed.











(** The v3.0.0 handler commits through [Promise.all] and deactivates in a
    separate update; it is no more atomic.  A coupon update that throws
    leaves the grant and the redemption row behind an error answer, and a
    refused deactivation leaves a coupon with [uses = max_uses] active. *)
Lemma promise_all_partial_effect :
  let s := V3Extra.mkDb [extra_student 1 (Some 0)] [extra_coupon 10 (Some 1) 0] [] in
  let out := V3Extra.redeem 3 50 (V3Extra.mkWrites Applied Threw Applied Applied)
               (Some "Asha@Example.com") (Some "vs-abc12345") s in
  let out' := V3Extra.redeem 3 50 (V3Extra.mkWrites Applied Applied Applied Refused)
               (Some "Asha@Example.com") (Some "vs-abc12345") s in
  out = (V3Extra.Failed 500 "Failed to redeem coupon.",
         V3Extra.mkDb [extra_student 1 (Some 2)] [extra_coupon 10 (Some 1) 0]
                      [mkRedemption 10 1]) /\
  snd out' = V3Extra.mkDb [extra_student 1 (Some 2)] [extra_coupon 10 (Some 1) 1]
                          [mkRedemption 10 1] /\
  fst out' = V3Extra.Redeemed "Coupon applied!" (extra_student 1 (Some 2)) true 5.
Proof.
  cbv zeta. repeat split.
Qed.

(** ** Redemption rows across the handlers *)











Lemma redeem_phases (now : Z) (w : redeem_writes) (c : option string)
    (uid : option Z) (s : db) :
  redeem now w c uid s =
  match redeem_check now c uid s with
  | inl r => (r, s)
  | inr (cp, userId) => redeem_commit now w cp userId s
  end.
Proof.
  unfold redeem, redeem_check, redeem_commit.
  destruct (nonempty c); [|reflexivity]. destruct uid; [|reflexivity].
  destruct (coupon_by_code s _) as [cp|]; [|reflexivity].
  destruct (negb (active cp)); [reflexivity|].
  destruct (exhausted cp); [reflexivity|].
  destruct (past now _); [reflexivity|].
  destruct (redemption_of s (c_id cp) _); reflexivity.
Qed.




(** ** Coupon exhaustion *)

Lemma redeem_coupons_applied (now : Z) (w : redeem_writes) (c : string) (uid : Z)
    (s : db) (cp : coupon) :
  c <> "" ->
  coupon_by_code s (toUpperCase (trim c)) = Some cp ->
  redeemable now cp = true ->
  redemption_of s (c_id cp) uid = None ->
  w_coupon w = Applied ->
  coupons (snd (redeem now w (Some c) (Some uid) s)) =
  coupons (update_coupon (c_id cp) (bump_uses cp) s).
Proof.
  intros Hne Hc Hr Hn Hw. rewrite (redeem_validated _ _ _ _ _ _ Hne Hc Hr Hn), Hw.
  destruct (coupon_grant_frame now cp uid (update_coupon (c_id cp) (bump_uses cp) s))
    as (Hg & _).
  destruct w as [w1 [] []]; cbn [write w_grant w_insert snd]; auto.
Qed.

(** C5 (as amended).  For a coupon with a non-zero [max_uses]: the coupon
    update of the redemption that brings [uses] to [max_uses] sets
    [active=false] together with the new [uses]; and in any state where
    [uses] has reached [max_uses], every redemption attempt is rejected and
    changes nothing, with [CouponInactive] while the flag is false (the
    [active] check comes first) and with [CouponExhausted] if the coupon has
    been switched on again. *)
Theorem redeem_exhaustion (now : Z) (w : redeem_writes) (c : string) (uid : Z)
    (s : db) (cp : coupon) (m : Z) :
  c <> "" ->
  coupon_by_code s (toUpperCase (trim c)) = Some cp ->
  max_uses cp = Some m -> m <> 0 ->
  let out := redeem now w (Some c) (Some uid) s in
  (uses cp + 1 = m -> redeemable now cp = true ->
   redemption_of s (c_id cp) uid = None -> w_coupon w = Applied ->
     exists cp', coupon_by_code (snd out) (toUpperCase (trim c)) = Some cp' /\
                 uses cp' = m /\ active cp' = false /\
                 forall now' w' uid',
                   redeem now' w' (Some c) (Some uid') (snd out) =
                   (CouponInactive, snd out)) /\
  (m <= uses cp ->
     out = (if active cp then CouponExhausted else CouponInactive, s)).
Proof.
  intros Hne Hc Hm Hm0 out. split.
  - intros Hlast Hr Hn Hw. exists (bump_uses cp cp).
    assert (Hc' : coupon_by_code (snd out) (toUpperCase (trim c)) = Some (bump_uses cp cp)).
    { unfold coupon_by_code. subst out.
      rewrite (redeem_coupons_applied _ _ _ _ _ _ Hne Hc Hr Hn Hw).
      exact (coupon_by_code_bump _ _ _ Hc). }
    assert (Ha : active (bump_uses cp cp) = false).
    { unfold bump_uses. cbn [active]. rewrite Hm. cbn [js_truthy js_num].
      destruct (Z.eqb_spec m 0); [contradiction|].
      destruct (Z.leb_spec m (uses cp + 1)); [reflexivity|lia]. }
    split; [exact Hc'|]. split; [simpl; lia|]. split; [exact Ha|].
    intros now' w' uid'. rewrite (redeem_rejected _ _ _ _ _ _ Hne Hc').
    + now rewrite Ha.
    + unfold redeemable. now rewrite Ha.
  - intros Hfull. subst out.
    assert (He : exhausted cp = true).
    { unfold exhausted. rewrite Hm. cbn [js_truthy js_num].
      destruct (Z.eqb_spec m 0); [contradiction|]. simpl. now apply Z.leb_le. }
    rewrite (redeem_rejected _ _ _ _ _ _ Hne Hc).
    + rewrite He. now destruct (active cp).
    + unfold redeemable. rewrite He. now destruct (active cp).
Qed.

Lemma redeem_exhaustion_witness :
  let s := store_of [student 1 (Some 3) (Some 0); student 2 (Some 3) (Some 0)]
                    [trial_coupon 10 (Some 1) 0] [] in
  let s' := snd (redeem 50 all_applied (Some "VS-ABC12345") (Some 1) s) in
  let s'' := snd (toggleCoupon 10 s') in
  (exists cp', coupon_by_code s' "VS-ABC12345" = Some cp' /\
               uses cp' = 1 /\ active cp' = false /\
               forall now' w' uid',
                 redeem now' w' (Some "VS-ABC12345") (Some uid') s' = (CouponInactive, s')) /\
  redeem 70 all_applied (Some "VS-ABC12345") (Some 2) s'' = (CouponExhausted, s'').
Proof.
  intros s s' s''.
  assert (Hne : "VS-ABC12345" <> "") by discriminate.
  assert (H1 : 1 <> 0) by discriminate.
  split.
  - exact (proj1 (redeem_exhaustion 50 all_applied "VS-ABC12345" 1 s
                    (trial_coupon 10 (Some 1) 0) 1 Hne eq_refl eq_refl H1)
                 eq_refl eq_refl eq_refl eq_refl).
  - refine (proj2 (redeem_exhaustion 70 all_applied "VS-ABC12345" 2 s''
                    (trial_coupon 10 (Some 1) 1) 1 Hne eq_refl eq_refl H1) _).
    vm_compute. discriminate.
Defined.

(** C5 as stated fails: after the redemption that exhausts the coupon, the
    next attempt is answered "Coupon is no longer active." and not
    [CouponExhausted]. *)
Lemma exhausted_coupon_counterexample :
  let s := store_of [student 1 (Some 3) (Some 0); student 2 (Some 3) (Some 0)]
                    [trial_coupon 10 (Some 1) 0] [] in
  let first := redeem 50 all_applied (Some "VS-ABC12345") (Some 1) s in
  let next := redeem 60 all_applied (Some "VS-ABC12345") (Some 2) (snd first) in
  coupon_by_code (snd first) "VS-ABC12345" =
    Some (set_active false (trial_coupon 10 (Some 1) 1)) /\
  fst next = CouponInactive /\
  fst next <> CouponExhausted.
Proof.
  cbv zeta. repeat split. discriminate.
Qed.

(** ** Payment verification *)

Lemma trials_to_grant_max (n : Z) : trials_to_grant (Some n) = Z.max n 1.
Proof.
  unfold trials_to_grant, js_or. destruct (Z.eqb_spec n 0); lia.
Qed.

Lemma payment_by_id_id (s : db) (pid : Z) (p : payment) :
  payment_by_id s pid = Some p -> p_id p = pid.
Proof.
  unfold payment_by_id. intros H. apply single_some in H.
  assert (Hin : In p (filter (fun p => p_id p =? pid) (payments s))) by (rewrite H; now left).
  apply filter_In in Hin. lia.
Qed.

Lemma payment_by_id_update (s : db) (pid : Z) (p : payment) (patch : payment -> payment) :
  (forall r, p_id (patch r) = p_id r) ->
  payment_by_id s pid = Some p ->
  payment_by_id (update_payment pid patch s) pid = Some (patch p).
Proof.
  intros Hid Hp. pose proof (payment_by_id_id _ _ _ Hp) as Hpid.
  unfold payment_by_id, update_payment in *. simpl.
  rewrite filter_update_where by (intros r; now rewrite Hid).
  rewrite single_update_where, Hp. simpl. now rewrite Hpid, Z.eqb_refl.
Qed.

Lemma user_by_id_update_email (s : db) (em : string) (patch : user -> user) (u : user) :
  (forall r, id (patch r) = id r) ->
  user_by_id s (id u) = Some u -> email u = em ->
  user_by_id (update_users_by_email em patch s) (id u) = Some (patch u).
Proof.
  intros Hid Hu Hem. unfold user_by_id, update_users_by_email in *. simpl.
  rewrite filter_update_where by (intros r; now rewrite Hid).
  rewrite single_update_where, Hu. simpl. now rewrite Hem, String.eqb_refl.
Qed.

(** C7 (as amended).  Verifying a payment that is already verified is
    answered [AlreadyVerified] and changes nothing.  Otherwise the payment
    becomes verified and, for the user it resolves to: plan "99" makes the
    user a monthly subscriber until [now] + 30 days and records
    [trials_granted = null]; plan "10" with [trialsToGrant = n] sets
    [trials_total] to [(trials_total || FREE_TRIALS) + max(n,1)], read from
    the row as it is at that moment, and records [max(n,1)] on the
    payment. *)
Theorem verifyPayment_grants (now pid : Z) (nts : option string) (n : Z)
    (s : db) (pay : payment) (u : user) :
  payment_by_id s pid = Some pay ->
  pays_for s pay u ->
  let out := verifyPayment now pid nts (Some n) s in
  (status pay = "verified" -> out = (AlreadyVerified, s)) /\
  (status pay <> "verified" ->
     fst out = Ok "Verified and access granted." /\
     (plan pay = "99" ->
        user_by_id (snd out) (id u) =
          Some (set_sub true (Some "monthly") (Some (now + 30 * DAY_MS)) u) /\
        payment_by_id (snd out) pid =
          Some (mark_verified now (nonempty nts) None pay)) /\
     (plan pay = "10" ->
        user_by_id (snd out) (id u) =
          Some (set_trials_total (js_or (trials_total u) FREE_TRIALS + Z.max n 1) u) /\
        (forall t, trials_total u = Some t -> t <> 0 ->
           option_map trials_total (user_by_id (snd out) (id u))
           = Some (Some (t + Z.max n 1))) /\
        payment_by_id (snd out) pid =
          Some (mark_verified now (nonempty nts) (Some (Z.max n 1)) pay))).
Proof.
  intros Hpay (Hu & Hres) out. subst out. unfold verifyPayment. rewrite Hpay.
  rewrite trials_to_grant_max. rewrite (payment_by_id_id _ _ _ Hpay).
  split.
  - intros Hv. rewrite Hv. reflexivity.
  - intros Hnv. destruct (String.eqb_spec (status pay) "verified") as [|_]; [contradiction|].
    split; [reflexivity|]. cbn [snd].
    split; intros Hplan; rewrite Hplan; cbn [String.eqb Ascii.eqb Bool.eqb].
    + set (s1 := update_payment pid _ s).
      assert (Hu1 : user_by_id s1 (id u) = Some u) by exact Hu.
      assert (Hp1 : payment_by_id s1 pid = Some (mark_verified now (nonempty nts) None pay))
        by (apply payment_by_id_update; auto).
      destruct Hres as [Hid|(Hid & Hem & Hone)]; rewrite Hid.
      * split; [|exact Hp1]. apply user_by_id_update_same; auto.
      * rewrite Hem. split; [|exact Hp1]. apply user_by_id_update_email; auto.
    + set (s1 := update_payment pid _ s).
      assert (Hu1 : user_by_id s1 (id u) = Some u) by exact Hu.
      assert (Hp1 : payment_by_id s1 pid
                    = Some (mark_verified now (nonempty nts) (Some (Z.max n 1)) pay))
        by (apply payment_by_id_update; auto).
      assert (Hrow : forall s', user_by_id s' (id u) =
                  Some (set_trials_total (js_or (trials_total u) FREE_TRIALS + Z.max n 1) u) ->
                forall t, trials_total u = Some t -> t <> 0 ->
                  option_map trials_total (user_by_id s' (id u)) = Some (Some (t + Z.max n 1))).
      { intros s' Hs' t Ht Ht0. rewrite Hs', Ht. cbn.
        destruct (Z.eqb_spec t 0); [contradiction|reflexivity]. }
      destruct Hres as [Hid|(Hid & Hem & Hone)]; rewrite Hid.
      * assert (Hnew : user_by_id (update_user (id u)
                          (set_trials_total (current_total s1 (id u) + Z.max n 1)) s1) (id u)
                        = Some (set_trials_total
                                  (js_or (trials_total u) FREE_TRIALS + Z.max n 1) u)).
        { unfold current_total. rewrite Hu1. apply user_by_id_update_same; auto. }
        split; [exact Hnew|]. split; [exact (Hrow _ Hnew)|exact Hp1].
      * rewrite Hem.
        assert (H1 : single (users_by_email s1 (email u)) = Some u)
          by (change (users_by_email s1 (email u)) with (users_by_email s (email u));
              now rewrite Hone).
        rewrite H1.
        assert (Hnew : user_by_id (update_user (id u)
                          (set_trials_total (js_or (trials_total u) FREE_TRIALS + Z.max n 1))
                          s1) (id u)
                        = Some (set_trials_total
                                  (js_or (trials_total u) FREE_TRIALS + Z.max n 1) u))
          by (apply user_by_id_update_same; auto).
        split; [exact Hnew|]. split; [exact (Hrow _ Hnew)|exact Hp1].
Qed.

Lemma verifyPayment_grants_witness :
  let s := store_of [student 1 (Some 3) (Some 3)] []
                    [pending_payment 20 1 "10"; pending_payment 21 1 "99"] in
  user_by_id (snd (verifyPayment 50 20 None (Some 5) s)) 1
    = Some (student 1 (Some 8) (Some 3)) /\
  option_map trials_granted (payment_by_id (snd (verifyPayment 50 20 None (Some 5) s)) 20)
    = Some (Some 5) /\
  option_map subscribed (user_by_id (snd (verifyPayment 50 21 None (Some 5) s)) 1)
    = Some true /\
  option_map trials_granted (payment_by_id (snd (verifyPayment 50 21 None (Some 5) s)) 21)
    = Some None.
Proof.
  intros s.
  assert (Hfor : forall pid pl, pays_for s (pending_payment pid 1 pl) (student 1 (Some 3) (Some 3))).
  { intros pid pl. split; [reflexivity|]. left. reflexivity. }
  pose proof (verifyPayment_grants 50 20 None 5 s (pending_payment 20 1 "10")
                (student 1 (Some 3) (Some 3)) eq_refl (Hfor 20 "10")) as H10.
  pose proof (verifyPayment_grants 50 21 None 5 s (pending_payment 21 1 "99")
                (student 1 (Some 3) (Some 3)) eq_refl (Hfor 21 "99")) as H99.
  cbv zeta in H10, H99.
  destruct H10 as (_ & H10). destruct H99 as (_ & H99).
  assert (Hp : "pending" <> "verified") by discriminate.
  destruct (H10 Hp) as (_ & _ & H10'). destruct (H99 Hp) as (_ & H99' & _).
  destruct (H10' eq_refl) as (Ha & _ & Hb). destruct (H99' eq_refl) as (Hc & Hd).
  split; [exact Ha|]. split; [now rewrite Hb|]. split; [|now rewrite Hd].
  cbn [id student] in Hc. now rewrite Hc.
Defined.

(** C7 as stated fails on a stored quota of 0, which the admin [set_trials]
    action produces from a negative input: verifying a plan "10" payment
    with [trialsToGrant = 5] takes the stored [trials_total] from 0 to 8,
    not to 5. *)
Lemma verify_stored_zero_counterexample :
  let s0 := store_of [student 1 (Some 3) (Some 0)] [] [pending_payment 20 1 "10"] in
  let s := snd (adminUpdateUser 40 1 (mkAdminReq "set_trials" None None (Some (-1)) None) s0) in
  let s' := snd (verifyPayment 50 20 None (Some 5) s) in
  option_map trials_total (user_by_id s 1) = Some (Some 0) /\
  option_map trials_total (user_by_id s' 1) = Some (Some 8) /\
  Some 8 <> Some (0 + Z.max 5 1).
Proof.
  cbv zeta. repeat split. discriminate.
Qed.

(** ** Admin quota actions *)

Lemma refreshUser_other (now uid uid' : Z) (s : db) :
  uid' <> uid ->
  user_by_id (snd (refreshUser now uid s)) uid' = user_by_id s uid'.
Proof.
  intros Hne. destruct (user_by_id s uid) as [u|] eqn:Hu.
  - rewrite (refreshUser_found _ _ _ _ Hu).
    destruct (sub_lapsed now u); cbn [snd]; [|reflexivity].
    now apply user_by_id_update_other.
  - now rewrite (refreshUser_missing _ _ _ Hu).
Qed.

Lemma adminUpdateUser_applied (now uid : Z) (rq : admin_user_req) (s : db)
    (u : user) (patch : user -> user) :
  user_by_id s uid = Some u ->
  admin_updates now rq (normalize now u) = inr patch ->
  (forall r, id (patch r) = id r) ->
  (forall r, sub_lapsed now r = false -> sub_lapsed now (patch r) = false) ->
  let s2 := update_user uid patch (snd (refreshUser now uid s)) in
  adminUpdateUser now uid rq s =
    (OkUser (formatUser now (patch (normalize now u))), s2) /\
  user_by_id s2 uid = Some (patch (normalize now u)) /\
  forall uid', uid' <> uid ->
    user_by_id s2 uid' = user_by_id s uid'.
Proof.
  intros Hu Hupd Hid Hkeep s2.
  pose proof (refreshUser_persisted now uid s u Hu) as Hp.
  assert (H2 : user_by_id s2 uid = Some (patch (normalize now u)))
    by (apply user_by_id_update_same; auto).
  split; [|split].
  - unfold adminUpdateUser. subst s2.
    rewrite (refreshUser_found _ _ _ _ Hu) in *. cbn [snd] in *. rewrite Hupd.
    rewrite (refreshUser_found _ _ _ _ H2).
    unfold normalize at 1. rewrite (Hkeep _ (sub_lapsed_normalize now u)).
    reflexivity.
  - exact H2.
  - intros uid' Hne. subst s2. rewrite user_by_id_update_other by auto.
    now apply refreshUser_other.
Qed.

(** C8 (as amended).  The admin [set_trials] action with the integer [n]
    stores [trials_total = max(n,0)] when [n] is not 0 and the free quota 3
    when [n] is 0 (a zero input is taken as missing), resets [trials_used]
    to 0, and leaves every other column as [refreshUser] normalized it; no
    other user is touched.  The response reports the updated row. *)
Theorem set_trials_effect (now uid n : Z) (rq : admin_user_req) (s : db) (u : user) :
  user_by_id s uid = Some u ->
  action rq = "set_trials" -> trialsTotal rq = Some n ->
  let v := normalize now u in
  let total := if n =? 0 then FREE_TRIALS else Z.max n 0 in
  let u' := mkUser (id v) (email v) (name v) (role v) (Some total) (Some 0)
                   (subscribed v) (sub_plan v) (sub_expires v)
                   (created_at v) (last_login v) in
  let out := adminUpdateUser now uid rq s in
  fst out = OkUser (formatUser now u') /\
  user_by_id (snd out) uid = Some u' /\
  (forall uid', uid' <> uid -> user_by_id (snd out) uid' = user_by_id s uid').
Proof.
  intros Hu Ha Hn v total u' out.
  set (patch := fun row => set_trials_used 0
                  (set_trials_total (Z.max 0 (js_or (trialsTotal rq) FREE_TRIALS)) row)).
  assert (Hupd : admin_updates now rq v = inr patch).
  { unfold admin_updates. rewrite Ha. reflexivity. }
  assert (Hu' : patch v = u').
  { unfold patch, u', total, set_trials_used, set_trials_total. cbn.
    rewrite Hn. cbn [js_or]. destruct (Z.eqb_spec n 0).
    - reflexivity.
    - now rewrite Z.max_comm. }
  assert (Hkeep : forall r, sub_lapsed now r = false -> sub_lapsed now (patch r) = false)
    by (intros r Hr; exact Hr).
  pose proof (adminUpdateUser_applied now uid rq s u patch Hu Hupd
                (fun r => eq_refl) Hkeep) as H.
  cbv zeta in H. destruct H as (Hout & Hrow & Hoth).
  subst out. rewrite Hout. cbn [fst snd]. fold v in Hrow |- *.
  rewrite Hu' in *. auto.
Qed.

Lemma set_trials_effect_witness :
  let s := store_of [student 1 (Some 3) (Some 2); student 2 (Some 3) (Some 1)] [] [] in
  let out := adminUpdateUser 50 1 (mkAdminReq "set_trials" None None (Some 7) None) s in
  user_by_id (snd out) 1 = Some (student 1 (Some 7) (Some 0)) /\
  user_by_id (snd out) 2 = Some (student 2 (Some 3) (Some 1)).
Proof.
  intros s out.
  pose proof (set_trials_effect 50 1 7 (mkAdminReq "set_trials" None None (Some 7) None) s
                (student 1 (Some 3) (Some 2)) eq_refl eq_refl eq_refl) as H.
  cbv zeta in H. destruct H as (_ & Hrow & Hoth). split.
  - exact Hrow.
  - refine (eq_trans (Hoth 2 _) eq_refl). discriminate.
Defined.

(** C8 as stated fails at [n = 0]: the stored quota becomes 3, not
    [max(0,0) = 0]. *)
Lemma set_trials_zero_counterexample :
  let s := store_of [student 1 (Some 5) (Some 2)] [] [] in
  let out := adminUpdateUser 50 1 (mkAdminReq "set_trials" None None (Some 0) None) s in
  option_map trials_total (user_by_id (snd out) 1) = Some (Some 3) /\
  option_map trials_used (user_by_id (snd out) 1) = Some (Some 0) /\
  Some 3 <> Some (Z.max 0 0).
Proof.
  cbv zeta. repeat split. discriminate.
Qed.

(** ** The free-quota fallback *)

Lemma js_or_falsy (x : option Z) (d : Z) :
  x = None \/ x = Some 0 -> js_or x d = d.
Proof. intros [->| ->]; reflexivity. Qed.

Lemma js_or_nonzero (x : option Z) (d : Z) : d <> 0 -> js_or x d <> 0.
Proof.
  intros Hd. unfold js_or. destruct x as [v|]; [|exact Hd].
  destruct (Z.eqb_spec v 0); assumption.
Qed.

(** C9.  For a user whose stored [trials_total] is null or 0, every
    computation that reads the quota uses the free quota 3 in its place: the
    pre-analysis gate, [formatUser]'s [trials_total] and [trials_left], the
    base of [add_trials], and the re-read base of the coupon and payment
    grants; [set_trials] applies the same fallback to a requested total
    that is 0 or missing.  The effective quota [trials_total || 3] of any
    user is never 0, and such a user with fewer than 3 trials used gets the
    analysis. *)
Theorem free_quota_fallback (u : user) :
  trials_total u = None \/ trials_total u = Some 0 ->
  (trial_gate (Some u) = None <->
     role u = "admin" \/ subscribed u = true \/ js_num (trials_used u) < 3) /\
  (forall now,
     v_trials_total (formatUser now u) = 3 /\
     v_trials_left (formatUser now u) = Z.max 0 (3 - js_or (trials_used u) 0)) /\
  (forall now rq, action rq = "add_trials" ->
     exists patch, admin_updates now rq u = inr patch /\
       forall row, trials_total (patch row) =
                   Some (3 + Z.max 1 (js_or (trialsToAdd rq) 1))) /\
  (forall now rq, action rq = "set_trials" ->
     trialsTotal rq = None \/ trialsTotal rq = Some 0 ->
     exists patch, admin_updates now rq u = inr patch /\
       forall row, trials_total (patch row) = Some 3) /\
  (forall s, user_by_id s (id u) = Some u -> current_total s (id u) = 3) /\
  (forall w : user, js_or (trials_total w) FREE_TRIALS <> 0) /\
  (js_num (trials_used u) < 3 ->
   forall now reply text s,
     60 <= Z.of_nat (String.length (trim text)) ->
     Z.of_nat (String.length text) <= 15000 ->
     user_by_id s (id u) = Some u ->
     let r := fst (analyze now reply (mkAnalyzeReq (Some text) (Some (id u))) s) in
     (forall used total, r <> TrialLimit used total) /\
     (forall t, reply = Parsed t -> r = OkAnalysis (js_or_str t "Your Project"))).
Proof.
  intros H0. pose proof (js_or_falsy _ FREE_TRIALS H0) as Hq.
  split; [|split; [|split; [|split; [|split; [|split]]]]].
  - rewrite trial_gate_iff, Hq. reflexivity.
  - intros now. unfold formatUser. cbn [v_trials_total v_trials_left].
    rewrite Hq. split; reflexivity.
  - intros now rq Ha. eexists. split.
    + unfold admin_updates. rewrite Ha. reflexivity.
    + intros row. cbn [set_trials_total trials_total]. rewrite Hq. reflexivity.
  - intros now rq Ha Hz. eexists. split.
    + unfold admin_updates. rewrite Ha. reflexivity.
    + intros row. cbn [set_trials_used set_trials_total trials_total].
      rewrite (js_or_falsy _ FREE_TRIALS Hz). reflexivity.
  - intros s Hu. unfold current_total. now rewrite Hu.
  - intros w. apply js_or_nonzero. discriminate.
  - intros Hlt now reply text s Hlo Hhi Hu r. subst r.
    rewrite analyze_valid_text by assumption.
    rewrite (refreshUser_found _ _ _ _ Hu).
    destruct (normalize_trials now u) as (Hused & Htot & _).
    assert (Hg : trial_gate (Some (normalize now u)) = None).
    { apply trial_gate_iff. right. right. rewrite Hused, Htot, Hq. exact Hlt. }
    rewrite Hg. split.
    + intros used total. destruct reply; discriminate.
    + intros t ->. reflexivity.
Qed.

Lemma free_quota_fallback_witness :
  let u := student 1 (Some 0) (Some 2) in
  let s := store_of [u] [] [] in
  trial_gate (Some u) = None /\
  v_trials_total (formatUser 50 u) = 3 /\
  v_trials_left (formatUser 50 u) = 1 /\
  current_total s 1 = 3 /\
  fst (analyze 50 (Parsed None) (mkAnalyzeReq (Some long_text) (Some 1)) s)
    = OkAnalysis "Your Project".
Proof.
  intros u s.
  destruct (free_quota_fallback u (or_intror eq_refl))
    as (Hgate & Hfmt & _ & _ & Hcur & _ & Hrun).
  split; [|split; [|split; [|split]]].
  - apply Hgate. right. right. reflexivity.
  - exact (proj1 (Hfmt 50)).
  - exact (proj2 (Hfmt 50)).
  - exact (Hcur s eq_refl).
  - assert (Hlo : 60 <= Z.of_nat (String.length (trim long_text)))
      by (vm_compute; discriminate).
    assert (Hhi : Z.of_nat (String.length long_text) <= 15000)
      by (vm_compute; discriminate).
    exact (proj2 (Hrun eq_refl 50 (Parsed None) long_text s Hlo Hhi eq_refl) None eq_refl).
Defined.

(** ** Anonymous redemption in the v2 and v3 handlers *)

Lemma v2_coupon_by_code_bump (ilike : string -> string -> bool) (s : db) (c : string)
    (cp : coupon) :
  V2.coupon_by_code ilike s c = Some cp ->
  V2.coupon_by_code ilike (update_coupon (c_id cp) (V2.bump_uses cp) s) c
  = Some (V2.bump_uses cp cp).
Proof.
  intros Hc. unfold V2.coupon_by_code, update_coupon in *. simpl.
  rewrite filter_update_where by reflexivity.
  rewrite single_update_where, Hc. simpl. now rewrite Z.eqb_refl.
Qed.

(** C10.  In the v2 handler a request with the code of an active,
    unexhausted coupon and no [userId] is answered with success; the
    coupon's [uses] is incremented, and the coupon is deactivated when the
    increment reaches [max_uses]; no user row changes and no redemption row
    is inserted. *)
Theorem v2_anonymous_redeem (ilike : string -> string -> bool) (now : Z)
    (c : string) (s : db) (cp : coupon) :
  c <> "" ->
  V2.coupon_by_code ilike s c = Some cp ->
  active cp = true ->
  uses cp < js_num (max_uses cp) ->
  let out := V2.redeem ilike now (Some c) None s in
  fst out = Ok "Coupon applied! You now have unlimited access." /\
  V2.coupon_by_code ilike (snd out) c = Some (V2.bump_uses cp cp) /\
  uses (V2.bump_uses cp cp) = uses cp + 1 /\
  active (V2.bump_uses cp cp) = negb (js_num (max_uses cp) <=? uses cp + 1) /\
  users (snd out) = users s /\
  coupon_redemptions (snd out) = coupon_redemptions s.
Proof.
  intros Hne Hc Ha Hlt out. subst out. unfold V2.redeem.
  rewrite (nonempty_some _ Hne), Hc, Ha.
  unfold V2.exhausted. destruct (Z.leb_spec (js_num (max_uses cp)) (uses cp)); [lia|].
  cbn [negb fst snd]. split; [reflexivity|]. split; [now apply v2_coupon_by_code_bump|].
  split; [reflexivity|]. split; [|split; reflexivity].
  unfold V2.bump_uses. cbn [active]. rewrite Ha.
  destruct (js_num (max_uses cp) <=? uses cp + 1); reflexivity.
Qed.

Lemma v2_anonymous_redeem_witness :
  let s := store_of [student 1 (Some 3) (Some 0)] [trial_coupon 10 (Some 1) 0] [] in
  let out := V2.redeem ilike_plain 50 (Some "vs-abc12345") None s in
  fst out = Ok "Coupon applied! You now have unlimited access." /\
  coupons (snd out) = [set_active false (trial_coupon 10 (Some 1) 1)] /\
  users (snd out) = users s /\
  coupon_redemptions (snd out) = [].
Proof.
  intros s out.
  assert (Hne : "vs-abc12345" <> "") by discriminate.
  pose proof (v2_anonymous_redeem ilike_plain 50 "vs-abc12345" s
                (trial_coupon 10 (Some 1) 0) Hne eq_refl eq_refl eq_refl) as H.
  cbv zeta in H. destruct H as (Hok & _ & _ & _ & Hus & Hrs).
  split; [exact Hok|]. split; [reflexivity|]. split; [exact Hus|exact Hrs].
Defined.

(** The v3 copy of the handler does the same: without a [userId] the grant
    and the insert are skipped after the coupon update. *)
Lemma v3_anonymous_redeem (now : Z) (c : string) (s : db) (cp : coupon) :
  c <> "" ->
  coupon_by_code s (toUpperCase (trim c)) = Some cp ->
  active cp = true -> exhausted cp = false ->
  let out := V3.redeem now (Some c) None s in
  snd out = update_coupon (c_id cp) (bump_uses cp) s /\
  coupon_by_code (snd out) (toUpperCase (trim c)) = Some (bump_uses cp cp) /\
  uses (bump_uses cp cp) = uses cp + 1 /\
  users (snd out) = users s /\
  coupon_redemptions (snd out) = coupon_redemptions s.
Proof.
  intros Hne Hc Ha He out. subst out. unfold V3.redeem.
  rewrite (nonempty_some _ Hne), Hc, Ha, He.
  cbn [negb snd]. split; [reflexivity|]. split; [now apply coupon_by_code_bump|].
  repeat split.
Qed.

(** * Further properties of the handlers *)

(** ** Tables with a unique key *)

Lemma update_where_same {A} (p : A -> bool) (f : A -> A) (l : list A) :
  (forall r, In r l -> p r = true -> f r = r) -> update_where p f l = l.
Proof.
  induction l as [|a l IH]; simpl; intros H; [reflexivity|].
  rewrite IH by (intros; apply H; auto).
  destruct (p a) eqn:Hp; [rewrite H; auto|reflexivity].
Qed.

Lemma map_update_where {A B} (g : A -> B) (p : A -> bool) (f : A -> A) (l : list A) :
  (forall r, g (f r) = g r) -> map g (update_where p f l) = map g l.
Proof.
  intros Hg. unfold update_where. rewrite map_map. apply map_ext.
  intros r. destruct (p r); [apply Hg|reflexivity].
Qed.

Lemma filter_key_none {A} (key : A -> string) (k : string) (l : list A) :
  ~ In k (map key l) -> filter (fun r => String.eqb (key r) k) l = [].
Proof.
  induction l as [|a l IH]; simpl; intros Hn; [reflexivity|].
  destruct (String.eqb_spec (key a) k) as [E|E].
  - exfalso. apply Hn. now left.
  - apply IH. intros H. apply Hn. now right.
Qed.

Lemma filter_key_one {A} (key : A -> string) (r : A) (l : list A) :
  NoDup (map key l) -> In r l ->
  filter (fun x => String.eqb (key x) (key r)) l = [r].
Proof.
  induction l as [|a l IH]; simpl; intros Hnd Hin; [contradiction|].
  inversion Hnd as [|x xs Hx Hnd']; subst.
  destruct Hin as [->|Hin].
  - rewrite String.eqb_refl. now rewrite filter_key_none.
  - destruct (String.eqb_spec (key a) (key r)) as [E|E].
    + exfalso. apply Hx. rewrite E. now apply in_map.
    + now apply IH.
Qed.

Lemma single_key_none {A} (key : A -> string) (k : string) (l : list A) :
  NoDup (map key l) ->
  single (filter (fun r => String.eqb (key r) k) l) = None ->
  ~ In k (map key l).
Proof.
  intros Hnd Hs Hin. apply in_map_iff in Hin as (r & <- & Hr).
  rewrite (filter_key_one key r l Hnd Hr) in Hs. discriminate.
Qed.

Lemma NoDup_snoc {A} (x : A) (l : list A) :
  NoDup l -> ~ In x l -> NoDup (l ++ [x]).
Proof.
  intros Hl Hx. apply NoDup_app; [exact Hl|repeat constructor; auto|].
  intros y Hy [<-|[]]. contradiction.
Qed.

(** ** Display helpers *)

Lemma js_or_zero (x : option Z) : js_or x 0 = js_num x.
Proof. destruct x as [v|]; [|reflexivity]. simpl. destruct (Z.eqb_spec v 0); congruence. Qed.

(** X1.  [daysLeft] of a null date is null.  Of a date [e] it is a
    non-negative whole number of days, 0 exactly when [e] is not after the
    clock, and otherwise the remaining time rounded up: the smallest [d]
    with [e - now <= d] days. *)
Theorem daysLeft_bounds (now e : Z) :
  daysLeft now None = None /\
  exists d, daysLeft now (Some e) = Some d /\
            0 <= d /\
            (d = 0 <-> e <= now) /\
            (now < e -> (d - 1) * DAY_MS < e - now <= d * DAY_MS).
Proof.
  split; [reflexivity|]. unfold daysLeft, DAY_MS. eexists. split; [reflexivity|].
  pose proof (Z.div_mod (now - e) 86400000 ltac:(lia)) as Hdm.
  pose proof (Z.mod_pos_bound (now - e) 86400000 ltac:(lia)) as Hb.
  set (q := (now - e) / 86400000) in *. set (r := (now - e) mod 86400000) in *.
  split; [lia|]. split; [split; intros; lia|]. intros Hlt. lia.
Qed.

(** X2.  The [trials_left] that [formatUser] reports is never negative,
    its [trials_total] is never 0, and the pre-analysis gate lets a user
    through exactly when the user is not metered (admin or subscribed) or
    the reported [trials_left] is positive. *)
Theorem trials_left_gate (now : Z) (u : user) :
  0 <= v_trials_left (formatUser now u) /\
  v_trials_total (formatUser now u) <> 0 /\
  (trial_gate (Some u) = None <->
   metered u = false \/ 0 < v_trials_left (formatUser now u)).
Proof.
  unfold formatUser. cbn [v_trials_left v_trials_total]. rewrite js_or_zero.
  split; [lia|]. split; [apply js_or_nonzero; discriminate|].
  rewrite trial_gate_iff. pose proof (metered_false_iff u) as Hm. split.
  - intros [H|[H|H]]; [left; tauto|left; tauto|right; lia].
  - intros [H|H]; [apply Hm in H; tauto|right; right; lia].
Qed.

(** ** Analyses in sequence *)

Lemma metered_not_lapsed (now : Z) (u : user) :
  metered u = true -> sub_lapsed now u = false.
Proof.
  unfold metered, sub_lapsed. intros H. apply andb_true_iff in H as [_ H].
  apply negb_true_iff in H. now rewrite H.
Qed.

Lemma analyze_metered_served (now : Z) (t : option string) (text : string)
    (uid : Z) (s : db) (u : user) :
  60 <= Z.of_nat (String.length (trim text)) ->
  Z.of_nat (String.length text) <= 15000 ->
  user_by_id s uid = Some u -> metered u = true ->
  js_num (trials_used u) < js_or (trials_total u) FREE_TRIALS ->
  analyze now (Parsed t) (mkAnalyzeReq (Some text) (Some uid)) s =
  (OkAnalysis (js_or_str t "Your Project"),
   log_analysis uid u t
     (update_user uid (set_trials_used (js_num (trials_used u) + 1)) s)).
Proof.
  intros Hlo Hhi Hu Hm Hlt. rewrite analyze_valid_text by assumption.
  rewrite (refreshUser_found _ _ _ _ Hu). unfold normalize.
  rewrite (metered_not_lapsed now u Hm).
  assert (Hg : trial_gate (Some u) = None) by (apply trial_gate_iff; tauto).
  now rewrite Hg, Hm.
Qed.

Lemma analyze_metered_denied (now : Z) (reply : gemini_reply) (text : string)
    (uid : Z) (s : db) (u : user) :
  60 <= Z.of_nat (String.length (trim text)) ->
  Z.of_nat (String.length text) <= 15000 ->
  user_by_id s uid = Some u -> metered u = true ->
  js_or (trials_total u) FREE_TRIALS <= js_num (trials_used u) ->
  analyze now reply (mkAnalyzeReq (Some text) (Some uid)) s =
  (TrialLimit (trials_used u) (js_or (trials_total u) FREE_TRIALS), s).
Proof.
  intros Hlo Hhi Hu Hm Hge. rewrite analyze_valid_text by assumption.
  rewrite (refreshUser_found _ _ _ _ Hu). unfold normalize.
  rewrite (metered_not_lapsed now u Hm).
  unfold trial_gate. rewrite Hm.
  destruct (Z.leb_spec (js_or (trials_total u) FREE_TRIALS) (js_num (trials_used u)));
    [reflexivity|lia].
Qed.

Lemma metered_run (now : Z) (text : string) (uid : Z) (s : db) (u : user) :
  60 <= Z.of_nat (String.length (trim text)) ->
  Z.of_nat (String.length text) <= 15000 ->
  user_by_id s uid = Some u -> metered u = true ->
  js_num (trials_used u) <= js_or (trials_total u) FREE_TRIALS ->
  let quota := js_or (trials_total u) FREE_TRIALS in
  let rq := mkAnalyzeReq (Some text) (Some uid) in
  let s' := repeat_analyze (Z.to_nat (quota - js_num (trials_used u))) now rq s in
  exists u', user_by_id s' uid = Some u' /\
             js_num (trials_used u') = quota /\
             trials_total u' = trials_total u /\
             forall now' reply,
               analyze now' reply rq s' = (TrialLimit (trials_used u') quota, s').
Proof.
  intros Hlo Hhi Hu Hm Hle quota rq s'. subst s'.
  remember (Z.to_nat (quota - js_num (trials_used u))) as k eqn:Hk.
  revert s u Hu Hm Hle quota rq Hk.
  induction k as [|k IH]; intros s u Hu Hm Hle quota rq Hk.
  - exists u. simpl. split; [exact Hu|]. split; [subst quota; lia|]. split; [reflexivity|].
    intros now' reply. apply analyze_metered_denied; auto. subst quota. lia.
  - cbn [repeat_analyze]. subst rq.
    rewrite (analyze_metered_served now None text uid s u) by (auto; subst quota; lia).
    cbn [snd].
    assert (Hu1 : user_by_id
                   (log_analysis uid u None
                      (update_user uid (set_trials_used (js_num (trials_used u) + 1)) s))
                   uid = Some (set_trials_used (js_num (trials_used u) + 1) u)).
    { change (user_by_id (update_user uid (set_trials_used (js_num (trials_used u) + 1)) s)
                uid = Some (set_trials_used (js_num (trials_used u) + 1) u)).
      apply user_by_id_update_same; auto. }
    assert (Hq : Z.to_nat (quota - js_num (trials_used u)) = S k) by auto.
    destruct (IH _ _ Hu1 Hm) as (u' & Hu' & Hused & Htot & Hden).
    + subst quota. cbn [trials_used trials_total set_trials_used js_num]. lia.
    + subst quota. cbn [trials_used trials_total set_trials_used js_num]. lia.
    + exists u'. split; [exact Hu'|]. split; [exact Hused|]. split; [exact Htot|exact Hden].
Qed.

(** X3.  A metered user (neither admin nor subscribed) whose [trials_used]
    is at most the effective quota [trials_total || FREE_TRIALS] can be
    served exactly the difference: after that many successful analyses in a
    row [trials_used] equals the quota, the quota itself is untouched, and
    the next request is answered with the trial-limit error and writes
    nothing. *)
Theorem quota_exhaustion (now : Z) (text : string) (uid : Z) (s : db) (u : user) :
  60 <= Z.of_nat (String.length (trim text)) ->
  Z.of_nat (String.length text) <= 15000 ->
  user_by_id s uid = Some u -> metered u = true ->
  js_num (trials_used u) <= js_or (trials_total u) FREE_TRIALS ->
  let quota := js_or (trials_total u) FREE_TRIALS in
  let rq := mkAnalyzeReq (Some text) (Some uid) in
  let s' := repeat_analyze (Z.to_nat (quota - js_num (trials_used u))) now rq s in
  exists u', user_by_id s' uid = Some u' /\
             js_num (trials_used u') = quota /\
             trials_total u' = trials_total u /\
             forall now' reply,
               analyze now' reply rq s' = (TrialLimit (trials_used u') quota, s').
Proof. exact (metered_run now text uid s u). Qed.

Lemma quota_exhaustion_witness :
  let s := store_of [student 1 (Some 3) (Some 0)] [] [] in
  let rq := mkAnalyzeReq (Some long_text) (Some 1) in
  exists u', user_by_id (repeat_analyze 3 50 rq s) 1 = Some u' /\
             js_num (trials_used u') = 3 /\
             trials_total u' = Some 3 /\
             forall now' reply,
               analyze now' reply rq (repeat_analyze 3 50 rq s)
               = (TrialLimit (trials_used u') 3, repeat_analyze 3 50 rq s).
Proof.
  intros s rq.
  assert (Hlo : 60 <= Z.of_nat (String.length (trim long_text))) by (vm_compute; discriminate).
  assert (Hhi : Z.of_nat (String.length long_text) <= 15000) by (vm_compute; discriminate).
  assert (Hle : js_num (Some 0) <= js_or (Some 3) FREE_TRIALS) by (vm_compute; discriminate).
  exact (quota_exhaustion 50 long_text 1 s (student 1 (Some 3) (Some 0))
           Hlo Hhi eq_refl eq_refl Hle).
Defined.


(** X5.  A well-formed analysis request without a [userId], or with a
    [userId] that matches no single user row, is never metered: it is never
    answered with the trial-limit error, it is served whenever the Analyzer
    succeeds, and it writes nothing to the store. *)
Theorem anonymous_analysis (now : Z) (reply : gemini_reply) (text : string)
    (rq_user : option Z) (s : db) :
  60 <= Z.of_nat (String.length (trim text)) ->
  Z.of_nat (String.length text) <= 15000 ->
  (forall uid, rq_user = Some uid -> user_by_id s uid = None) ->
  let out := analyze now reply (mkAnalyzeReq (Some text) rq_user) s in
  snd out = s /\
  (forall used total, fst out <> TrialLimit used total) /\
  (forall t, reply = Parsed t -> fst out = OkAnalysis (js_or_str t "Your Project")).
Proof.
  intros Hlo Hhi Hnone out. subst out. rewrite analyze_valid_text by assumption.
  assert (Hr : match rq_user with
               | Some userId => refreshUser now userId s
               | None => (None, s)
               end = (None, s)).
  { destruct rq_user as [uid|]; [|reflexivity].
    apply refreshUser_missing. now apply Hnone. }
  rewrite Hr. cbn [trial_gate].
  destruct reply; (split; [destruct rq_user; reflexivity|]);
    (split; [discriminate|]); intros t' Ht; inversion Ht; reflexivity.
Qed.

Lemma anonymous_analysis_witness :
  let s := store_of [student 1 (Some 3) (Some 3)] [] [] in
  snd (analyze 50 (Parsed None) (mkAnalyzeReq (Some long_text) (Some 2)) s) = s /\
  fst (analyze 50 (Parsed None) (mkAnalyzeReq (Some long_text) None) s)
    = OkAnalysis "Your Project".
Proof.
  intros s.
  assert (Hlo : 60 <= Z.of_nat (String.length (trim long_text))) by (vm_compute; discriminate).
  assert (Hhi : Z.of_nat (String.length long_text) <= 15000) by (vm_compute; discriminate).
  split.
  - refine (proj1 (anonymous_analysis 50 (Parsed None) long_text (Some 2) s Hlo Hhi _)).
    intros uid H. inversion H. reflexivity.
  - refine (proj2 (proj2 (anonymous_analysis 50 (Parsed None) long_text None s Hlo Hhi _))
              None eq_refl).
    intros uid H. discriminate.
Defined.

(** ** Key columns across the handlers *)

Lemma same_keys_refl (s : db) : same_keys s s.
Proof. repeat split. Qed.

Lemma same_keys_trans (s1 s2 s3 : db) :
  same_keys s1 s2 -> same_keys s2 s3 -> same_keys s1 s3.
Proof.
  intros (A1 & B1 & C1) (A2 & B2 & C2). repeat split; congruence.
Qed.

Lemma update_user_keys (uid : Z) (patch : user -> user) (s : db) :
  (forall r, email (patch r) = email r) -> same_keys s (update_user uid patch s).
Proof.
  intros H. repeat split. unfold update_user. cbn [users with_users].
  now apply map_update_where.
Qed.

Lemma update_users_by_email_keys (em : string) (patch : user -> user) (s : db) :
  (forall r, email (patch r) = email r) -> same_keys s (update_users_by_email em patch s).
Proof.
  intros H. repeat split. unfold update_users_by_email. cbn [users with_users].
  now apply map_update_where.
Qed.

Lemma update_payment_keys (pid : Z) (patch : payment -> payment) (s : db) :
  (forall r, upi_ref (patch r) = upi_ref r) -> same_keys s (update_payment pid patch s).
Proof.
  intros H. repeat split. unfold update_payment. cbn [payments with_payments].
  now apply map_update_where.
Qed.

Lemma update_coupon_keys (cid : Z) (patch : coupon -> coupon) (s : db) :
  (forall r, code (patch r) = code r) -> same_keys s (update_coupon cid patch s).
Proof.
  intros H. repeat split. unfold update_coupon. cbn [coupons with_coupons].
  now apply map_update_where.
Qed.

Lemma refreshUser_keys (now uid : Z) (s : db) :
  same_keys s (snd (refreshUser now uid s)).
Proof.
  unfold refreshUser. destruct (user_by_id s uid) as [u|]; [|apply same_keys_refl].
  destruct (sub_lapsed now u); [|apply same_keys_refl].
  now apply update_user_keys.
Qed.

Lemma analyze_keys (now : Z) (reply : gemini_reply) (req : analyze_req) (s : db) :
  same_keys s (snd (analyze now reply req s)).
Proof.
  unfold analyze. destruct (ar_text req) as [text|]; [|apply same_keys_refl].
  destruct (is_empty text); [apply same_keys_refl|].
  destruct (_ <? 60); [apply same_keys_refl|].
  destruct (15000 <? _); [apply same_keys_refl|].
  destruct (ar_userId req) as [uid|].
  - pose proof (refreshUser_keys now uid s) as Hr.
    destruct (refreshUser now uid s) as [ur s1]. cbn [snd] in Hr.
    destruct (trial_gate ur); [exact Hr|].
    destruct reply as [| | | |projectTitle|]; try exact Hr;
      (destruct ur as [u|]; [|exact Hr]);
      cbn [snd]; apply (same_keys_trans _ _ _ Hr).
    + assert (Hlog : forall s', same_keys s1 s' ->
                       same_keys s1 (log_analysis uid u projectTitle s'))
        by (intros s' H; exact H).
      apply Hlog. destruct (metered u); [|apply same_keys_refl].
      now apply update_user_keys.
    + destruct (metered u); [|apply same_keys_refl].
      now apply update_user_keys.
  - cbn [trial_gate]. destruct reply; apply same_keys_refl.
Qed.

Lemma coupon_grant_keys (now : Z) (cp : coupon) (uid : Z) (s : db) :
  same_keys s (coupon_grant now cp uid s).
Proof.
  unfold coupon_grant. destruct (0 <? _); now apply update_user_keys.
Qed.

Lemma redeem_keys (now : Z) (w : redeem_writes) (c : option string) (uid : option Z)
    (s : db) :
  same_keys s (snd (redeem now w c uid s)).
Proof.
  unfold redeem. destruct (nonempty c) as [c'|]; [|apply same_keys_refl].
  destruct uid as [userId|]; [|apply same_keys_refl].
  destruct (coupon_by_code s _) as [cp|]; [|apply same_keys_refl].
  destruct (negb (active cp)); [apply same_keys_refl|].
  destruct (exhausted cp); [apply same_keys_refl|].
  destruct (past now _); [apply same_keys_refl|].
  destruct (redemption_of s (c_id cp) userId); [apply same_keys_refl|].
  pose proof (update_coupon_keys (c_id cp) (bump_uses cp) s (fun r => eq_refl)) as H1.
  pose proof (coupon_grant_keys now cp userId s) as G0.
  pose proof (coupon_grant_keys now cp userId
                (update_coupon (c_id cp) (bump_uses cp) s)) as G1.
  pose proof (same_keys_trans _ _ _ H1 G1) as H2.
  unfold same_keys in *.
  destruct w as [[] [] []];
    cbn [write w_coupon w_grant w_insert snd insert_redemption with_redemptions
         users payments coupons];
    first [ assumption | repeat split ].
Qed.

Lemma admin_updates_email (now : Z) (rq : admin_user_req) (u : user)
    (patch : user -> user) :
  admin_updates now rq u = inr patch -> forall r, email (patch r) = email r.
Proof.
  unfold admin_updates.
  destruct (String.eqb (action rq) "grant_monthly");
    [destruct (valid_time _); [intros H; inversion H; reflexivity|discriminate]|].
  repeat (destruct (String.eqb (action rq) _);
          [intros H; inversion H; reflexivity|]).
  destruct (String.eqb (action rq) "update_name"); [|discriminate].
  destruct (new_name rq) as [nm|]; [|discriminate].
  destruct (String.eqb (trim nm) ""); [discriminate|].
  intros H; inversion H; reflexivity.
Qed.

Lemma adminUpdateUser_keys (now uid : Z) (rq : admin_user_req) (s : db) :
  same_keys s (snd (adminUpdateUser now uid rq s)).
Proof.
  unfold adminUpdateUser. pose proof (refreshUser_keys now uid s) as Hr.
  destruct (refreshUser now uid s) as [[u|] s1]; cbn [snd] in Hr; [|exact Hr].
  destruct (admin_updates now rq u) as [r|updates] eqn:Hupd; [exact Hr|].
  pose proof (update_user_keys uid updates s1 (admin_updates_email _ _ _ _ Hupd)) as H2.
  pose proof (refreshUser_keys now uid (update_user uid updates s1)) as H3.
  destruct (refreshUser now uid (update_user uid updates s1)) as [[v|] s3];
    cbn [snd] in *; exact (same_keys_trans _ _ _ Hr (same_keys_trans _ _ _ H2 H3)).
Qed.

Lemma verifyPayment_keys (now pid : Z) (nts : option string) (n : option Z) (s : db) :
  same_keys s (snd (verifyPayment now pid nts n s)).
Proof.
  unfold verifyPayment. destruct (payment_by_id s pid) as [pay|]; [|apply same_keys_refl].
  destruct (String.eqb (status pay) "verified"); [apply same_keys_refl|].
  cbn [snd].
  match goal with
  | |- context [update_payment ?i ?f s] =>
      pose proof (update_payment_keys i f s (fun r => eq_refl)) as H1;
      set (s1 := update_payment i f s) in *
  end.
  apply (same_keys_trans _ _ _ H1).
  destruct (String.eqb (plan pay) "99").
  - destruct (p_user_id pay) as [uid|].
    + now apply update_user_keys.
    + destruct (nonempty (p_email pay)); [|apply same_keys_refl].
      now apply update_users_by_email_keys.
  - destruct (p_user_id pay) as [uid|].
    + now apply update_user_keys.
    + destruct (nonempty (p_email pay)); [|apply same_keys_refl].
      destruct (single _); [now apply update_user_keys|].
      now apply update_users_by_email_keys.
Qed.

Lemma coupon_edits_code (e : coupon_edit) (c : coupon) :
  code (coupon_edits e c) = code c /\ uses (coupon_edits e c) = uses c /\
  c_id (coupon_edits e c) = c_id c.
Proof.
  unfold coupon_edits, when.
  destruct (ce_expiryDate e), (ce_active e), (ce_note e), (ce_planGrant e),
    (ce_maxUses e), (ce_trialGrant e); repeat split.
Qed.

Lemma login_finish_keys (now : Z) (u : user) (s : db) :
  same_keys s (snd (login_finish now u s)).
Proof.
  unfold login_finish. destruct (sub_lapsed now u); [|apply same_keys_refl].
  now apply update_user_keys.
Qed.

Lemma userStatus_keys (now uid : Z) (s : db) :
  same_keys s (snd (userStatus now uid s)) /\ same_keys s (snd (adminGetUser now uid s)).
Proof.
  unfold userStatus, adminGetUser. pose proof (refreshUser_keys now uid s) as Hr.
  destruct (refreshUser now uid s) as [[u|] s1]; auto.
Qed.

Lemma updateName_keys (uid : Z) (n : option string) (s : db) :
  same_keys s (snd (updateName uid n s)).
Proof.
  unfold updateName. destruct (blank n); [apply same_keys_refl|].
  now apply update_user_keys.
Qed.

Lemma editCoupon_keys (cid : Z) (e : coupon_edit) (s : db) :
  same_keys s (snd (editCoupon cid e s)).
Proof.
  apply update_coupon_keys. intros r. apply coupon_edits_code.
Qed.

Lemma toggleCoupon_keys (cid : Z) (s : db) :
  same_keys s (snd (toggleCoupon cid s)).
Proof.
  unfold toggleCoupon. destruct (single _); [|apply same_keys_refl].
  now apply update_coupon_keys.
Qed.

Lemma rejectPayment_keys (now pid : Z) (nts : option string) (s : db) :
  same_keys s (snd (rejectPayment now pid nts s)).
Proof. now apply update_payment_keys. Qed.

Lemma filter_none_absent {A} (key : A -> string) (k : string) (l : list A) :
  filter (fun r => String.eqb (key r) k) l = [] -> ~ In k (map key l).
Proof.
  intros Hf Hin. apply in_map_iff in Hin as (r & Hk & Hr).
  assert (Hin : In r (filter (fun r => String.eqb (key r) k) l)).
  { apply filter_In. split; [exact Hr|]. now apply String.eqb_eq. }
  rewrite Hf in Hin. contradiction.
Qed.

Lemma login_emails (now : Z) (fresh : user) (e n : option string) (s : db) :
  let s' := snd (login now fresh e n s) in
  map email (users s') = map email (users s) \/
  exists em, nonempty e <> None /\
             em = trim (toLowerCase (js_or_str e "")) /\
             ~ In em (map email (users s)) /\
             map email (users s') = (map email (users s) ++ [em])%list.
Proof.
  intros s'. subst s'. unfold login.
  destruct (nonempty e) as [a|] eqn:He; [|now left].
  assert (Ha : js_or_str e "" = a).
  { unfold nonempty in He. destruct e as [v|]; [|discriminate]. simpl.
    destruct (String.eqb v ""); [discriminate|]. now inversion He. }
  destruct (users_by_email s (trim (toLowerCase a))) as [|u [|u' l]] eqn:Hf.
  - right. exists (trim (toLowerCase a)). split; [discriminate|].
    split; [now rewrite Ha|]. split.
    + exact (filter_none_absent email _ _ Hf).
    + match goal with
      | |- context [login_finish now ?nu ?s1] =>
          destruct (login_finish_keys now nu s1) as (Hk & _); rewrite Hk
      end.
      cbn [users with_users]. now rewrite map_app.
  - left.
    match goal with
    | |- context [login_finish now ?nu ?s1] =>
        destruct (login_finish_keys now nu s1) as (Hk & _); rewrite Hk
    end.
    apply update_user_keys. intros r. destruct (blank n); reflexivity.
  - now left.
Qed.

Lemma submitPayment_refs (fresh : payment) (rq : payment_req) (s : db) :
  let s' := snd (submitPayment fresh rq s) in
  (s' = s /\ forall m i, fst (submitPayment fresh rq s) <> OkPayment m i) \/
  (exists row,
     upi_ref row = trim (js_or_str (pr_upiRef rq) "") /\
     status row = "pending" /\
     single (filter (fun p => String.eqb (upi_ref p) (upi_ref row)) (payments s)) = None /\
     fst (submitPayment fresh rq s)
       = OkPayment "Payment submitted! Admin will verify within 30 minutes." (p_id row) /\
     s' = with_payments s (payments s ++ [row])).
Proof.
  intros s'. subst s'. unfold submitPayment.
  destruct (blank (pr_upiRef rq)); [left; split; [reflexivity|discriminate]|].
  destruct (blank (pr_mobile rq)); [left; split; [reflexivity|discriminate]|].
  destruct (nonempty (pr_plan rq)) as [pl|]; [|left; split; [reflexivity|discriminate]].
  destruct (_ && _); [left; split; [reflexivity|discriminate]|].
  destruct (single _) eqn:Hs; [left; split; [reflexivity|discriminate]|].
  right. eexists. cbn [snd fst]. split; [|split; [|split; [|split; reflexivity]]].
  - reflexivity.
  - reflexivity.
  - exact Hs.
Qed.

Lemma createCoupon_codes (generated : string) (fresh : coupon) (rq : coupon_req) (s : db) :
  let out := createCoupon generated fresh rq s in
  (coupon_by_code s (created_code generated rq) <> None /\
   out = (Error 400 "Code already exists.", s)) \/
  (exists row,
     coupon_by_code s (created_code generated rq) = None /\
     out = (OkCreated row, with_coupons s (coupons s ++ [row])) /\
     code row = created_code generated rq /\
     c_id row = c_id fresh /\ active row = active fresh /\ uses row = uses fresh /\
     max_uses row = Some (js_or (cr_maxUses rq) 100) /\
     trial_grant row = Some (js_or (cr_trialGrant rq) 0) /\
     created_by row = Some ADMIN_EMAIL /\
     (plan_grant row = Some "trials" \/ plan_grant row = Some "one_time" \/
      plan_grant row = Some "monthly")).
Proof.
  intros out. subst out. unfold createCoupon. fold (created_code generated rq).
  destruct (coupon_by_code s (created_code generated rq)) eqn:Hc.
  - left. split; [discriminate|reflexivity].
  - right. eexists. split; [reflexivity|]. split; [reflexivity|].
    repeat (split; [reflexivity|]). cbn [plan_grant]. destruct (0 <? _); [now left|].
    unfold str_is, js_or_str. destruct (cr_planGrant rq) as [g|]; [|right; now left].
    destruct (String.eqb_spec g "one_time") as [->|H1]; [right; now left|].
    destruct (String.eqb_spec g "monthly") as [->|H2]; [right; now right|].
    right; now left.
Qed.

Lemma NoDup_map_filter {R K} (rows : list R) (key : R -> K) (keep : R -> bool) :
  NoDup (map key rows) -> NoDup (map key (filter keep rows)).
Proof.
  intros H. induction rows as [|a rows IH]; simpl in *; [constructor|].
  inversion H as [|x xs Hx Hl]; subst. destruct (keep a); [|now apply IH].
  simpl. constructor; [|now apply IH].
  intros Hin. apply Hx. apply in_map_iff in Hin as (r & Hr & Hin).
  apply filter_In in Hin as [Hin _]. rewrite <- Hr. now apply in_map.
Qed.

Lemma step_unique_emails (s s' : db) :
  step s s' -> unique_emails s -> unique_emails s'.
Proof.
  unfold unique_emails. intros Hstep Hu. destruct Hstep.
  - destruct (login_emails now fresh e n s) as [->|(em & _ & _ & Hn & ->)];
      [exact Hu|now apply NoDup_snoc].
  - now rewrite (proj1 (proj1 (userStatus_keys now uid s))).
  - now rewrite (proj1 (updateName_keys uid n s)).
  - now rewrite (proj1 (analyze_keys now reply req s)).
  - destruct (submitPayment_refs fresh rq s) as [[-> _]|(row & _ & _ & _ & _ & ->)];
      exact Hu.
  - now rewrite (proj1 (redeem_keys now w c uid s)).
  - now rewrite (proj1 (proj2 (userStatus_keys now uid s))).
  - now rewrite (proj1 (adminUpdateUser_keys now uid rq s)).
  - now rewrite (proj1 (verifyPayment_keys now pid nts n s)).
  - exact Hu.
  - destruct (createCoupon_codes generated fresh rq s)
      as [[_ ->]|(row & _ & -> & _)]; exact Hu.
  - exact Hu.
  - now rewrite (proj1 (toggleCoupon_keys cid s)).
  - exact Hu.
Qed.

Lemma step_unique_refs (s s' : db) :
  step s s' -> unique_refs s -> unique_refs s'.
Proof.
  unfold unique_refs. intros Hstep Hu. destruct Hstep.
  - unfold login, login_finish. destruct (nonempty e); [|exact Hu].
    destruct (users_by_email s _) as [|u [|u' l]]; [| |exact Hu];
      destruct (sub_lapsed now _); exact Hu.
  - now rewrite (proj1 (proj2 (proj1 (userStatus_keys now uid s)))).
  - now rewrite (proj1 (proj2 (updateName_keys uid n s))).
  - now rewrite (proj1 (proj2 (analyze_keys now reply req s))).
  - destruct (submitPayment_refs fresh rq s) as [[-> _]|(row & _ & _ & Hs & _ & ->)];
      [exact Hu|].
    cbn [payments with_payments]. rewrite map_app. apply NoDup_snoc; [exact Hu|].
    exact (single_key_none upi_ref _ _ Hu Hs).
  - now rewrite (proj1 (proj2 (redeem_keys now w c uid s))).
  - now rewrite (proj1 (proj2 (proj2 (userStatus_keys now uid s)))).
  - now rewrite (proj1 (proj2 (adminUpdateUser_keys now uid rq s))).
  - now rewrite (proj1 (proj2 (verifyPayment_keys now pid nts n s))).
  - now rewrite (proj1 (proj2 (rejectPayment_keys now pid nts s))).
  - destruct (createCoupon_codes generated fresh rq s)
      as [[_ ->]|(row & _ & -> & _)]; exact Hu.
  - exact Hu.
  - now rewrite (proj1 (proj2 (toggleCoupon_keys cid s))).
  - exact Hu.
Qed.

Lemma step_unique_codes (s s' : db) :
  step s s' -> unique_codes s -> unique_codes s'.
Proof.
  unfold unique_codes. intros Hstep Hu. destruct Hstep.
  - unfold login, login_finish. destruct (nonempty e); [|exact Hu].
    destruct (users_by_email s _) as [|u [|u' l]]; [| |exact Hu];
      destruct (sub_lapsed now _); exact Hu.
  - now rewrite (proj2 (proj2 (proj1 (userStatus_keys now uid s)))).
  - now rewrite (proj2 (proj2 (updateName_keys uid n s))).
  - now rewrite (proj2 (proj2 (analyze_keys now reply req s))).
  - destruct (submitPayment_refs fresh rq s) as [[-> _]|(row & _ & _ & _ & _ & ->)];
      exact Hu.
  - now rewrite (proj2 (proj2 (redeem_keys now w c uid s))).
  - now rewrite (proj2 (proj2 (proj2 (userStatus_keys now uid s)))).
  - now rewrite (proj2 (proj2 (adminUpdateUser_keys now uid rq s))).
  - now rewrite (proj2 (proj2 (verifyPayment_keys now pid nts n s))).
  - exact Hu.
  - destruct (createCoupon_codes generated fresh rq s)
      as [[_ ->]|(row & Hc & -> & Hcode & _)]; [exact Hu|].
    cbn [snd coupons with_coupons]. rewrite map_app. apply NoDup_snoc; [exact Hu|].
    cbn [map]. rewrite Hcode. exact (single_key_none code _ _ Hu Hc).
  - now rewrite (proj2 (proj2 (editCoupon_keys cid e s))).
  - now rewrite (proj2 (proj2 (toggleCoupon_keys cid s))).
  - cbn [snd deleteCoupon coupons with_coupons]. now apply NoDup_map_filter.
Qed.

(** X6.  The handlers keep the keys they look rows up by unique: in every
    state reached from a store in which no two users share an e-mail
    address, no two payments share a UPI reference, or no two coupons share
    a code, the same still holds. *)
Theorem reachable_unique_keys (s0 s : db) :
  reachable s0 s ->
  (unique_emails s0 -> unique_emails s) /\
  (unique_refs s0 -> unique_refs s) /\
  (unique_codes s0 -> unique_codes s).
Proof.
  intros Hr. induction Hr as [|s s' _ (IH1 & IH2 & IH3) Hs]; [tauto|].
  split; [|split]; intros H0.
  - exact (step_unique_emails _ _ Hs (IH1 H0)).
  - exact (step_unique_refs _ _ Hs (IH2 H0)).
  - exact (step_unique_codes _ _ Hs (IH3 H0)).
Qed.

(** ** Accounts *)

Lemma login_known (now : Z) (fresh : user) (e : string) (n : option string) (s : db) :
  e <> "" ->
  In (trim (toLowerCase e)) (map email (users s)) ->
  map email (users (snd (login now fresh (Some e) n s))) = map email (users s).
Proof.
  intros He Hin.
  destruct (login_emails now fresh (Some e) n s) as [H|(em & _ & Hem & Hn & _)];
    [exact H|].
  exfalso. apply Hn. rewrite Hem. unfold js_or_str.
  destruct (String.eqb_spec e ""); [contradiction|exact Hin].
Qed.

(** X7.  Login is an upsert on the lower-cased, trimmed address.  From a
    store without duplicate addresses, a login leaves exactly one account
    with that address (creating it only if there was none), and every later
    login whose address differs at most in letter case and surrounding
    white space creates no further account. *)
Theorem login_dedupes (now : Z) (fresh : user) (e : string) (n : option string) (s : db) :
  unique_emails s -> e <> "" ->
  let em := trim (toLowerCase e) in
  let s1 := snd (login now fresh (Some e) n s) in
  In em (map email (users s1)) /\
  unique_emails s1 /\
  (In em (map email (users s)) -> map email (users s1) = map email (users s)) /\
  (~ In em (map email (users s)) ->
   map email (users s1) = (map email (users s) ++ [em])%list) /\
  forall now' fresh' e' n',
    e' <> "" -> trim (toLowerCase e') = em ->
    map email (users (snd (login now' fresh' (Some e') n' s1))) = map email (users s1).
Proof.
  intros Hu He em s1.
  assert (Hknown : In em (map email (users s)) ->
                   map email (users s1) = map email (users s))
    by (intros Hin; now apply login_known).
  assert (Hnew : ~ In em (map email (users s)) ->
                 map email (users s1) = (map email (users s) ++ [em])%list).
  { intros Hn. subst s1. unfold login. rewrite (nonempty_some _ He).
    fold em. unfold users_by_email. rewrite (filter_key_none email em _ Hn).
    match goal with
    | |- context [login_finish now ?nu ?s'] =>
        destruct (login_finish_keys now nu s') as (Hk & _); rewrite Hk
    end.
    cbn [users with_users]. now rewrite map_app. }
  assert (Hin1 : In em (map email (users s1))).
  { destruct (in_dec string_dec em (map email (users s))) as [Hin|Hn].
    - now rewrite (Hknown Hin).
    - rewrite (Hnew Hn). apply in_or_app. right. now left. }
  split; [exact Hin1|]. split.
  - apply (step_unique_emails s s1); [apply step_login|exact Hu].
  - split; [exact Hknown|]. split; [exact Hnew|].
    intros now' fresh' e' n' He' Hsame. apply login_known; [exact He'|].
    now rewrite Hsame.
Qed.

Lemma login_dedupes_witness :
  let s := store_of [] [] [] in
  let fresh := student 1 (Some 3) (Some 0) in
  let s1 := snd (login 50 fresh (Some " Asha@Example.COM ") None s) in
  map email (users s1) = ["asha@example.com"] /\
  map email (users (snd (login 60 (student 2 (Some 3) (Some 0))
                           (Some "ASHA@example.com") (Some "Asha K") s1)))
  = ["asha@example.com"].
Proof.
  intros s fresh s1.
  assert (He : " Asha@Example.COM " <> "") by discriminate.
  assert (He' : "ASHA@example.com" <> "") by discriminate.
  pose proof (login_dedupes 50 fresh " Asha@Example.COM " None s (NoDup_nil _) He) as H.
  cbv zeta in H. destruct H as (_ & _ & _ & Hnew & Hagain).
  split.
  - refine (eq_trans (Hnew _) eq_refl). intros [].
  - refine (eq_trans (Hagain 60 (student 2 (Some 3) (Some 0)) "ASHA@example.com"
                        (Some "Asha K") He' eq_refl) _).
    exact (eq_trans (Hnew (fun H : False => H)) eq_refl).
Defined.

Lemma reachable_unique_keys_witness :
  let s0 := store_of [] [] [] in
  let s := snd (login 50 (student 1 (Some 3) (Some 0)) (Some "asha@example.com") None s0) in
  unique_emails s /\ unique_refs s /\ unique_codes s.
Proof.
  intros s0 s.
  assert (Hr : reachable s0 s) by (eapply reach_step; [apply reach_init|apply step_login]).
  destruct (reachable_unique_keys s0 s Hr) as (H1 & H2 & H3).
  split; [|split]; [apply H1|apply H2|apply H3]; apply NoDup_nil.
Defined.

(** ** Payments: one row per UPI reference *)

(** X8.  A UPI reference is accepted once.  When a submission is accepted,
    one pending row carrying the trimmed reference and the reported id is
    appended, and from then on every submission whose trimmed reference is
    the same is refused and leaves the store as it is. *)
Theorem payment_reference_once (fresh : payment) (rq : payment_req) (s : db)
    (m : string) (i : Z) :
  unique_refs s ->
  fst (submitPayment fresh rq s) = OkPayment m i ->
  let s1 := snd (submitPayment fresh rq s) in
  (exists row,
     payments s1 = (payments s ++ [row])%list /\
     p_id row = i /\ status row = "pending" /\
     upi_ref row = trim (js_or_str (pr_upiRef rq) "")) /\
  forall fresh' rq',
    trim (js_or_str (pr_upiRef rq') "") = trim (js_or_str (pr_upiRef rq) "") ->
    snd (submitPayment fresh' rq' s1) = s1 /\
    forall m' i', fst (submitPayment fresh' rq' s1) <> OkPayment m' i'.
Proof.
  intros Hu Hok s1.
  assert (Hu1 : unique_refs s1)
    by (apply (step_unique_refs s s1); [apply step_submit|exact Hu]).
  destruct (submitPayment_refs fresh rq s) as [[_ Hno]|(row & Href & Hst & _ & Hfst & Hs1)].
  { exfalso. exact (Hno m i Hok). }
  fold s1 in Hs1.
  assert (Hpay : payments s1 = (payments s ++ [row])%list) by (now rewrite Hs1).
  split.
  - exists row. split; [exact Hpay|]. split; [|split; [exact Hst|exact Href]].
    rewrite Hfst in Hok. now inversion Hok.
  - intros fresh' rq' Hsame.
    destruct (submitPayment_refs fresh' rq' s1)
      as [H|(row' & Href' & _ & Hnone & _ & _)]; [exact H|].
    exfalso. apply (single_key_none upi_ref _ _ Hu1 Hnone).
    rewrite Href', Hsame, <- Href, Hpay, map_app. apply in_or_app. right. now left.
Qed.

Lemma payment_reference_once_witness :
  let s := store_of [student 7 (Some 3) (Some 0)] [] [] in
  let rq := mkPaymentReq (Some 7) None (Some "10") None (Some " UPI123456 ")
                         (Some "9000000000") in
  let s1 := snd (submitPayment (pending_payment 1 7 "") rq s) in
  let again := mkPaymentReq (Some 8) None (Some "99") None (Some "UPI123456")
                            (Some "9111111111") in
  snd (submitPayment (pending_payment 2 8 "") again s1) = s1.
Proof.
  intros s rq s1 again.
  assert (Hu : unique_refs s) by apply NoDup_nil.
  destruct (payment_reference_once (pending_payment 1 7 "") rq s _ 1 Hu eq_refl)
    as [_ H].
  exact (proj1 (H (pending_payment 2 8 "") again eq_refl)).
Defined.

(** ** Coupons: creation, lookup and first use *)

Lemma coupon_by_code_appended (s : db) (row : coupon) :
  ~ In (code row) (map code (coupons s)) ->
  coupon_by_code (with_coupons s (coupons s ++ [row])) (code row) = Some row.
Proof.
  intros Hn. unfold coupon_by_code. cbn [coupons with_coupons].
  rewrite filter_app, (filter_key_none code (code row) _ Hn).
  simpl. now rewrite String.eqb_refl.
Qed.

Lemma createCoupon_lookup (generated : string) (fresh : coupon) (rq : coupon_req)
    (s s1 : db) (row : coupon) :
  unique_codes s ->
  createCoupon generated fresh rq s = (OkCreated row, s1) ->
  s1 = with_coupons s (coupons s ++ [row]) /\
  code row = created_code generated rq /\
  coupon_by_code s1 (created_code generated rq) = Some row /\
  c_id row = c_id fresh /\ active row = active fresh /\ uses row = uses fresh /\
  max_uses row = Some (js_or (cr_maxUses rq) 100).
Proof.
  intros Hu Hc.
  destruct (createCoupon_codes generated fresh rq s)
    as [[_ He]|(row' & Hnone & Hout & Hcode & Hid & Hact & Huses & Hmax & _)];
    cbv zeta in *.
  - rewrite Hc in He. discriminate.
  - rewrite Hc in Hout. inversion Hout; subst row' s1.
    split; [reflexivity|]. split; [exact Hcode|].
    split; [|now repeat split].
    rewrite <- Hcode. apply coupon_by_code_appended.
    rewrite Hcode. apply (single_key_none code _ _ Hu). exact Hnone.
Qed.

(** X9.  A created coupon is stored under the trimmed, upper-cased code: it
    is the row found by that code afterwards, and any later creation that
    resolves to the same code, supplied or generated, is refused with
    "already exists" and adds nothing. *)
Theorem created_coupon_round_trip (generated : string) (fresh : coupon)
    (rq : coupon_req) (s s1 : db) (row : coupon) :
  unique_codes s ->
  createCoupon generated fresh rq s = (OkCreated row, s1) ->
  code row = created_code generated rq /\
  coupon_by_code s1 (code row) = Some row /\
  forall generated' fresh' rq',
    created_code generated' rq' = code row ->
    createCoupon generated' fresh' rq' s1 = (Error 400 "Code already exists.", s1).
Proof.
  intros Hu Hc.
  destruct (createCoupon_lookup _ _ _ _ _ _ Hu Hc) as (_ & Hcode & Hfind & _).
  split; [exact Hcode|]. split; [now rewrite Hcode|].
  intros generated' fresh' rq' Hsame.
  destruct (createCoupon_codes generated' fresh' rq' s1)
    as [[_ He]|(row' & Hnone & _)]; cbv zeta in *; [exact He|].
  rewrite Hsame, Hcode, Hfind in Hnone. discriminate.
Qed.

Lemma created_coupon_round_trip_witness :
  let s := store_of [] [] [] in
  let fresh := mkCoupon 5 "" true None 0 None None None None None in
  let rq := mkCouponReq (Some " welcome10 ") (Some 50) (Some "monthly") None None None in
  let out := createCoupon "VS-ABCDEFGH" fresh rq s in
  coupon_by_code (snd out) "WELCOME10" =
    Some (mkCoupon 5 "WELCOME10" true (Some 50) 0 (Some 0) (Some "monthly") None None
                   (Some ADMIN_EMAIL)) /\
  createCoupon "WELCOME10" (mkCoupon 6 "" true None 0 None None None None None)
               (mkCouponReq None None None (Some 2) None None) (snd out)
  = (Error 400 "Code already exists.", snd out).
Proof.
  intros s fresh rq out.
  assert (Hu : unique_codes s) by apply NoDup_nil.
  destruct (created_coupon_round_trip "VS-ABCDEFGH" fresh rq s (snd out) _ Hu eq_refl)
    as (_ & Hfind & H).
  split; [exact Hfind|]. apply H. reflexivity.
Defined.

(** X10.  The first redemption of a coupon just created (active, unused, not
    expired, no redemption row under its id) by any spelling of its code
    that trims and upper-cases to the stored one succeeds when the coupon's
    use limit is positive; a negative [maxUses] is stored as given and makes
    the coupon "fully redeemed" from the start. *)
Theorem created_coupon_first_redeem (generated : string) (fresh : coupon)
    (rq : coupon_req) (s s1 : db) (row : coupon) (now : Z) (c : string) (uid : Z) :
  unique_codes s ->
  createCoupon generated fresh rq s = (OkCreated row, s1) ->
  active fresh = true -> uses fresh = 0 ->
  past now (expiry_date row) = false ->
  redemption_of s (c_id fresh) uid = None ->
  c <> "" -> toUpperCase (trim c) = code row ->
  fst (redeem now all_applied (Some c) (Some uid) s1) =
  if 0 <? js_or (cr_maxUses rq) 100 then redeem_reply row else CouponExhausted.
Proof.
  intros Hu Hc Hact Huses Hpast Hred Hne Hspell.
  destruct (createCoupon_lookup _ _ _ _ _ _ Hu Hc)
    as (Hs1 & Hcode & Hfind & Hid & Hact' & Huses' & Hmax).
  rewrite <- Hcode, <- Hspell in Hfind.
  assert (Hnz : js_or (cr_maxUses rq) 100 <> 0) by (apply js_or_nonzero; discriminate).
  assert (Hex : exhausted row = negb (0 <? js_or (cr_maxUses rq) 100)).
  { unfold exhausted. rewrite Hmax, Huses', Huses. cbn [js_truthy js_num].
    destruct (Z.eqb_spec (js_or (cr_maxUses rq) 100) 0); [contradiction|].
    cbn [negb andb]. destruct (Z.leb_spec (js_or (cr_maxUses rq) 100) 0),
      (Z.ltb_spec 0 (js_or (cr_maxUses rq) 100)); try reflexivity; lia. }
  destruct (0 <? js_or (cr_maxUses rq) 100) eqn:Hpos; cbn [negb] in Hex.
  - rewrite (redeem_validated now all_applied c uid s1 row Hne Hfind).
    + reflexivity.
    + unfold redeemable. now rewrite Hact', Hact, Hex, Hpast.
    + rewrite Hid, Hs1. exact Hred.
  - rewrite (redeem_rejected now all_applied c uid s1 row Hne Hfind).
    + now rewrite Hact', Hact, Hex.
    + unfold redeemable. now rewrite Hact', Hact, Hex.
Qed.

Lemma created_coupon_first_redeem_witness :
  let s := store_of [student 7 (Some 3) (Some 0)] [] [] in
  let fresh := mkCoupon 5 "" true None 0 None None None None None in
  let rq := mkCouponReq (Some "welcome10") (Some (-1)) None (Some 2) None None in
  fst (redeem 1000 all_applied (Some " Welcome10") (Some 7)
         (snd (createCoupon "VS-ABCDEFGH" fresh rq s))) = CouponExhausted.
Proof.
  intros s fresh rq.
  assert (Hu : unique_codes s) by apply NoDup_nil.
  assert (Hne : " Welcome10" <> "") by discriminate.
  exact (created_coupon_first_redeem "VS-ABCDEFGH" fresh rq s _ _ 1000 " Welcome10" 7
           Hu eq_refl eq_refl eq_refl eq_refl eq_refl Hne eq_refl).
Defined.

(** ** Payments: verification and rejection *)

Lemma verifyPayment_payments (now pid : Z) (nts : option string) (n : option Z)
    (s : db) (pay : payment) :
  payment_by_id s pid = Some pay -> status pay <> "verified" ->
  let granted := if String.eqb (plan pay) "99" then None
                 else Some (trials_to_grant n) in
  fst (verifyPayment now pid nts n s) = Ok "Verified and access granted." /\
  payments (snd (verifyPayment now pid nts n s)) =
  payments (update_payment pid (mark_verified now (nonempty nts) granted) s).
Proof.
  intros Hp Hst granted. unfold verifyPayment. rewrite Hp.
  apply String.eqb_neq in Hst. rewrite Hst. cbv zeta.
  rewrite (payment_by_id_id _ _ _ Hp). split; [reflexivity|].
  subst granted.
  destruct (String.eqb (plan pay) "99"), (p_user_id pay), (nonempty (p_email pay));
    cbn [snd]; try reflexivity.
  destruct (single _); reflexivity.
Qed.

Lemma payment_by_id_payments (s s' : db) (pid : Z) :
  payments s' = payments s -> payment_by_id s' pid = payment_by_id s pid.
Proof. intros H. unfold payment_by_id. now rewrite H. Qed.

Lemma user_by_id_users (s s' : db) (uid : Z) :
  users s' = users s -> user_by_id s' uid = user_by_id s uid.
Proof. intros H. unfold user_by_id. now rewrite H. Qed.

(** X11.  A payment is verified at most once in a row.  Verifying a payment
    that is not yet verified succeeds and stamps the row (status, time,
    admin, the recorded grant: none for plan 99, the granted trials
    otherwise); every further verification of it is answered "already
    verified" and changes nothing, whatever it asks to grant. *)
Theorem verify_once (now pid : Z) (nts : option string) (n : option Z)
    (s : db) (pay : payment) :
  payment_by_id s pid = Some pay -> status pay <> "verified" ->
  let s1 := snd (verifyPayment now pid nts n s) in
  fst (verifyPayment now pid nts n s) = Ok "Verified and access granted." /\
  (exists pay',
     payment_by_id s1 pid = Some pay' /\
     status pay' = "verified" /\ verified_at pay' = Some now /\
     verified_by pay' = Some ADMIN_EMAIL /\
     trials_granted pay' = (if String.eqb (plan pay) "99" then None
                            else Some (Z.max 1 (js_or n 1))) /\
     upi_ref pay' = upi_ref pay /\ p_user_id pay' = p_user_id pay) /\
  forall now' nts' n',
    verifyPayment now' pid nts' n' s1 = (AlreadyVerified, s1).
Proof.
  intros Hp Hst s1.
  destruct (verifyPayment_payments now pid nts n s pay Hp Hst) as [Hok Hpay].
  cbv zeta in Hpay. fold s1 in Hpay.
  set (granted := if String.eqb (plan pay) "99" then None
                  else Some (trials_to_grant n)) in *.
  assert (Hfind : payment_by_id s1 pid = Some (mark_verified now (nonempty nts) granted pay)).
  { rewrite (payment_by_id_payments _ _ pid Hpay).
    now apply payment_by_id_update. }
  split; [exact Hok|]. split.
  - eexists. split; [exact Hfind|]. now repeat split.
  - intros now' nts' n'. unfold verifyPayment. now rewrite Hfind.
Qed.

Lemma verify_once_witness :
  let s := store_of [student 7 (Some 3) (Some 0)] [] [pending_payment 1 7 "10"] in
  let s1 := snd (verifyPayment 1000 1 None (Some 5) s) in
  verifyPayment 2000 1 (Some "again") (Some 9) s1 = (AlreadyVerified, s1).
Proof.
  intros s s1.
  assert (Hst : status (pending_payment 1 7 "10") <> "verified") by discriminate.
  exact (proj2 (proj2 (verify_once 1000 1 None (Some 5) s _ eq_refl Hst))
           2000 (Some "again") (Some 9)).
Defined.

Lemma verifyPayment_trials (now pid : Z) (nts : option string) (n : option Z)
    (s : db) (pay : payment) (uid : Z) (u : user) :
  payment_by_id s pid = Some pay -> status pay <> "verified" ->
  plan pay <> "99" -> p_user_id pay = Some uid -> user_by_id s uid = Some u ->
  verifyPayment now pid nts n s =
  (Ok "Verified and access granted.",
   update_user uid
     (set_trials_total (js_or (trials_total u) FREE_TRIALS + trials_to_grant n))
     (update_payment pid
        (mark_verified now (nonempty nts) (Some (trials_to_grant n))) s)).
Proof.
  intros Hp Hst Hplan Huid Hu. unfold verifyPayment. rewrite Hp.
  apply String.eqb_neq in Hst, Hplan. rewrite Hst, Hplan. cbv zeta.
  rewrite Huid, (payment_by_id_id _ _ _ Hp).
  unfold current_total.
  rewrite (user_by_id_users s (update_payment pid _ s) uid eq_refl), Hu.
  reflexivity.
Qed.

(** X12.  Rejecting a payment never touches the users table, so rejecting a
    verified trial payment leaves its grant in place; and since the row is
    no longer "verified" it can be verified again, which grants a second
    time.  After verify, reject, verify, the user's quota has grown by both
    grants. *)
Theorem reject_reopens_payment (now1 now2 now3 pid : Z) (nts1 nts2 nts3 : option string)
    (n1 n3 : option Z) (s : db) (pay : payment) (uid : Z) (u : user) :
  payment_by_id s pid = Some pay -> status pay <> "verified" ->
  plan pay <> "99" -> p_user_id pay = Some uid -> user_by_id s uid = Some u ->
  0 <= js_or (trials_total u) FREE_TRIALS ->
  let s1 := snd (verifyPayment now1 pid nts1 n1 s) in
  let s2 := snd (rejectPayment now2 pid nts2 s1) in
  let s3 := snd (verifyPayment now3 pid nts3 n3 s2) in
  users s2 = users s1 /\
  option_map status (payment_by_id s2 pid) = Some "rejected" /\
  fst (verifyPayment now3 pid nts3 n3 s2) = Ok "Verified and access granted." /\
  option_map trials_total (user_by_id s3 uid) =
  Some (Some (js_or (trials_total u) FREE_TRIALS
              + trials_to_grant n1 + trials_to_grant n3)).
Proof.
  intros Hp Hst Hplan Huid Hu Hcur s1 s2 s3.
  set (cur := js_or (trials_total u) FREE_TRIALS) in *.
  assert (Hs1 : s1 = update_user uid (set_trials_total (cur + trials_to_grant n1))
                       (update_payment pid
                          (mark_verified now1 (nonempty nts1) (Some (trials_to_grant n1))) s)).
  { subst s1. now rewrite (verifyPayment_trials now1 pid nts1 n1 s pay uid u). }
  assert (Hp1 : payment_by_id s1 pid =
                Some (mark_verified now1 (nonempty nts1) (Some (trials_to_grant n1)) pay)).
  { rewrite Hs1.
    exact (payment_by_id_update s pid pay
             (mark_verified now1 (nonempty nts1) (Some (trials_to_grant n1)))
             (fun _ => eq_refl) Hp). }
  assert (Hu1 : user_by_id s1 uid = Some (set_trials_total (cur + trials_to_grant n1) u)).
  { rewrite Hs1. apply user_by_id_update_same; [reflexivity|].
    now rewrite (user_by_id_users s (update_payment pid _ s) uid eq_refl). }
  assert (Hp2 : payment_by_id s2 pid =
                Some (mark_rejected now2 nts2
                        (mark_verified now1 (nonempty nts1) (Some (trials_to_grant n1)) pay))).
  { subst s2. unfold rejectPayment. cbn [snd]. now apply payment_by_id_update. }
  assert (Hu2 : user_by_id s2 uid = Some (set_trials_total (cur + trials_to_grant n1) u)).
  { rewrite (user_by_id_users s1 s2 uid eq_refl). exact Hu1. }
  assert (Hst2 : status (mark_rejected now2 nts2
                   (mark_verified now1 (nonempty nts1) (Some (trials_to_grant n1)) pay))
                 <> "verified") by discriminate.
  pose proof (verifyPayment_trials now3 pid nts3 n3 s2 _ uid _ Hp2 Hst2 Hplan Huid Hu2)
    as Hv.
  split; [reflexivity|]. split; [now rewrite Hp2|].
  split; [now rewrite Hv|].
  subst s3. rewrite Hv. cbn [snd].
  erewrite user_by_id_update_same; [|reflexivity|].
  2:{ rewrite (user_by_id_users s2 (update_payment pid _ s2) uid eq_refl). exact Hu2. }
  cbn [option_map trials_total set_trials_total]. do 2 f_equal.
  unfold js_or at 1.
  assert (Hn1 : 1 <= trials_to_grant n1) by (unfold trials_to_grant; lia).
  destruct (Z.eqb_spec (cur + trials_to_grant n1) 0); [lia|reflexivity].
Qed.

Lemma reject_reopens_payment_witness :
  let s := store_of [student 7 (Some 3) (Some 0)] [] [pending_payment 1 7 "10"] in
  let s1 := snd (verifyPayment 1000 1 None (Some 5) s) in
  let s2 := snd (rejectPayment 2000 1 None s1) in
  let s3 := snd (verifyPayment 3000 1 None (Some 5) s2) in
  option_map trials_total (user_by_id s3 7) = Some (Some 13).
Proof.
  intros s s1 s2 s3.
  assert (Hst : status (pending_payment 1 7 "10") <> "verified") by discriminate.
  assert (Hplan : plan (pending_payment 1 7 "10") <> "99") by discriminate.
  assert (Hcur : 0 <= js_or (trials_total (student 7 (Some 3) (Some 0))) FREE_TRIALS)
    by (vm_compute; discriminate).
  exact (proj2 (proj2 (proj2
           (reject_reopens_payment 1000 2000 3000 1 None None None (Some 5) (Some 5)
              s _ 7 _ eq_refl Hst Hplan eq_refl eq_refl Hcur)))).
Defined.

(** ** Admin actions on a user *)

Lemma normalize_columns (now : Z) (u : user) :
  id (normalize now u) = id u /\ email (normalize now u) = email u /\
  role (normalize now u) = role u /\
  trials_total (normalize now u) = trials_total u /\
  trials_used (normalize now u) = trials_used u.
Proof. unfold normalize. destruct (sub_lapsed now u); repeat split. Qed.

(** X13.  [grant_monthly] opens a window of [max(1, days || 30)] days,
    provided its end is a time value a [Date] can hold.  Up to its end every
    refresh returns the subscribed row unchanged and the entitlement gate
    lets the user through; the first refresh after its end demotes the
    stored row (not subscribed, no plan, no expiry) and leaves the trial
    counters as they were before the grant.  When the end is beyond the
    range of [Date], building the expiry throws: the route answers 500 and
    grants nothing, and only the refresh that precedes the dispatch is
    written. *)
Theorem grant_monthly_window (now uid : Z) (rq : admin_user_req) (s : db) (u : user) :
  user_by_id s uid = Some u -> action rq = "grant_monthly" ->
  let e := now + Z.max 1 (js_or (daysToGrant rq) 30) * DAY_MS in
  let s1 := snd (adminUpdateUser now uid rq s) in
  now < e /\
  (valid_time e = false ->
     adminUpdateUser now uid rq s =
     (Error 500 "Update failed: Invalid time value", snd (refreshUser now uid s))) /\
  (valid_time e = true ->
     (forall t, t <= e ->
        exists u1, refreshUser t uid s1 = (Some u1, s1) /\
                   subscribed u1 = true /\ sub_plan u1 = Some "monthly" /\
                   sub_expires u1 = Some e /\
                   trial_gate (Some u1) = None) /\
     (forall t, e < t ->
        exists u1, fst (refreshUser t uid s1) = Some u1 /\
                   user_by_id (snd (refreshUser t uid s1)) uid = Some u1 /\
                   subscribed u1 = false /\ sub_plan u1 = None /\ sub_expires u1 = None /\
                   trials_total u1 = trials_total u /\ trials_used u1 = trials_used u)).
Proof.
  intros Hu Ha e s1.
  assert (He : now < e) by (subst e; unfold DAY_MS; lia).
  split; [exact He|]. split.
  { intros Hv. unfold adminUpdateUser. rewrite (refreshUser_found _ _ _ _ Hu).
    cbn [snd]. unfold admin_updates. rewrite Ha. cbn [String.eqb Ascii.eqb Bool.eqb].
    fold e. now rewrite Hv. }
  intros Hv.
  set (patch := set_sub true (Some "monthly") (Some e)).
  assert (Hpatch : admin_updates now rq (normalize now u) = inr patch).
  { unfold admin_updates. rewrite Ha. cbn [String.eqb Ascii.eqb Bool.eqb].
    fold e. now rewrite Hv. }
  destruct (adminUpdateUser_applied now uid rq s u patch Hu Hpatch) as (Hout & Hrow & _).
  { reflexivity. }
  { intros r _. unfold sub_lapsed, patch. cbn [subscribed sub_plan sub_expires set_sub str_is].
    destruct (Z.ltb_spec e now); [lia|reflexivity]. }
  cbv zeta in Hout, Hrow.
  assert (Hs1 : s1 = update_user uid patch (snd (refreshUser now uid s)))
    by (subst s1; now rewrite Hout).
  rewrite <- Hs1 in Hrow. clear Hout Hs1.
  set (row := patch (normalize now u)) in *.
  assert (Hl : forall t, sub_lapsed t row = (e <? t)) by reflexivity.
  split.
  - intros t Ht. exists row. rewrite (refreshUser_found t uid s1 row Hrow), Hl.
    destruct (Z.ltb_spec e t); [lia|].
    unfold normalize. rewrite Hl. destruct (Z.ltb_spec e t); [lia|].
    split; [reflexivity|]. split; [reflexivity|]. split; [reflexivity|].
    split; [reflexivity|].
    unfold trial_gate, metered. cbn [row patch subscribed set_sub negb].
    now rewrite andb_false_r.
  - intros t Ht. exists (set_sub false None None row).
    rewrite (refreshUser_found t uid s1 row Hrow), Hl.
    destruct (Z.ltb_spec e t); [|lia].
    unfold normalize. rewrite Hl. destruct (Z.ltb_spec e t); [|lia].
    destruct (normalize_columns now u) as (Hid & _ & _ & Htot & Hused).
    split; [reflexivity|]. split.
    + cbn [snd]. now apply user_by_id_update_same.
    + now repeat split.
Qed.

Lemma grant_monthly_window_witness :
  let s := store_of [student 7 (Some 3) (Some 3)] [] [] in
  let s1 := snd (adminUpdateUser 1000 7 (mkAdminReq "grant_monthly" (Some 0) None None None) s) in
  (exists u1, fst (refreshUser (1000 + 30 * DAY_MS + 1) 7 s1) = Some u1 /\
              subscribed u1 = false /\ trials_used u1 = Some 3) /\
  adminUpdateUser 1000 7 (mkAdminReq "grant_monthly" (Some 200000000) None None None) s
  = (Error 500 "Update failed: Invalid time value", s).
Proof.
  intros s s1. split.
  - destruct (grant_monthly_window 1000 7 (mkAdminReq "grant_monthly" (Some 0) None None None)
                s (student 7 (Some 3) (Some 3)) eq_refl eq_refl) as (_ & _ & H).
    destruct (proj2 (H eq_refl) (1000 + 30 * DAY_MS + 1)) as (u1 & H1 & _ & H2 & _ & _ & _ & H3).
    + vm_compute. reflexivity.
    + exists u1. split; [exact H1|]. split; [exact H2|exact H3].
  - exact (proj1 (proj2 (grant_monthly_window 1000 7
                           (mkAdminReq "grant_monthly" (Some 200000000) None None None)
                           s (student 7 (Some 3) (Some 3)) eq_refl eq_refl)) eq_refl).
Defined.

(** X14.  A request with an action the route does not know is refused:
    404 when the id matches no single user, otherwise 400 "Unknown action.".
    The only write it can leave behind is the demotion of a lapsed
    subscription made by the refresh that precedes the dispatch. *)
Theorem admin_unknown_action (now uid : Z) (rq : admin_user_req) (s : db) :
  ~ In (action rq) known_actions ->
  adminUpdateUser now uid rq s =
  (match user_by_id s uid with
   | None => Error 404 "User not found."
   | Some _ => Error 400 "Unknown action."
   end, snd (refreshUser now uid s)).
Proof.
  intros Hn. unfold adminUpdateUser.
  assert (Hup : forall u, admin_updates now rq u = inl (Error 400 "Unknown action.")).
  { intros u. unfold admin_updates. unfold known_actions in Hn. cbn [In] in Hn.
    repeat match goal with
           | |- context [String.eqb (action rq) ?l] =>
               destruct (String.eqb_spec (action rq) l) as [E|_];
               [exfalso; apply Hn; rewrite E; tauto|]
           end.
    reflexivity. }
  destruct (user_by_id s uid) as [u|] eqn:Hu.
  - rewrite (refreshUser_found _ _ _ _ Hu). now rewrite Hup.
  - now rewrite (refreshUser_missing _ _ _ Hu).
Qed.

Lemma admin_unknown_action_witness :
  let s := store_of [monthly_until 7 500] [] [] in
  let out := adminUpdateUser 1000 7 (mkAdminReq "grant_yearly" None None None None) s in
  fst out = Error 400 "Unknown action." /\
  option_map subscribed (user_by_id (snd out) 7) = Some false.
Proof.
  intros s out.
  assert (Hn : ~ In "grant_yearly" known_actions).
  { intros H. repeat (destruct H as [H|H]; [discriminate H|]). exact H. }
  pose proof (admin_unknown_action 1000 7 (mkAdminReq "grant_yearly" None None None None)
                s Hn) as H.
  split; [exact (f_equal fst H)|].
  exact (f_equal (fun o => option_map subscribed (user_by_id (snd o) 7)) H).
Defined.

(** X15.  [revoke_all] puts a user back on the free tier with a fresh
    quota, whatever they had used before: the stored row is unsubscribed
    with [trials_total = FREE_TRIALS] and [trials_used = 0]; a user who is
    not an admin is then served exactly [FREE_TRIALS] analyses in a row and
    refused the next one. *)
Theorem revoke_all_free_tier (now uid : Z) (rq : admin_user_req) (s : db) (u : user)
    (t : Z) (text : string) :
  user_by_id s uid = Some u -> action rq = "revoke_all" -> role u <> "admin" ->
  60 <= Z.of_nat (String.length (trim text)) ->
  Z.of_nat (String.length text) <= 15000 ->
  let s1 := snd (adminUpdateUser now uid rq s) in
  let req := mkAnalyzeReq (Some text) (Some uid) in
  let s2 := repeat_analyze (Z.to_nat FREE_TRIALS) t req s1 in
  (exists u1, user_by_id s1 uid = Some u1 /\
              subscribed u1 = false /\ sub_plan u1 = None /\ sub_expires u1 = None /\
              trials_total u1 = Some FREE_TRIALS /\ trials_used u1 = Some 0) /\
  (exists u2, user_by_id s2 uid = Some u2 /\ trials_used u2 = Some FREE_TRIALS) /\
  forall t' reply,
    analyze t' reply req s2 = (TrialLimit (Some FREE_TRIALS) FREE_TRIALS, s2).
Proof.
  intros Hu Ha Hrole Hlo Hhi s1 req s2.
  set (patch := fun row => set_trials_used 0
                  (set_trials_total FREE_TRIALS (set_sub false None None row))).
  assert (Hpatch : admin_updates now rq (normalize now u) = inr patch)
    by (unfold admin_updates; rewrite Ha; reflexivity).
  destruct (adminUpdateUser_applied now uid rq s u patch Hu Hpatch) as (Hout & Hrow & _);
    [reflexivity|intros r _; reflexivity|].
  cbv zeta in Hout, Hrow.
  assert (Hs1 : s1 = update_user uid patch (snd (refreshUser now uid s)))
    by (subst s1; now rewrite Hout).
  rewrite <- Hs1 in Hrow. clear Hout Hs1.
  destruct (normalize_columns now u) as (_ & _ & Hr & _ & _).
  assert (Hm : metered (patch (normalize now u)) = true).
  { unfold metered, patch. cbn [role subscribed set_trials_used set_trials_total set_sub].
    rewrite Hr. apply String.eqb_neq in Hrole. now rewrite Hrole. }
  destruct (metered_run t text uid s1 _ Hlo Hhi Hrow Hm) as (u2 & Hu2 & Hused & _ & Hden).
  { vm_compute. discriminate. }
  split.
  - eexists. split; [exact Hrow|]. now repeat split.
  - change (js_or (trials_total (patch (normalize now u))) FREE_TRIALS) with FREE_TRIALS
      in Hu2, Hused, Hden.
    change (js_num (trials_used (patch (normalize now u)))) with 0 in Hu2, Hden.
    change (Z.to_nat (FREE_TRIALS - 0)) with (Z.to_nat FREE_TRIALS) in Hu2, Hden.
    fold req s2 in Hu2, Hden.
    assert (Hsome : trials_used u2 = Some FREE_TRIALS).
    { destruct (trials_used u2) as [v|]; cbn [js_num] in Hused;
        [now rewrite Hused|discriminate Hused]. }
    split.
    + exists u2. split; [exact Hu2|exact Hsome].
    + intros t' reply. rewrite (Hden t' reply). now rewrite Hsome.
Qed.

Lemma revoke_all_free_tier_witness :
  let s := store_of [student 7 (Some 10) (Some 10)] [] [] in
  let s1 := snd (adminUpdateUser 1000 7 (mkAdminReq "revoke_all" None None None None) s) in
  let req := mkAnalyzeReq (Some long_text) (Some 7) in
  analyze 2000 (Parsed None) req (repeat_analyze 3 2000 req s1)
  = (TrialLimit (Some 3) 3, repeat_analyze 3 2000 req s1).
Proof.
  intros s s1 req.
  assert (Hrole : role (student 7 (Some 10) (Some 10)) <> "admin") by discriminate.
  assert (Hlo : 60 <= Z.of_nat (String.length (trim long_text))) by (vm_compute; discriminate).
  assert (Hhi : Z.of_nat (String.length long_text) <= 15000) by (vm_compute; discriminate).
  exact (proj2 (proj2 (revoke_all_free_tier 1000 7 (mkAdminReq "revoke_all" None None None None)
                         s _ 2000 long_text eq_refl eq_refl Hrole Hlo Hhi))
           2000 (Parsed None)).
Defined.

(** ** Admin actions on a coupon *)

Lemma db_coupons_same (s : db) (cs : list coupon) :
  cs = coupons s -> with_coupons s cs = s.
Proof. intros ->. now destruct s. Qed.

Lemma db_users_same (s : db) (us : list user) :
  us = users s -> with_users s us = s.
Proof. intros ->. now destruct s. Qed.

Lemma db_payments_same (s : db) (ps : list payment) :
  ps = payments s -> with_payments s ps = s.
Proof. intros ->. now destruct s. Qed.

Lemma filter_none_same {A} (p : A -> bool) (l : list A) :
  (forall r, In r l -> p r = false) -> filter (fun r => negb (p r)) l = l.
Proof.
  induction l as [|a l IH]; simpl; intros H; [reflexivity|].
  rewrite (H a) by now left. simpl. f_equal. apply IH. intros r Hr. apply H. now right.
Qed.

Lemma id_absent {A} (key : A -> Z) (k : Z) (l : list A) (r : A) :
  ~ In k (map key l) -> In r l -> (key r =? k) = false.
Proof.
  intros Hn Hr. destruct (Z.eqb_spec (key r) k) as [E|_]; [|reflexivity].
  exfalso. apply Hn. rewrite <- E. now apply in_map.
Qed.

Lemma update_where_absent {A} (key : A -> Z) (k : Z) (f : A -> A) (l : list A) :
  ~ In k (map key l) -> update_where (fun r => key r =? k) f l = l.
Proof.
  intros Hn. apply update_where_same. intros r Hr Hp.
  rewrite (id_absent key k l r Hn Hr) in Hp. discriminate.
Qed.

(** X16.  Toggling a coupon twice is a round trip: the first toggle reports
    and stores the negated flag, the second reports the original flag and
    restores the store exactly. *)
Theorem toggle_twice (cid : Z) (s : db) (cp : coupon) :
  single (filter (fun c => c_id c =? cid) (coupons s)) = Some cp ->
  let out := toggleCoupon cid s in
  fst out = OkActive (negb (active cp)) /\
  single (filter (fun c => c_id c =? cid) (coupons (snd out)))
    = Some (set_active (negb (active cp)) cp) /\
  toggleCoupon cid (snd out) = (OkActive (active cp), s).
Proof.
  intros Hs out. subst out.
  pose proof (single_some _ _ Hs) as Hf.
  assert (Hcp : (c_id cp =? cid) = true).
  { assert (Hin : In cp (filter (fun c => c_id c =? cid) (coupons s)))
      by (rewrite Hf; now left).
    now apply filter_In in Hin. }
  assert (Htog : toggleCoupon cid s =
                 (OkActive (negb (active cp)),
                  update_coupon cid (set_active (negb (active cp))) s))
    by (unfold toggleCoupon; now rewrite Hs).
  rewrite Htog. cbn [fst snd].
  assert (Hs1 : single (filter (fun c => c_id c =? cid)
                          (coupons (update_coupon cid (set_active (negb (active cp))) s)))
                = Some (set_active (negb (active cp)) cp)).
  { unfold update_coupon. cbn [coupons with_coupons].
    rewrite filter_update_where by reflexivity.
    rewrite Hf. cbn [update_where map]. now rewrite Hcp. }
  split; [reflexivity|]. split; [exact Hs1|].
  unfold toggleCoupon. rewrite Hs1.
  cbn [active set_active]. rewrite negb_involutive. f_equal.
  unfold update_coupon. cbn [coupons with_coupons].
  destruct s as [us cs rs ps xs]. unfold with_coupons. cbn [users coupons coupon_redemptions payments analyses] in *.
  f_equal. unfold update_where. rewrite map_map.
  rewrite <- (map_id cs) at 2. apply map_ext_in. intros r Hr.
  destruct (c_id r =? cid) eqn:E; [|now rewrite E].
  cbn [c_id set_active]. rewrite E.
  assert (Hin : In r (filter (fun c => c_id c =? cid) cs))
    by (apply filter_In; now split).
  rewrite Hf in Hin. destruct Hin as [<-|[]]. now destruct cp.
Qed.

Lemma toggle_twice_witness :
  let s := store_of [] [trial_coupon 5 (Some 10) 2] [] in
  toggleCoupon 5 (snd (toggleCoupon 5 s)) = (OkActive true, s).
Proof.
  intros s.
  exact (proj2 (proj2 (toggle_twice 5 s (trial_coupon 5 (Some 10) 2) eq_refl))).
Defined.

(** X17.  An edit never renames a coupon, re-keys it or touches its use
    counter, and it leaves every coupon with another id exactly as it was.
    An empty body, or an id that matches no coupon, changes nothing; the
    route answers with success all the same. *)
Theorem edit_coupon_frame (cid : Z) (e : coupon_edit) (s : db) :
  let out := editCoupon cid e s in
  fst out = OkDone /\
  map code (coupons (snd out)) = map code (coupons s) /\
  map c_id (coupons (snd out)) = map c_id (coupons s) /\
  map uses (coupons (snd out)) = map uses (coupons s) /\
  users (snd out) = users s /\ coupon_redemptions (snd out) = coupon_redemptions s /\
  (forall c, In c (coupons s) -> c_id c <> cid -> In c (coupons (snd out))) /\
  (e = no_edit \/ ~ In cid (map c_id (coupons s)) -> snd out = s).
Proof.
  intros out. subst out. unfold editCoupon, update_coupon.
  cbn [fst snd coupons users coupon_redemptions with_coupons].
  split; [reflexivity|].
  split; [apply map_update_where; intros r; apply coupon_edits_code|].
  split; [apply map_update_where; intros r; apply coupon_edits_code|].
  split; [apply map_update_where; intros r; apply coupon_edits_code|].
  split; [reflexivity|]. split; [reflexivity|]. split.
  - intros c Hc Hne. unfold update_where. apply in_map_iff. exists c.
    split; [|exact Hc]. destruct (Z.eqb_spec (c_id c) cid); [contradiction|reflexivity].
  - intros [->|Hn]; apply db_coupons_same.
    + apply update_where_same. intros r _ _. now destruct r.
    + now apply update_where_absent.
Qed.




(** ** Writes addressed to rows that do not exist *)

Lemma coupon_grant_absent (now : Z) (cp : coupon) (uid : Z) (s : db) :
  ~ In uid (map id (users s)) -> coupon_grant now cp uid s = s.
Proof.
  intros Hn. unfold coupon_grant.
  destruct (0 <? _); unfold update_user; apply db_users_same;
    now apply update_where_absent.
Qed.

(** X19.  A coupon redeemed with a user id that matches no user row is
    spent for nothing: the handler reports success, counts the use and
    records the redemption, but the users table is left as it was. *)
Theorem redeem_unknown_user (now : Z) (c : string) (uid : Z) (s : db) (cp : coupon) :
  c <> "" ->
  coupon_by_code s (toUpperCase (trim c)) = Some cp ->
  redeemable now cp = true ->
  redemption_of s (c_id cp) uid = None ->
  ~ In uid (map id (users s)) ->
  let out := redeem now all_applied (Some c) (Some uid) s in
  fst out = redeem_reply cp /\
  users (snd out) = users s /\
  coupon_redemptions (snd out) =
    (coupon_redemptions s ++ [mkRedemption (c_id cp) uid])%list /\
  coupon_by_code (snd out) (toUpperCase (trim c)) = Some (bump_uses cp cp) /\
  uses (bump_uses cp cp) = uses cp + 1.
Proof.
  intros Hne Hfind Hok Hred Hn out. subst out.
  rewrite (redeem_validated now all_applied c uid s cp Hne Hfind Hok Hred).
  cbn [write all_applied w_coupon w_grant w_insert fst snd].
  rewrite coupon_grant_absent by exact Hn.
  split; [reflexivity|]. split; [reflexivity|]. split; [reflexivity|].
  split; [|reflexivity].
  exact (coupon_by_code_bump s _ cp Hfind).
Qed.

Lemma redeem_unknown_user_witness :
  let s := store_of [student 7 (Some 3) (Some 0)] [trial_coupon 5 (Some 10) 2] [] in
  let out := redeem 1000 all_applied (Some "VS-ABC12345") (Some 99) s in
  fst out = OkCoupon "trial(s) added!" "trials" 2 /\ users (snd out) = users s.
Proof.
  intros s out.
  assert (Hne : "VS-ABC12345" <> "") by discriminate.
  assert (Hn : ~ In 99 (map id (users s))).
  { intros [H|[]]. discriminate H. }
  destruct (redeem_unknown_user 1000 "VS-ABC12345" 99 s (trial_coupon 5 (Some 10) 2)
              Hne eq_refl eq_refl eq_refl Hn) as (H1 & H2 & _).
  split; [exact H1|exact H2].
Defined.

(** X20.  The routes that update or delete by id without reading the row
    first answer with success when the id matches nothing, and change
    nothing: renaming a user, rejecting a payment and deleting a coupon. *)
Theorem blind_writes (uid pid cid now : Z) (n nts : option string) (s : db) :
  ~ In uid (map id (users s)) ->
  ~ In pid (map p_id (payments s)) ->
  ~ In cid (map c_id (coupons s)) ->
  blank n = false ->
  updateName uid n s = (OkName (trim (js_or_str n "")), s) /\
  rejectPayment now pid nts s = (OkDone, s) /\
  deleteCoupon cid s = (OkDone, s).
Proof.
  intros Hu Hp Hc Hb. split; [|split].
  - unfold updateName. rewrite Hb. f_equal. unfold update_user.
    apply db_users_same. now apply update_where_absent.
  - unfold rejectPayment. f_equal. unfold update_payment.
    apply db_payments_same. now apply update_where_absent.
  - unfold deleteCoupon. f_equal. apply db_coupons_same.
    apply (filter_none_same (fun c => c_id c =? cid)).
    intros r Hr. exact (id_absent c_id cid _ r Hc Hr).
Qed.

Lemma blind_writes_witness :
  let s := store_of [student 7 (Some 3) (Some 0)] [trial_coupon 5 (Some 10) 2]
                    [pending_payment 1 7 "10"] in
  updateName 8 (Some " Ravi ") s = (OkName "Ravi", s) /\
  rejectPayment 1000 2 None s = (OkDone, s) /\
  deleteCoupon 6 s = (OkDone, s).
Proof.
  intros s.
  assert (Hu : ~ In 8 (map id (users s))) by (intros [H|[]]; discriminate H).
  assert (Hp : ~ In 2 (map p_id (payments s))) by (intros [H|[]]; discriminate H).
  assert (Hc : ~ In 6 (map c_id (coupons s))) by (intros [H|[]]; discriminate H).
  exact (blind_writes 8 2 6 1000 (Some " Ravi ") None s Hu Hp Hc eq_refl).
Defined.

(** ** What an analysis request can change *)

Lemma user_by_id_patched (uid0 uid : Z) (f : user -> user) (s : db) (u : user) :
  (forall r, id (f r) = id r) ->
  user_by_id s uid = Some u ->
  user_by_id (update_user uid0 f s) uid = Some (if uid =? uid0 then f u else u).
Proof.
  intros Hf Hu. rewrite (user_by_id_update uid0 uid f s Hf), Hu. cbn [option_map].
  now rewrite (user_by_id_id _ _ _ Hu).
Qed.

(** X21.  An analysis request never grants anything.  Whatever the request
    and the Analyzer's reply, the coupons, payments and redemptions are
    untouched and every user keeps identity, role and [trials_total]; a
    subscription can only be dropped (the lazy demotion), never gained or
    altered; and [trials_used] either stays or goes up by exactly one, for
    the requesting user only and only when the Analyzer's text parsed: on a
    served analysis, and on a reply that is the JSON value [null], which the
    route answers with 500 after the increment. *)
Theorem analyze_never_grants (now : Z) (reply : gemini_reply) (req : analyze_req)
    (s : db) (uid : Z) (u : user) :
  user_by_id s uid = Some u ->
  let out := analyze now reply req s in
  coupons (snd out) = coupons s /\ payments (snd out) = payments s /\
  coupon_redemptions (snd out) = coupon_redemptions s /\
  exists u',
    user_by_id (snd out) uid = Some u' /\ no_gain u u' /\
    (trials_used u' = trials_used u \/
     ar_userId req = Some uid /\
     ((exists t, reply = Parsed t /\ fst out = OkAnalysis (js_or_str t "Your Project")) \/
      (reply = ParsedNull /\ exists m, fst out = Error 500 m)) /\
     trials_used u' = Some (js_num (trials_used u) + 1)).
Proof.
  intros Hu out. subst out.
  pose (P := fun (o : option Z) (out : response * db) =>
    coupons (snd out) = coupons s /\ payments (snd out) = payments s /\
    coupon_redemptions (snd out) = coupon_redemptions s /\
    exists u',
      user_by_id (snd out) uid = Some u' /\ no_gain u u' /\
      (trials_used u' = trials_used u \/
       o = Some uid /\
       ((exists t, reply = Parsed t /\ fst out = OkAnalysis (js_or_str t "Your Project")) \/
        (reply = ParsedNull /\ exists m, fst out = Error 500 m)) /\
       trials_used u' = Some (js_num (trials_used u) + 1))).
  assert (Hrefl : no_gain u u) by (unfold no_gain; repeat split; auto).
  assert (Hquiet : forall o r, P o (r, s)).
  { intros o r. unfold P. cbn [fst snd]. repeat (split; [reflexivity|]).
    exists u. split; [exact Hu|]. split; [exact Hrefl|now left]. }
  change (P (ar_userId req) (analyze now reply req s)).
  unfold analyze.
  destruct (ar_text req) as [text|]; [|apply Hquiet].
  destruct (is_empty text); [apply Hquiet|].
  destruct (_ <? 60); [apply Hquiet|]. destruct (15000 <? _); [apply Hquiet|].
  destruct (ar_userId req) as [uid0|];
    [|cbn [trial_gate]; destruct reply; apply Hquiet].
  destruct (user_by_id s uid0) as [u0|] eqn:Hu0;
    [|rewrite (refreshUser_missing _ _ _ Hu0); cbn [trial_gate];
      destruct reply; apply Hquiet].
  rewrite (refreshUser_found _ _ _ _ Hu0).
  set (s1 := if sub_lapsed now u0 then update_user uid0 (set_sub false None None) s else s).
  assert (Hf1 : coupons s1 = coupons s /\ payments s1 = payments s /\
                coupon_redemptions s1 = coupon_redemptions s)
    by (subst s1; destruct (sub_lapsed now u0); repeat split).
  destruct Hf1 as (Hc1 & Hp1 & Hr1).
  set (u1 := if (uid =? uid0) && sub_lapsed now u0 then set_sub false None None u else u).
  assert (Hu1 : user_by_id s1 uid = Some u1).
  { subst s1 u1. destruct (sub_lapsed now u0).
    - rewrite (user_by_id_patched uid0 uid (set_sub false None None) s u
                 (fun _ => eq_refl) Hu).
      now rewrite andb_true_r.
    - now rewrite andb_false_r. }
  assert (Hg1 : no_gain u u1).
  { subst u1. destruct (_ && _); [|exact Hrefl].
    unfold no_gain. cbn. repeat split; auto; discriminate. }
  assert (Hus : trials_used u1 = trials_used u)
    by (subst u1; destruct (_ && _); reflexivity).
  assert (Hstay : forall r, P (Some uid0) (r, s1)).
  { intros r. unfold P. cbn [fst snd]. repeat (split; [assumption|]).
    exists u1. split; [exact Hu1|]. split; [exact Hg1|now left]. }
  destruct (trial_gate _); [apply Hstay|].
  fold (normalize now u0).
  assert (Hmetered : forall r : response,
             metered (normalize now u0) = true ->
             ((exists t, reply = Parsed t /\ r = OkAnalysis (js_or_str t "Your Project")) \/
              (reply = ParsedNull /\ exists m, r = Error 500 m)) ->
             forall s2,
               users s2 = users (update_user uid0
                            (set_trials_used (js_num (trials_used (normalize now u0)) + 1)) s1) ->
               coupons s2 = coupons s1 -> payments s2 = payments s1 ->
               coupon_redemptions s2 = coupon_redemptions s1 ->
               P (Some uid0) (r, s2)).
  { intros r Hm Hr s2 Hus2 Hcs Hps Hrs. unfold P. cbn [fst snd].
    split; [now rewrite Hcs|]. split; [now rewrite Hps|]. split; [now rewrite Hrs|].
    exists (if uid =? uid0
            then set_trials_used (js_num (trials_used (normalize now u0)) + 1) u1
            else u1).
    split.
    { rewrite (user_by_id_users _ s2 uid Hus2). now apply user_by_id_patched. }
    destruct (Z.eqb_spec uid uid0) as [->|Hne].
    - assert (u0 = u) by congruence. subst u0.
      destruct (normalize_columns now u) as (_ & _ & _ & _ & Hnu).
      rewrite Hnu. split.
      + unfold no_gain in *. cbn [id email role trials_total subscribed sub_plan
                                  sub_expires set_trials_used]. exact Hg1.
      + right. split; [reflexivity|]. split; [exact Hr|reflexivity].
    - split; [exact Hg1|now left]. }
  destruct reply as [| | | |title|]; try apply Hstay.
  - destruct (metered (normalize now u0)) eqn:Hm; [|apply Hstay].
    apply Hmetered; try reflexivity. left. exists title. now split.
  - destruct (metered (normalize now u0)) eqn:Hm; [|apply Hstay].
    apply Hmetered; try reflexivity. right. split; [reflexivity|]. eexists; reflexivity.
Qed.

Lemma analyze_never_grants_witness :
  let s := store_of [monthly_until 7 500] [] [] in
  let out := analyze 1000 (Parsed None) (mkAnalyzeReq (Some long_text) (Some 7)) s in
  exists u', user_by_id (snd out) 7 = Some u' /\ trials_total u' = Some 3 /\
             trials_used u' = Some 2.
Proof.
  intros s out.
  destruct (analyze_never_grants 1000 (Parsed None)
              (mkAnalyzeReq (Some long_text) (Some 7)) s 7 (monthly_until 7 500) eq_refl)
    as (_ & _ & _ & u' & Hu' & Hg & _).
  exists u'. split; [exact Hu'|]. split; [exact (proj1 (proj2 (proj2 (proj2 Hg))))|].
  vm_compute in Hu'. inversion Hu'. reflexivity.
Defined.

(** ** Login: the returned view and the stored row *)

Lemma filter_id_none {A} (key : A -> Z) (k : Z) (l : list A) :
  ~ In k (map key l) -> filter (fun r => key r =? k) l = [].
Proof.
  induction l as [|a l IH]; simpl; intros Hn; [reflexivity|].
  destruct (Z.eqb_spec (key a) k) as [E|E].
  - exfalso. apply Hn. now left.
  - apply IH. intros H. apply Hn. now right.
Qed.

Lemma filter_id_one {A} (key : A -> Z) (r : A) (l : list A) :
  NoDup (map key l) -> In r l -> filter (fun x => key x =? key r) l = [r].
Proof.
  induction l as [|a l IH]; simpl; intros Hnd Hin; [contradiction|].
  inversion Hnd as [|x xs Hx Hnd']; subst.
  destruct Hin as [->|Hin].
  - rewrite Z.eqb_refl. now rewrite filter_id_none.
  - destruct (Z.eqb_spec (key a) (key r)) as [E|E].
    + exfalso. apply Hx. rewrite E. now apply in_map.
    + now apply IH.
Qed.

Lemma login_finish_shows (now : Z) (snap row : user) (s : db) (v : user_view) :
  user_by_id s (id snap) = Some row ->
  sub_lapsed now row = sub_lapsed now snap ->
  shows (formatUser now snap) row ->
  shows (formatUser now (set_sub false None None snap)) (set_sub false None None row) ->
  fst (login_finish now snap s) = OkUser v ->
  exists row', user_by_id (snd (login_finish now snap s)) (v_id v) = Some row' /\
               sub_lapsed now row' = false /\ shows v row'.
Proof.
  intros Hrow Hl Hs Hs' Hv. unfold login_finish in *.
  destruct (sub_lapsed now snap) eqn:E; cbn [fst snd] in *; inversion Hv; subst v.
  - exists (set_sub false None None row). split; [|split; [reflexivity|exact Hs']].
    cbn [v_id formatUser id set_sub]. now apply user_by_id_update_same.
  - exists row. split; [exact Hrow|]. split; [exact Hl|exact Hs].
Qed.

(** X22.  The login route carries its own copy of the expiry check, and it
    agrees with the store: whenever a login succeeds, the account the
    response names is stored, the stored row carries no lapsed monthly
    subscription, and the identity, quota and subscription fields of the
    response are those of the stored row. *)
Theorem login_view_stored (now : Z) (fresh : user) (e n : option string) (s : db)
    (v : user_view) :
  NoDup (map id (users s)) -> ~ In (id fresh) (map id (users s)) ->
  fst (login now fresh e n s) = OkUser v ->
  exists row, user_by_id (snd (login now fresh e n s)) (v_id v) = Some row /\
              sub_lapsed now row = false /\ shows v row.
Proof.
  intros Hids Hfresh Hv. unfold login in *.
  destruct (nonempty e) as [a|]; [|discriminate Hv].
  cbv zeta in *.
  destruct (users_by_email s (trim (toLowerCase a))) as [|u [|u2 l]] eqn:Hf;
    [| |discriminate Hv].
  - match type of Hv with
    | fst (login_finish now ?nu ?s') = _ =>
        apply (login_finish_shows now nu nu s' v); [|reflexivity| | |exact Hv]
    end.
    + unfold user_by_id. cbn [users with_users id].
      rewrite filter_app, (filter_id_none id (id fresh) _ Hfresh).
      cbn [app filter id]. now rewrite Z.eqb_refl.
    + unfold shows, formatUser. cbn. now repeat split.
    + unfold shows, formatUser. cbn. now repeat split.
  - assert (Hin : In u (users s)).
    { assert (H : In u (users_by_email s (trim (toLowerCase a))))
        by (rewrite Hf; now left).
      unfold users_by_email in H. now apply filter_In in H. }
    assert (Hu : user_by_id s (id u) = Some u)
      by (unfold user_by_id; now rewrite (filter_id_one id u _ Hids Hin)).
    set (rename := if blank n then (fun r : user => r)
                   else set_name (trim (js_or_str n ""))) in *.
    assert (Hid : forall r, id (rename r) = id r)
      by (intros r; subst rename; destruct (blank n); reflexivity).
    apply (login_finish_shows now (rename u) (rename (set_last_login now u)) _ v);
      [| | | |exact Hv].
    + rewrite Hid.
      apply (user_by_id_update_same (id u) (fun r => rename (set_last_login now r)) s u);
        [|exact Hu].
      intros r. now rewrite Hid.
    + subst rename. destruct (blank n); reflexivity.
    + subst rename. unfold shows, formatUser. destruct (blank n); cbn; now repeat split.
    + subst rename. unfold shows, formatUser. destruct (blank n); cbn; now repeat split.
Qed.

Lemma login_view_stored_witness :
  let s := store_of [monthly_until 7 500] [] [] in
  let out := login 1000 (student 8 (Some 3) (Some 0)) (Some "Ravi@Example.com") None s in
  exists row, user_by_id (snd out) 7 = Some row /\ subscribed row = false.
Proof.
  intros s out.
  assert (Hids : NoDup (map id (users s))).
  { cbn. constructor; [intros []|constructor]. }
  assert (Hfresh : ~ In (id (student 8 (Some 3) (Some 0))) (map id (users s)))
    by (intros [H|[]]; discriminate H).
  destruct (login_view_stored 1000 (student 8 (Some 3) (Some 0)) (Some "Ravi@Example.com")
              None s _ Hids Hfresh eq_refl) as (row & Hrow & _ & Hs).
  exists row. split; [exact Hrow|].
  destruct Hs as (_ & _ & _ & _ & _ & _ & Hsub & _). now rewrite <- Hsub.
Defined.

(** ** The v3.0.0 backend: a subscription that has run out *)

Lemma v3extra_single_in {A} (p : A -> bool) (l : list A) (r x : A) :
  single (filter p l) = Some r -> In x l -> p x = true -> x = r.
Proof.
  intros Hs Hx Hp. apply single_some in Hs.
  assert (Hin : In x (filter p l)) by (apply filter_In; now split).
  rewrite Hs in Hin. now destruct Hin as [<-|[]].
Qed.

(** X23.  In v3.0.0 nothing ever clears a subscription that has run out,
    and [userCanAnalyze] does not fall back to the trial quota: a user who
    is not an admin, is marked subscribed and has an expiry that is not in
    the future cannot analyze, whatever the trial counters say.  Redeeming a
    coupon does not help: whenever such a redemption is answered with
    success, its [can_analyze] is false. *)
Theorem expired_subscriber_locked (FREE now : Z) (w : V3Extra.redeem_writes)
    (em c : string) (s s' : V3Extra.db) (u v : V3Extra.user) (e : Z)
    (m : string) (can : bool) (allowed : Z) :
  single (filter (fun r => String.eqb (V3Extra.email r) (toLowerCase (trim em)))
                 (V3Extra.users s)) = Some u ->
  V3Extra.role u <> "admin" -> V3Extra.subscribed u = true ->
  V3Extra.sub_expires u = Some e -> e <= now ->
  V3Extra.redeem FREE now w (Some em) (Some c) s = (V3Extra.Redeemed m v can allowed, s') ->
  V3Extra.userCanAnalyze FREE now (Some u) = false /\ can = false.
Proof.
  intros Hu Hrole Hsub Hexp Hle Hred.
  assert (Hlock : forall x, V3Extra.role x = V3Extra.role u ->
                            V3Extra.subscribed x = true ->
                            V3Extra.sub_expires x = Some e ->
                            V3Extra.userCanAnalyze FREE now (Some x) = false).
  { intros x Hr Hs He. unfold V3Extra.userCanAnalyze. rewrite Hr, Hs, He.
    apply String.eqb_neq in Hrole. rewrite Hrole.
    destruct (Z.ltb_spec now e); [lia|reflexivity]. }
  split; [now apply Hlock|].
  unfold V3Extra.redeem in Hred.
  destruct (nonempty (Some em)) as [em'|] eqn:Hem; [|discriminate Hred].
  assert (em' = em).
  { unfold nonempty in Hem. destruct (String.eqb em ""); congruence. }
  subst em'.
  destruct (nonempty (Some c)) as [c'|]; [|discriminate Hred].
  cbv zeta in Hred.
  destruct (single (filter _ (V3Extra.coupons s))) as [cp|]; [|discriminate Hred].
  destruct (negb (V3Extra.active cp)); [discriminate Hred|].
  destruct (V3Extra.reaches_max cp (V3Extra.uses cp)); [discriminate Hred|].
  rewrite Hu in Hred.
  destruct (single (filter _ (V3Extra.coupon_redemptions s))); [discriminate Hred|].
  destruct (_ || _); [discriminate Hred|].
  destruct (_ && _); [discriminate Hred|].
  match type of Hred with
  | context [single (filter ?p (V3Extra.users ?s2))] =>
      destruct (single (filter p (V3Extra.users s2))) as [v'|] eqn:Hv;
        [|discriminate Hred];
      assert (Hs2 : V3Extra.users s2 = V3Extra.users s \/
                    V3Extra.users s2 =
                    update_where (fun r => V3Extra.id r =? V3Extra.id u)
                      (V3Extra.coupon_updates cp u) (V3Extra.users s))
  end.
  { destruct (V3Extra.reaches_max cp (V3Extra.uses cp + 1)),
      (V3Extra.w_deactivate w), (V3Extra.w_insert w), (V3Extra.w_coupon w),
      (V3Extra.w_user w); cbn; auto. }
  inversion Hred; subst v' can. clear Hred.
  assert (Hin : In u (V3Extra.users s)).
  { apply single_some in Hu.
    assert (H : In u (filter (fun r => String.eqb (V3Extra.email r) (toLowerCase (trim em)))
                        (V3Extra.users s))) by (rewrite Hu; now left).
    now apply filter_In in H. }
  destruct Hs2 as [Hs2|Hs2]; rewrite Hs2 in Hv.
  - assert (u = v) by (apply (v3extra_single_in _ _ _ _ Hv Hin); apply Z.eqb_refl).
    subst v. now apply Hlock.
  - rewrite filter_update_where in Hv
      by (intros r; unfold V3Extra.coupon_updates; destruct (String.eqb _ _); reflexivity).
    rewrite single_update_where in Hv.
    destruct (single (filter (fun r => V3Extra.id r =? V3Extra.id u) (V3Extra.users s)))
      as [v0|] eqn:Hv0; [|discriminate Hv].
    assert (u = v0) by (apply (v3extra_single_in _ _ _ _ Hv0 Hin); apply Z.eqb_refl).
    subst v0. cbn [option_map] in Hv. rewrite Z.eqb_refl in Hv. inversion Hv.
    apply Hlock; unfold V3Extra.coupon_updates;
      destruct (String.eqb _ _); cbn; auto.
Qed.

Lemma expired_subscriber_locked_witness :
  let u := V3Extra.mkUser 7 "asha@example.com" "student" true (Some "monthly")
                          (Some 500) (Some 0) None in
  let s := V3Extra.mkDb [u] [extra_coupon 5 (Some 10) 2] [] in
  let w := V3Extra.mkWrites Applied Applied Applied Applied in
  V3Extra.userCanAnalyze 3 1000 (Some u) = false /\
  fst (V3Extra.redeem 3 1000 w (Some " Asha@Example.com") (Some "vs-abc12345") s)
  = V3Extra.Redeemed "Coupon applied!"
      (V3Extra.mkUser 7 "asha@example.com" "student" true (Some "monthly")
                      (Some 500) (Some 0) (Some 2)) false 5.
Proof.
  intros u s w.
  assert (Hrole : V3Extra.role u <> "admin") by discriminate.
  assert (Hle : 500 <= 1000) by lia.
  split; [|reflexivity].
  exact (proj1 (expired_subscriber_locked 3 1000 w " Asha@Example.com" "vs-abc12345"
                  s _ u _ 500 _ _ _ eq_refl Hrole eq_refl eq_refl Hle eq_refl)).
Defined.

(** ** The v2 backend: coupons without a use limit *)

(** X24.  The v2 redeem handler compares [uses >= max_uses] without testing
    [max_uses] first, so a coupon whose limit is null (or 0) counts as fully
    redeemed from the start: every redemption of it, with or without a user
    id, is refused and writes nothing.  The v4 test treats the same coupon
    as unlimited. *)
Theorem v2_no_limit_is_spent (ilike : string -> string -> bool) (now : Z)
    (c : string) (uid : option Z) (s : db) (cp : coupon) :
  c <> "" ->
  V2.coupon_by_code ilike s c = Some cp ->
  active cp = true -> js_or (max_uses cp) 0 = 0 -> 0 <= uses cp ->
  V2.redeem ilike now (Some c) uid s = (Error 400 "Coupon has been fully redeemed.", s) /\
  exhausted cp = false.
Proof.
  intros Hne Hc Ha Hm Hu.
  assert (Hnum : js_num (max_uses cp) = 0).
  { destruct (max_uses cp) as [m|]; [|reflexivity]. cbn [js_or js_num] in *.
    destruct (Z.eqb_spec m 0); congruence. }
  split.
  - unfold V2.redeem. rewrite (nonempty_some _ Hne), Hc, Ha. cbn [negb].
    unfold V2.exhausted. rewrite Hnum.
    destruct (Z.leb_spec 0 (uses cp)); [reflexivity|lia].
  - unfold exhausted.
    destruct (max_uses cp) as [m|]; [|reflexivity]. cbn [js_num js_truthy] in *.
    subst m. reflexivity.
Qed.

Lemma v2_no_limit_is_spent_witness :
  let s := store_of [student 7 (Some 3) (Some 0)] [trial_coupon 5 None 0] [] in
  V2.redeem ilike_plain 50 (Some "vs-abc12345") (Some 7) s
  = (Error 400 "Coupon has been fully redeemed.", s).
Proof.
  intros s.
  assert (Hne : "vs-abc12345" <> "") by discriminate.
  assert (Hu : 0 <= uses (trial_coupon 5 None 0)) by (vm_compute; discriminate).
  exact (proj1 (v2_no_limit_is_spent ilike_plain 50 "vs-abc12345" (Some 7) s
                  (trial_coupon 5 None 0) Hne eq_refl eq_refl eq_refl Hu)).
Defined.

(** ** The v3.0.0 backend: metering and payment verification *)

Lemma v3r_user_by_email_update (st : V3ExtraRoutes.store) (uid : Z)
    (f : V3Extra.user -> V3Extra.user) (em : string) (u : V3Extra.user) :
  (forall r, V3Extra.email (f r) = V3Extra.email r) ->
  V3ExtraRoutes.user_by_email st em = Some u ->
  V3ExtraRoutes.user_by_email (V3ExtraRoutes.update_user_by_id uid f st) em
  = Some (if V3Extra.id u =? uid then f u else u).
Proof.
  intros Hf Hu. unfold V3ExtraRoutes.user_by_email in *. cbn.
  rewrite filter_update_where by (intros r; now rewrite Hf).
  now rewrite single_update_where, Hu.
Qed.

Lemma v3r_gate (FREE now : Z) (u : V3Extra.user) :
  V3Extra.role u <> "admin" -> V3Extra.subscribed u = false ->
  V3Extra.userCanAnalyze FREE now (Some u)
  = (js_num (V3Extra.trials_used u) <? V3Extra.totalTrialsAllowed FREE u).
Proof.
  intros Hr Hs. unfold V3Extra.userCanAnalyze. apply String.eqb_neq in Hr.
  now rewrite Hr, Hs, js_or_zero.
Qed.

Lemma v3r_analyze_known (FREE : Z) (ADMIN : string) (now : Z)
    (reply : V3ExtraRoutes.gemini) (text em : string) (st : V3ExtraRoutes.store)
    (u : V3Extra.user) :
  60 <= Z.of_nat (String.length (trim text)) ->
  Z.of_nat (String.length text) <= 15000 ->
  em <> "" -> toLowerCase (trim em) <> toLowerCase ADMIN ->
  V3ExtraRoutes.user_by_email st (toLowerCase (trim em)) = Some u ->
  V3ExtraRoutes.analyze FREE ADMIN now reply (Some text) (Some em) st =
  if negb (V3Extra.userCanAnalyze FREE now (Some u)) then (V3ExtraRoutes.Denied, st)
  else match reply with
       | V3ExtraRoutes.GFetchThrew => (V3ExtraRoutes.Crashed, st)
       | V3ExtraRoutes.GNotOk => (V3ExtraRoutes.UpstreamError, st)
       | V3ExtraRoutes.GEmpty => (V3ExtraRoutes.EmptyReply, st)
       | V3ExtraRoutes.GUnparsable => (V3ExtraRoutes.Unparsed, st)
       | V3ExtraRoutes.GParsed t =>
           let st1 := V3ExtraRoutes.add_log
                        (V3ExtraRoutes.mkLog (Some (V3Extra.id u)) (V3Extra.email u)
                                             (js_or_str t "Your Project")) st in
           (V3ExtraRoutes.Served (js_or_str t "Your Project"),
            if V3Extra.subscribed u then st1
            else V3ExtraRoutes.update_user_by_id (V3Extra.id u)
                   (V3ExtraRoutes.with_trials_used (js_num (V3Extra.trials_used u) + 1)) st1)
       end.
Proof.
  intros Hlo Hhi Hne Hadm Hu. unfold V3ExtraRoutes.analyze, is_empty.
  destruct (String.eqb_spec text "") as [->|_]; [simpl in Hlo; lia|].
  destruct (Z.ltb_spec (Z.of_nat (String.length (trim text))) 60); [lia|].
  destruct (Z.ltb_spec 15000 (Z.of_nat (String.length text))); [lia|].
  rewrite (nonempty_some _ Hne). cbn [option_map].
  apply String.eqb_neq in Hadm. rewrite Hadm, Hu.
  destruct (negb _); [reflexivity|]. destruct reply; reflexivity.
Qed.

(** X25.  In v3.0.0 a known user who is neither an admin nor subscribed is
    served exactly [FREE_TRIALS + extra_trials - trials_used] analyses:
    after that many served requests in a row [trials_used] equals the
    allowance, [extra_trials] is untouched, and every further request is
    denied and writes nothing. *)
Theorem v3extra_quota_run (FREE : Z) (ADMIN : string) (now : Z) (text em : string)
    (st : V3ExtraRoutes.store) (u : V3Extra.user) :
  60 <= Z.of_nat (String.length (trim text)) ->
  Z.of_nat (String.length text) <= 15000 ->
  em <> "" -> toLowerCase (trim em) <> toLowerCase ADMIN ->
  V3ExtraRoutes.user_by_email st (toLowerCase (trim em)) = Some u ->
  V3Extra.role u <> "admin" -> V3Extra.subscribed u = false ->
  js_num (V3Extra.trials_used u) <= V3Extra.totalTrialsAllowed FREE u ->
  let allowed := V3Extra.totalTrialsAllowed FREE u in
  let st' := V3ExtraRoutes.repeat_analyze FREE ADMIN
               (Z.to_nat (allowed - js_num (V3Extra.trials_used u)))
               now (Some text) (Some em) st in
  exists u', V3ExtraRoutes.user_by_email st' (toLowerCase (trim em)) = Some u' /\
             js_num (V3Extra.trials_used u') = allowed /\
             V3Extra.extra_trials u' = V3Extra.extra_trials u /\
             forall now' reply,
               V3ExtraRoutes.analyze FREE ADMIN now' reply (Some text) (Some em) st'
               = (V3ExtraRoutes.Denied, st').
Proof.
  intros Hlo Hhi Hne Hadm Hu Hr Hs Hle allowed st'. subst st'.
  remember (Z.to_nat (allowed - js_num (V3Extra.trials_used u))) as k eqn:Hk.
  revert st u Hu Hr Hs Hle allowed Hk.
  induction k as [|k IH]; intros st u Hu Hr Hs Hle allowed Hk.
  - exists u. cbn [V3ExtraRoutes.repeat_analyze]. split; [exact Hu|].
    split; [subst allowed; lia|]. split; [reflexivity|].
    intros now' reply.
    rewrite (v3r_analyze_known FREE ADMIN now' reply text em st u) by assumption.
    rewrite (v3r_gate FREE now' u Hr Hs).
    destruct (Z.ltb_spec (js_num (V3Extra.trials_used u))
                (V3Extra.totalTrialsAllowed FREE u)); [subst allowed; lia|reflexivity].
  - cbn [V3ExtraRoutes.repeat_analyze].
    rewrite (v3r_analyze_known FREE ADMIN now (V3ExtraRoutes.GParsed None) text em st u)
      by assumption.
    rewrite (v3r_gate FREE now u Hr Hs).
    destruct (Z.ltb_spec (js_num (V3Extra.trials_used u))
                (V3Extra.totalTrialsAllowed FREE u)); [|subst allowed; lia].
    cbn [negb snd]. rewrite Hs.
    set (u1 := V3ExtraRoutes.with_trials_used (js_num (V3Extra.trials_used u) + 1) u).
    match goal with
    | |- context [V3ExtraRoutes.repeat_analyze _ _ _ _ _ _ ?s1] =>
        assert (Hu1 : V3ExtraRoutes.user_by_email s1 (toLowerCase (trim em)) = Some u1)
    end.
    { rewrite (v3r_user_by_email_update _ _ _ _ u); [|reflexivity|exact Hu].
      now rewrite Z.eqb_refl. }
    destruct (IH _ u1 Hu1) as (u' & Hu' & Hused & Hex & Hden); try assumption.
    + subst u1. cbn. subst allowed. unfold V3Extra.totalTrialsAllowed in *. cbn. lia.
    + subst u1. cbn. unfold V3Extra.totalTrialsAllowed in *. cbn. subst allowed.
      unfold V3Extra.totalTrialsAllowed in *. lia.
    + exists u'. split; [exact Hu'|]. split; [exact Hused|]. split; [exact Hex|exact Hden].
Qed.

Lemma v3extra_quota_run_witness :
  let st := V3ExtraRoutes.mkStore
              (V3Extra.mkDb [extra_student 7 (Some 1)] [] []) [] [] in
  let st' := V3ExtraRoutes.repeat_analyze 3 ADMIN_EMAIL 4 50
               (Some long_text) (Some "asha@example.com") st in
  V3ExtraRoutes.analyze 3 ADMIN_EMAIL 60 (V3ExtraRoutes.GParsed None)
    (Some long_text) (Some "asha@example.com") st' = (V3ExtraRoutes.Denied, st').
Proof.
  intros st st'.
  assert (Hlo : 60 <= Z.of_nat (String.length (trim long_text))) by (vm_compute; discriminate).
  assert (Hhi : Z.of_nat (String.length long_text) <= 15000) by (vm_compute; discriminate).
  assert (Hne : "asha@example.com" <> "") by discriminate.
  assert (Hadm : toLowerCase (trim "asha@example.com") <> toLowerCase ADMIN_EMAIL)
    by discriminate.
  assert (Hr : V3Extra.role (extra_student 7 (Some 1)) <> "admin") by discriminate.
  assert (Hle : js_num (V3Extra.trials_used (extra_student 7 (Some 1)))
                <= V3Extra.totalTrialsAllowed 3 (extra_student 7 (Some 1)))
    by (vm_compute; discriminate).
  destruct (v3extra_quota_run 3 ADMIN_EMAIL 50 long_text "asha@example.com" st
              (extra_student 7 (Some 1)) Hlo Hhi Hne Hadm eq_refl Hr eq_refl Hle)
    as (u' & _ & _ & _ & Hden).
  exact (Hden 60 (V3ExtraRoutes.GParsed None)).
Defined.

(** X26.  In v3.0.0 the analyze route turns away a subscriber whose expiry
    has passed: a known user who is not an admin, is marked subscribed and
    has an expiry that is not in the future is denied whatever the Analyzer
    would answer and however many trials are left, and nothing is written. *)
Theorem v3extra_expired_denied (FREE : Z) (ADMIN : string) (now : Z)
    (reply : V3ExtraRoutes.gemini) (text em : string) (st : V3ExtraRoutes.store)
    (u : V3Extra.user) (e : Z) :
  60 <= Z.of_nat (String.length (trim text)) ->
  Z.of_nat (String.length text) <= 15000 ->
  em <> "" -> toLowerCase (trim em) <> toLowerCase ADMIN ->
  V3ExtraRoutes.user_by_email st (toLowerCase (trim em)) = Some u ->
  V3Extra.role u <> "admin" -> V3Extra.subscribed u = true ->
  V3Extra.sub_expires u = Some e -> e <= now ->
  V3ExtraRoutes.analyze FREE ADMIN now reply (Some text) (Some em) st
  = (V3ExtraRoutes.Denied, st).
Proof.
  intros Hlo Hhi Hne Hadm Hu Hr Hs He Hle.
  rewrite (v3r_analyze_known FREE ADMIN now reply text em st u) by assumption.
  unfold V3Extra.userCanAnalyze. apply String.eqb_neq in Hr. rewrite Hr, Hs, He.
  destruct (Z.ltb_spec now e); [lia|reflexivity].
Qed.

Lemma v3extra_expired_denied_witness :
  let u := V3Extra.mkUser 7 "asha@example.com" "student" true (Some "monthly")
                          (Some 500) (Some 0) None in
  let st := V3ExtraRoutes.mkStore (V3Extra.mkDb [u] [] []) [] [] in
  V3ExtraRoutes.analyze 3 ADMIN_EMAIL 1000 (V3ExtraRoutes.GParsed None)
    (Some long_text) (Some "Asha@Example.com ") st = (V3ExtraRoutes.Denied, st).
Proof.
  intros u st.
  assert (Hlo : 60 <= Z.of_nat (String.length (trim long_text))) by (vm_compute; discriminate).
  assert (Hhi : Z.of_nat (String.length long_text) <= 15000) by (vm_compute; discriminate).
  assert (Hne : "Asha@Example.com " <> "") by discriminate.
  assert (Hadm : toLowerCase (trim "Asha@Example.com ") <> toLowerCase ADMIN_EMAIL)
    by discriminate.
  assert (Hr : V3Extra.role u <> "admin") by discriminate.
  assert (Hle : 500 <= 1000) by lia.
  exact (v3extra_expired_denied 3 ADMIN_EMAIL 1000 (V3ExtraRoutes.GParsed None) long_text
           "Asha@Example.com " st u 500 Hlo Hhi Hne Hadm eq_refl Hr eq_refl eq_refl Hle).
Defined.

Lemma v3r_payment_found (st : V3ExtraRoutes.store) (pid : Z) (pay : payment) :
  single (filter (fun p => p_id p =? pid) (V3ExtraRoutes.st_payments st)) = Some pay ->
  (p_id pay =? pid) = true.
Proof.
  intros H. apply single_some in H.
  assert (Hin : In pay (filter (fun p => p_id p =? pid) (V3ExtraRoutes.st_payments st)))
    by (rewrite H; now left).
  now apply filter_In in Hin.
Qed.

Lemma v3r_verify_ten (now pid : Z) (st : V3ExtraRoutes.store) (pay : payment)
    (em : string) (u : V3Extra.user) :
  single (filter (fun p => p_id p =? pid) (V3ExtraRoutes.st_payments st)) = Some pay ->
  plan pay = "10" -> p_email pay = Some em ->
  V3ExtraRoutes.user_by_email st em = Some u ->
  let st' := V3ExtraRoutes.update_payment_by_id pid (V3ExtraRoutes.set_granted (Some 1))
               (V3ExtraRoutes.update_user_by_id (V3Extra.id u)
                  (V3ExtraRoutes.with_extra_trials (js_num (V3Extra.extra_trials u) + 1))
                  (V3ExtraRoutes.update_payment_by_id pid
                     (V3ExtraRoutes.stamp_verified now) st)) in
  V3ExtraRoutes.verify now (Some pid) st = (Ok "Payment verified and access granted.", st') /\
  single (filter (fun p => p_id p =? pid) (V3ExtraRoutes.st_payments st'))
  = Some (V3ExtraRoutes.set_granted (Some 1) (V3ExtraRoutes.stamp_verified now pay)) /\
  V3ExtraRoutes.user_by_email st' em
  = Some (V3ExtraRoutes.with_extra_trials (js_num (V3Extra.extra_trials u) + 1) u).
Proof.
  intros Hp Hplan Hem Hu st'. split; [|split].
  - unfold V3ExtraRoutes.verify. rewrite Hp, Hem.
    change (V3ExtraRoutes.user_by_email
              (V3ExtraRoutes.update_payment_by_id pid (V3ExtraRoutes.stamp_verified now) st) em)
      with (V3ExtraRoutes.user_by_email st em).
    rewrite Hu, Hplan. reflexivity.
  - subst st'. cbn [V3ExtraRoutes.st_payments V3ExtraRoutes.update_payment_by_id
                    V3ExtraRoutes.update_user_by_id V3ExtraRoutes.on_payments
                    V3ExtraRoutes.on_db].
    rewrite !filter_update_where by reflexivity.
    rewrite !single_update_where, Hp. cbn [option_map].
    rewrite (v3r_payment_found st pid pay Hp). cbn [p_id V3ExtraRoutes.stamp_verified].
    now rewrite (v3r_payment_found st pid pay Hp).
  - subst st'.
    change (V3ExtraRoutes.user_by_email
              (V3ExtraRoutes.update_user_by_id (V3Extra.id u)
                 (V3ExtraRoutes.with_extra_trials (js_num (V3Extra.extra_trials u) + 1)) st) em
            = Some (V3ExtraRoutes.with_extra_trials (js_num (V3Extra.extra_trials u) + 1) u)).
    rewrite (v3r_user_by_email_update st _ _ em u); [|reflexivity|exact Hu].
    now rewrite Z.eqb_refl.
Qed.

(** X27.  The v3.0.0 verify route does not look at the payment's status.
    Verifying a plan-10 payment of a known user marks it verified and adds
    one extra trial; verifying the same payment again succeeds again and
    adds another one. *)
Theorem v3extra_verify_repeats (now1 now2 pid : Z) (st : V3ExtraRoutes.store)
    (pay : payment) (em : string) (u : V3Extra.user) :
  single (filter (fun p => p_id p =? pid) (V3ExtraRoutes.st_payments st)) = Some pay ->
  plan pay = "10" -> p_email pay = Some em ->
  V3ExtraRoutes.user_by_email st em = Some u ->
  let st1 := snd (V3ExtraRoutes.verify now1 (Some pid) st) in
  let st2 := snd (V3ExtraRoutes.verify now2 (Some pid) st1) in
  fst (V3ExtraRoutes.verify now1 (Some pid) st) = Ok "Payment verified and access granted." /\
  option_map status
    (single (filter (fun p => p_id p =? pid) (V3ExtraRoutes.st_payments st1)))
  = Some "verified" /\
  option_map V3Extra.extra_trials (V3ExtraRoutes.user_by_email st1 em)
  = Some (Some (js_num (V3Extra.extra_trials u) + 1)) /\
  fst (V3ExtraRoutes.verify now2 (Some pid) st1) = Ok "Payment verified and access granted." /\
  option_map V3Extra.extra_trials (V3ExtraRoutes.user_by_email st2 em)
  = Some (Some (js_num (V3Extra.extra_trials u) + 2)).
Proof.
  intros Hp Hplan Hem Hu st1 st2.
  destruct (v3r_verify_ten now1 pid st pay em u Hp Hplan Hem Hu) as (Hv1 & Hp1 & Hu1).
  cbv zeta in Hv1, Hp1, Hu1.
  assert (Hs1 : st1 = snd (V3ExtraRoutes.verify now1 (Some pid) st)) by reflexivity.
  rewrite Hv1 in Hs1. cbn [snd] in Hs1. rewrite <- Hs1 in Hp1, Hu1.
  destruct (v3r_verify_ten now2 pid st1 _ em _ Hp1 Hplan Hem Hu1) as (Hv2 & _ & Hu2).
  cbv zeta in Hv2, Hu2.
  assert (Hs2 : st2 = snd (V3ExtraRoutes.verify now2 (Some pid) st1)) by reflexivity.
  rewrite Hv2 in Hs2. cbn [snd] in Hs2. rewrite <- Hs2 in Hu2.
  split; [now rewrite Hv1|]. split; [now rewrite Hp1|].
  split; [now rewrite Hu1|]. split; [now rewrite Hv2|].
  rewrite Hu2. cbn. do 2 f_equal. lia.
Qed.

Lemma v3extra_verify_repeats_witness :
  let st := V3ExtraRoutes.mkStore (V3Extra.mkDb [extra_student 7 None] [] [])
              [pending_payment 1 7 "10"] [] in
  let st1 := snd (V3ExtraRoutes.verify 1000 (Some 1) st) in
  let st2 := snd (V3ExtraRoutes.verify 2000 (Some 1) st1) in
  option_map V3Extra.extra_trials (V3ExtraRoutes.user_by_email st2 "asha@example.com")
  = Some (Some 2).
Proof.
  intros st st1 st2.
  exact (proj2 (proj2 (proj2 (proj2
           (v3extra_verify_repeats 1000 2000 1 st (pending_payment 1 7 "10")
              "asha@example.com" (extra_student 7 None) eq_refl eq_refl eq_refl eq_refl))))).
Defined.

(** ** A reply that is the JSON value [null] *)

(** X28.  When the Analyzer's text is the JSON value [null],
    [parseGeminiJSON] returns it without throwing and the handler goes on:
    for a known user who passes the gate it writes the increment of
    [trials_used] if the user is metered, and only then fails on
    [parsed.projectTitle].  The request is answered with 500, nothing is
    logged, and a metered user has been charged one trial. *)
Theorem null_reply_metered (now : Z) (text : string) (uid : Z) (s : db) (u : user) :
  60 <= Z.of_nat (String.length (trim text)) ->
  Z.of_nat (String.length text) <= 15000 ->
  user_by_id s uid = Some u ->
  let v := normalize now u in
  trial_gate (Some v) = None ->
  let out := analyze now ParsedNull (mkAnalyzeReq (Some text) (Some uid)) s in
  (exists m, fst out = Error 500 m) /\
  analyses (snd out) = analyses s /\
  user_by_id (snd out) uid =
    Some (if metered v then set_trials_used (js_num (trials_used u) + 1) v else v) /\
  (metered v = true ->
   exists u', user_by_id (snd out) uid = Some u' /\
              trials_used u' = Some (js_num (trials_used u) + 1)).
Proof.
  intros Hlo Hhi Hu v Hg out. subst out.
  rewrite analyze_valid_text by assumption.
  pose proof (refreshUser_persisted now uid s u Hu) as Hp.
  rewrite (refreshUser_found _ _ _ _ Hu) in *. fold v in Hp |- *. cbn [snd] in Hp.
  rewrite Hg. cbn [fst snd].
  destruct (normalize_trials now u) as (Hused & _). fold v in Hused. rewrite Hused.
  assert (Hrow : user_by_id
                   (if metered v
                    then update_user uid (set_trials_used (js_num (trials_used u) + 1))
                           (if sub_lapsed now u
                            then update_user uid (set_sub false None None) s else s)
                    else if sub_lapsed now u
                         then update_user uid (set_sub false None None) s else s) uid
                 = Some (if metered v
                         then set_trials_used (js_num (trials_used u) + 1) v else v)).
  { destruct (metered v); [|exact Hp]. apply user_by_id_update_same; auto. }
  split; [eexists; reflexivity|]. split.
  - destruct (metered v), (sub_lapsed now u); reflexivity.
  - split; [exact Hrow|]. intros Hm. rewrite Hm in Hrow |- *.
    eexists. split; [exact Hrow|reflexivity].
Qed.

Lemma null_reply_metered_witness :
  let s := store_of [student 1 (Some 3) (Some 2)] [] [] in
  let out := analyze 50 ParsedNull (mkAnalyzeReq (Some long_text) (Some 1)) s in
  (exists m, fst out = Error 500 m) /\
  exists u', user_by_id (snd out) 1 = Some u' /\ trials_used u' = Some 3.
Proof.
  intros s out.
  assert (Hlo : 60 <= Z.of_nat (String.length (trim long_text))) by (vm_compute; discriminate).
  assert (Hhi : Z.of_nat (String.length long_text) <= 15000) by (vm_compute; discriminate).
  destruct (null_reply_metered 50 long_text 1 s (student 1 (Some 3) (Some 2))
              Hlo Hhi eq_refl eq_refl) as (H1 & _ & _ & H2).
  split; [exact H1|]. exact (H2 eq_refl).
Defined.
